(** * HTTP/3 common connection core: a model of lib/http3/common.c

    Pointers into a byte buffer are offsets (Z) into a [list byte]; a function
    taking [const uint8_t **src, const uint8_t *src_end] takes the buffer and
    the two offsets and returns the new value of [*src].  Unsigned machine
    integers are Z with the wrap-around written out.  The [err_desc] out
    parameter only carries a diagnostic string and is left out. *)

From Stdlib Require Import ZArith List Bool Lia.
From Stdlib Require Import Strings.Byte.
Import ListNotations.
Local Open Scope Z_scope.

(** ** Machine integers and memory *)

Definition UINT64_MAX : Z := 2 ^ 64 - 1.

(** Arithmetic on [size_t] / [uint64_t]. *)
Definition wrap64 (z : Z) : Z := z mod 2 ^ 64.

(** [(uint8_t) z] and [(uint32_t) z]. *)
Definition to_uint8 (z : Z) : Z := z mod 2 ^ 8.
Definition to_uint32 (z : Z) : Z := z mod 2 ^ 32.

Definition memory := list byte.

(** [*p] for [const uint8_t *p]. *)
Definition load (mem : memory) (p : Z) : Z :=
  Z.of_N (Byte.to_N (nth (Z.to_nat p) mem x00)).

(** The [len] bytes at [p]. *)
Definition slice (mem : memory) (p len : Z) : list byte :=
  firstn (Z.to_nat len) (skipn (Z.to_nat p) mem).

(** The bytes from the cursor to the end of the input. *)
Definition view (mem : memory) (src src_end : Z) : list byte :=
  slice mem src (src_end - src).

(** ** Return codes

    The numeric values of the codes are fixed in h2o/http3_common.h and
    picotls.h; the code below only compares them with each other and with 0,
    so they are kept symbolic.  [RET_OTHER] stands for any other non-zero
    [int] that a callback or the QPACK codec can hand back. *)

Inductive retcode : Type :=
| RET_OK
| H2O_HTTP3_ERROR_INCOMPLETE
| H2O_HTTP3_ERROR_MALFORMED_FRAME (type : Z)
| H2O_HTTP3_ERROR_CLOSED_CRITICAL_STREAM
| PTLS_ERROR_NO_MEMORY
| RET_OTHER (code : Z).

Definition retcode_eqb (a b : retcode) : bool :=
  match a, b with
  | RET_OK, RET_OK => true
  | H2O_HTTP3_ERROR_INCOMPLETE, H2O_HTTP3_ERROR_INCOMPLETE => true
  | H2O_HTTP3_ERROR_MALFORMED_FRAME s, H2O_HTTP3_ERROR_MALFORMED_FRAME t => s =? t
  | H2O_HTTP3_ERROR_CLOSED_CRITICAL_STREAM, H2O_HTTP3_ERROR_CLOSED_CRITICAL_STREAM => true
  | PTLS_ERROR_NO_MEMORY, PTLS_ERROR_NO_MEMORY => true
  | RET_OTHER s, RET_OTHER t => s =? t
  | _, _ => false
  end.

(** Frame types and settings identifiers (h2o/http3_common.h). *)
Definition H2O_HTTP3_FRAME_TYPE_DATA : Z := 0.
Definition H2O_HTTP3_FRAME_TYPE_SETTINGS : Z := 4.
Definition H2O_HTTP3_FRAME_TYPE_MAX_PUSH_ID : Z := 13.
Definition H2O_HTTP3_SETTINGS_HEADER_TABLE_SIZE : Z := 1.
Definition H2O_HTTP3_DEFAULT_HEADER_TABLE_SIZE : Z := 4096.

(** maximum payload size excluding DATA frame *)
Definition MAX_FRAME_SIZE : Z := 16384.

(** ** Decoders of the transport libraries *)

(** Big-endian accumulation of [n] bytes starting at [p]. *)
Fixpoint load_be (mem : memory) (p : Z) (n : nat) (acc : Z) : Z :=
  match n with
  | O => acc
  | S k => load_be mem (p + 1) k (acc * 256 + load mem p)
  end.

(** Modelled from the spec: [quicly_decodev] of the QUIC library, which is not
    in this file.  It reads QUIC's 1-/2-/4-/8-byte variable-length integer at
    [src]: the two top bits of the first byte give the size, the remaining
    bits the value in network order.  [UINT64_MAX] is returned when the
    buffer ends before the integer does.  The callers below work on a local
    copy of the cursor and drop it on failure, so the cursor is returned
    unmoved in that case. *)
Definition quicly_decodev (mem : memory) (src src_end : Z) : Z * Z :=
  if src =? src_end then (UINT64_MAX, src)
  else
    let b := load mem src in
    let len := Z.shiftl 1 (Z.shiftr b 6) in
    if src_end - src <? len then (UINT64_MAX, src)
    else (load_be mem (src + 1) (Z.to_nat (len - 1)) (Z.land b 63), src + len).

(** Modelled from the spec: [ptls_decode16] of the TLS library, which is not
    in this file.  It reads a 16-bit integer in network order and fails when
    fewer than two bytes remain. *)
Definition ptls_decode16 (mem : memory) (src src_end : Z) : option (Z * Z) :=
  if src_end - src <? 2 then None
  else Some (load mem src * 256 + load mem (src + 1), src + 2).

(** The number of bytes of the variable-length integer whose first byte is at [p]. *)
Definition varint_size (mem : memory) (p : Z) : Z := 2 ^ (load mem p / 64).

(** The buffer ends before the variable-length integer at [src] does. *)
Definition varint_truncated (mem : memory) (src src_end : Z) : Prop :=
  src = src_end \/ src_end - src < varint_size mem src.

(** ** The frame reader *)

Record h2o_http3_read_frame_t : Type := mk_frame {
  frame_type : Z;
  frame_header_size : Z;
  frame_payload : Z;
  frame_length : Z
}.

Definition set_frame_length (f : h2o_http3_read_frame_t) (v : Z) :=
  mk_frame (frame_type f) (frame_header_size f) (frame_payload f) v.
Definition set_frame_type (f : h2o_http3_read_frame_t) (v : Z) :=
  mk_frame v (frame_header_size f) (frame_payload f) (frame_length f).
Definition set_frame_header_size (f : h2o_http3_read_frame_t) (v : Z) :=
  mk_frame (frame_type f) v (frame_payload f) (frame_length f).
Definition set_frame_payload (f : h2o_http3_read_frame_t) (v : Z) :=
  mk_frame (frame_type f) (frame_header_size f) v (frame_length f).

(** [h2o_http3_read_frame(frame, _src, src_end, err_desc)].  [frame] is the
    caller's record as it was before the call; the result is the return
    value, the record after the call and the new [*_src]. *)
Definition h2o_http3_read_frame (frame : h2o_http3_read_frame_t) (mem : memory)
    (_src src_end : Z) : retcode * h2o_http3_read_frame_t * Z :=
  let '(len, src) := quicly_decodev mem _src src_end in
  let frame := set_frame_length frame len in
  if len =? UINT64_MAX then (H2O_HTTP3_ERROR_INCOMPLETE, frame, _src)
  else if src =? src_end then (H2O_HTTP3_ERROR_INCOMPLETE, frame, _src)
  else
    let frame := set_frame_type frame (load mem src) in
    let src := src + 1 in
    let frame := set_frame_header_size frame (to_uint8 (src - _src)) in
    if negb (frame_type frame =? H2O_HTTP3_FRAME_TYPE_DATA) then
      if MAX_FRAME_SIZE <=? frame_length frame then
        (H2O_HTTP3_ERROR_MALFORMED_FRAME (frame_type frame), frame, _src)
      else if src_end - src <? frame_length frame then
        (H2O_HTTP3_ERROR_INCOMPLETE, frame, _src)
      else
        (RET_OK, set_frame_payload frame src, src + frame_length frame)
    else (RET_OK, frame, src).

Definition rf_ret (r : retcode * h2o_http3_read_frame_t * Z) : retcode := fst (fst r).
Definition rf_frame (r : retcode * h2o_http3_read_frame_t * Z) := snd (fst r).
Definition rf_src (r : retcode * h2o_http3_read_frame_t * Z) : Z := snd r.

(** ** Growable buffers (h2o_buffer_t) *)

Record h2o_buffer_t : Type := mk_buffer {
  capacity : Z;
  size : Z;
  bytes : memory
}.

(** [memcpy(dst + off, src, len)]: cell [i] of [dst] with [off <= i < off + len]
    receives [src[i - off]] and every other cell is kept.  Writing outside the
    allocation is undefined in C; the model drops such cells. *)
Fixpoint memcpy_from (i : Z) (dst : memory) (off : Z) (src : list byte) (len : Z) : memory :=
  match dst with
  | [] => []
  | b :: rest =>
      (if (off <=? i) && (i <? off + len) then nth (Z.to_nat (i - off)) src b else b)
        :: memcpy_from (i + 1) rest off src len
  end.

Definition memcpy (dst : memory) (off : Z) (src : list byte) (len : Z) : memory :=
  memcpy_from 0 dst off src len.

(** Modelled from the spec: [h2o_buffer_consume] (lib/common/memory.c, not in
    this file) drops [delta] bytes from the front of the buffer. *)
Definition h2o_buffer_consume (buf : h2o_buffer_t) (delta : Z) : h2o_buffer_t :=
  mk_buffer (capacity buf - delta) (wrap64 (size buf - delta))
            (skipn (Z.to_nat delta) (bytes buf)).

(** Modelled from the spec: [h2o_buffer_reserve] (lib/common/memory.c, not in
    this file) makes room for [min_guarantee] more bytes, keeping the bytes in
    use; growth may fail, and then the buffer is left as it is.  [alloc_ok]
    says whether the allocator delivers.  The functions below take the
    reservation function as a parameter; this one instantiates it. *)
Definition h2o_buffer_reserve_model (alloc_ok : bool) (buf : h2o_buffer_t)
    (min_guarantee : Z) : h2o_buffer_t :=
  if min_guarantee <=? capacity buf - size buf then buf
  else if alloc_ok then
    let new_capacity := size buf + min_guarantee in
    mk_buffer new_capacity (size buf)
              (bytes buf ++ repeat x00 (Z.to_nat (new_capacity - capacity buf)))
  else buf.

Section Recvbuf.

Variable h2o_buffer_reserve : h2o_buffer_t -> Z -> h2o_buffer_t.

(** [h2o_http3_update_recvbuf(buf, off, src, len)]: the return value and [*buf]
    after the call. *)
Definition h2o_http3_update_recvbuf (buf : h2o_buffer_t) (off : Z)
    (src : list byte) (len : Z) : retcode * h2o_buffer_t :=
  let new_size := wrap64 (off + len) in
  let store (buf : h2o_buffer_t) :=
    (RET_OK, mk_buffer (capacity buf) new_size (memcpy (bytes buf) off src len)) in
  if size buf <? new_size then
    let buf := h2o_buffer_reserve buf new_size in
    if capacity buf <? new_size then (PTLS_ERROR_NO_MEMORY, buf)
    else store buf
  else store buf.

End Recvbuf.

(** What the spec asks of [update_recvbuf], in the spec's words: copy the bytes
    to the absolute offset and set [size] to [max(size, offset + len)]. *)
Definition update_recvbuf_spec (buf : h2o_buffer_t) (off : Z) (src : list byte)
    (len : Z) : h2o_buffer_t :=
  mk_buffer (capacity buf) (Z.max (size buf) (off + len)) (memcpy (bytes buf) off src len).

(** The bytes a reader of the buffer sees: [bytes[0 .. size)]. *)
Definition contents (buf : h2o_buffer_t) : list byte := slice (bytes buf) 0 (size buf).

(** ** Egress unidirectional streams *)

Record st_h2o_http3_egress_unistream_t : Type := mk_egress {
  sendbuf : h2o_buffer_t
}.

Record send_emit_result : Type := mk_emit {
  emit_ret : retcode;
  emit_dst : memory;
  emit_len : Z;
  emit_wrote_all : Z
}.

(** [egress_unistream_on_send_emit(qs, off, dst, len, wrote_all)]; [len] is the
    value of [*len] on entry. *)
Definition egress_unistream_on_send_emit (stream : st_h2o_http3_egress_unistream_t)
    (off : Z) (dst : memory) (len : Z) : send_emit_result :=
  let '(len, wrote_all) :=
    if wrap64 (size (sendbuf stream) - off) <=? len
    then (wrap64 (size (sendbuf stream) - off), 1)
    else (len, 0) in
  mk_emit RET_OK (memcpy dst 0 (bytes (sendbuf stream)) len) len wrote_all.

Definition egress_unistream_on_send_shift (stream : st_h2o_http3_egress_unistream_t)
    (delta : Z) : st_h2o_http3_egress_unistream_t :=
  mk_egress (h2o_buffer_consume (sendbuf stream) delta).

Definition egress_unistream_on_send_stop (stream : st_h2o_http3_egress_unistream_t)
    (err : Z) : retcode :=
  H2O_HTTP3_ERROR_CLOSED_CRITICAL_STREAM.

(** ** Connections and ingress unidirectional streams *)

(** The QPACK codec lives outside this file.  An encoder or decoder is
    represented by the arguments it was created with and an opaque state that
    its input handler may change. *)
Record h2o_qpack_encoder_t : Type := mk_encoder {
  enc_header_table_size : Z;
  enc_max_blocked : Z;
  enc_state : list byte
}.

Record h2o_qpack_decoder_t : Type := mk_decoder {
  dec_header_table_size : Z;
  dec_max_blocked : Z;
  dec_state : list byte
}.

Definition h2o_qpack_create_encoder (header_table_size max_blocked : Z) : h2o_qpack_encoder_t :=
  mk_encoder header_table_size max_blocked [].

Definition h2o_qpack_create_decoder (header_table_size max_blocked : Z) : h2o_qpack_decoder_t :=
  mk_decoder header_table_size max_blocked [].

(** The fields of [h2o_http3_conn_t] that this file reads or writes on the
    receive path; a stream is named by its QUIC stream id. *)
Record h2o_http3_conn_t : Type := mk_conn {
  qpack_enc : option h2o_qpack_encoder_t;
  qpack_dec : option h2o_qpack_decoder_t;
  ingress_control : option Z;
  ingress_qpack_encoder : option Z;
  ingress_qpack_decoder : option Z
}.

Definition set_qpack_enc (conn : h2o_http3_conn_t) (e : option h2o_qpack_encoder_t) :=
  mk_conn e (qpack_dec conn) (ingress_control conn) (ingress_qpack_encoder conn)
          (ingress_qpack_decoder conn).
Definition set_qpack_dec (conn : h2o_http3_conn_t) (d : option h2o_qpack_decoder_t) :=
  mk_conn (qpack_enc conn) d (ingress_control conn) (ingress_qpack_encoder conn)
          (ingress_qpack_decoder conn).
Definition set_ingress_control (conn : h2o_http3_conn_t) (s : option Z) :=
  mk_conn (qpack_enc conn) (qpack_dec conn) s (ingress_qpack_encoder conn)
          (ingress_qpack_decoder conn).
Definition set_ingress_qpack_encoder (conn : h2o_http3_conn_t) (s : option Z) :=
  mk_conn (qpack_enc conn) (qpack_dec conn) (ingress_control conn) s
          (ingress_qpack_decoder conn).
Definition set_ingress_qpack_decoder (conn : h2o_http3_conn_t) (s : option Z) :=
  mk_conn (qpack_enc conn) (qpack_dec conn) (ingress_control conn)
          (ingress_qpack_encoder conn) s.

(** Modelled from the spec: [h2o_http3_has_received_settings]
    (h2o/http3_common.h, not in this file): the peer's SETTINGS have been
    handled exactly when the QPACK encoder exists. *)
Definition h2o_http3_has_received_settings (conn : h2o_http3_conn_t) : bool :=
  match qpack_enc conn with Some _ => true | None => false end.

(** The calls that leave this file and that the properties below talk about,
    in the order in which they are made. *)
Inductive event : Type :=
| Call_handle_control_stream_frame (type : Z) (payload : list byte) (length : Z)
| Call_h2o_qpack_create_encoder (header_table_size max_blocked : Z)
| Call_quicly_request_stop (stream_id : Z).

Definition trace := list event.

(** The value of the [handle_input] function pointer of an ingress stream. *)
Inductive handle_input_t : Type :=
| HI_unknown_type
| HI_control_stream
| HI_qpack_encoder_stream
| HI_qpack_decoder_stream
| HI_unknown_stream_type.

(** What this file reads of [quicly_recvstate_t]:
    [quicly_recvstate_transfer_complete] and [quicly_recvstate_bytes_available]. *)
Record quicly_recvstate_t : Type := mk_recvstate {
  transfer_complete : bool;
  bytes_available : Z
}.

Record st_h2o_http3_ingress_unistream_t : Type := mk_ingress {
  stream_id : Z;
  recvstate : quicly_recvstate_t;
  recvbuf : h2o_buffer_t;
  handle_input : handle_input_t
}.

Definition set_recvbuf (s : st_h2o_http3_ingress_unistream_t) (b : h2o_buffer_t) :=
  mk_ingress (stream_id s) (recvstate s) b (handle_input s).
Definition set_handle_input (s : st_h2o_http3_ingress_unistream_t) (h : handle_input_t) :=
  mk_ingress (stream_id s) (recvstate s) (recvbuf s) h.
Definition set_recvstate (s : st_h2o_http3_ingress_unistream_t) (r : quicly_recvstate_t) :=
  mk_ingress (stream_id s) r (recvbuf s) (handle_input s).

(** Modelled from the spec: [quicly_stream_sync_recvbuf] of the QUIC library
    tells the flow controller that [shift_amount] bytes at the front of the
    stream were consumed; they are no longer available. *)
Definition quicly_stream_sync_recvbuf (s : st_h2o_http3_ingress_unistream_t)
    (shift_amount : Z) : st_h2o_http3_ingress_unistream_t :=
  set_recvstate s (mk_recvstate (transfer_complete (recvstate s))
                                (bytes_available (recvstate s) - shift_amount)).

(** The state an input handler works on, and what it hands back: the return
    value and the new [*src]. *)
Record world : Type := mk_world {
  w_conn : h2o_http3_conn_t;
  w_stream : st_h2o_http3_ingress_unistream_t;
  w_trace : trace
}.

Record handled : Type := mk_handled {
  h_ret : retcode;
  h_world : world;
  h_src : Z
}.

Section Handlers.

(** [conn->callbacks->handle_control_stream_frame], the HTTP layer's callback. *)
Variable handle_control_stream_frame :
  h2o_http3_conn_t -> Z -> memory -> Z -> Z -> retcode * h2o_http3_conn_t.

(** The input handlers of the QPACK codec (lib/http3/qpack.c): return value,
    codec after the call, new [*src]. *)
Variable h2o_qpack_decoder_handle_input :
  option h2o_qpack_decoder_t -> memory -> Z -> Z -> retcode * option h2o_qpack_decoder_t * Z.
Variable h2o_qpack_encoder_handle_input :
  option h2o_qpack_encoder_t -> memory -> Z -> Z -> retcode * option h2o_qpack_encoder_t * Z.

(** The two QPACK handlers loop around a function of the codec for as long as
    input is left and the codec returns 0; [None] is a loop that is still
    running when the fuel is spent. *)
Fixpoint qpack_encoder_stream_handle_input (fuel : nat) (w : world) (mem : memory)
    (src src_end : Z) : option handled :=
  match fuel with
  | O => None
  | S fuel =>
      if negb (src =? src_end) then
        let '(ret, dec, src) :=
          h2o_qpack_decoder_handle_input (qpack_dec (w_conn w)) mem src src_end in
        let w := mk_world (set_qpack_dec (w_conn w) dec) (w_stream w) (w_trace w) in
        if negb (retcode_eqb ret RET_OK) then Some (mk_handled ret w src)
        else qpack_encoder_stream_handle_input fuel w mem src src_end
      else Some (mk_handled RET_OK w src)
  end.

Fixpoint qpack_decoder_stream_handle_input (fuel : nat) (w : world) (mem : memory)
    (src src_end : Z) : option handled :=
  match fuel with
  | O => None
  | S fuel =>
      if negb (src =? src_end) then
        let '(ret, enc, src) :=
          h2o_qpack_encoder_handle_input (qpack_enc (w_conn w)) mem src src_end in
        let w := mk_world (set_qpack_enc (w_conn w) enc) (w_stream w) (w_trace w) in
        if negb (retcode_eqb ret RET_OK) then Some (mk_handled ret w src)
        else qpack_decoder_stream_handle_input fuel w mem src src_end
      else Some (mk_handled RET_OK w src)
  end.

(** [frame] is the local variable of the function, whose contents are
    indeterminate on entry. *)
Definition control_stream_handle_input (frame : h2o_http3_read_frame_t) (w : world)
    (mem : memory) (src src_end : Z) : handled :=
  let '(ret, frame, src) := h2o_http3_read_frame frame mem src src_end in
  if negb (retcode_eqb ret RET_OK) then
    mk_handled (if retcode_eqb ret H2O_HTTP3_ERROR_INCOMPLETE then RET_OK else ret) w src
  else if Bool.eqb (h2o_http3_has_received_settings (w_conn w))
                   (frame_type frame =? H2O_HTTP3_FRAME_TYPE_SETTINGS)
          || (frame_type frame =? H2O_HTTP3_FRAME_TYPE_DATA) then
    mk_handled (H2O_HTTP3_ERROR_MALFORMED_FRAME (frame_type frame)) w src
  else
    let '(ret, conn) :=
      handle_control_stream_frame (w_conn w) (frame_type frame) mem
                                  (frame_payload frame) (frame_length frame) in
    mk_handled ret
      (mk_world conn (w_stream w)
         (w_trace w ++ [Call_handle_control_stream_frame (frame_type frame)
                          (slice mem (frame_payload frame) (frame_length frame))
                          (frame_length frame)]))
      src.

Definition unknown_stream_type_handle_input (w : world) (mem : memory)
    (src src_end : Z) : handled :=
  mk_handled RET_OK w src_end.

(** [stream->handle_input(conn, stream, src, src_end, err_desc)] at the end of
    [unknown_type_handle_input].  The switch before it never leaves the
    pointer at [unknown_type_handle_input], so the last case does not arise. *)
Definition call_typed_handle_input (fuel : nat) (frame : h2o_http3_read_frame_t)
    (w : world) (mem : memory) (src src_end : Z) : option handled :=
  match handle_input (w_stream w) with
  | HI_control_stream => Some (control_stream_handle_input frame w mem src src_end)
  | HI_qpack_encoder_stream => qpack_encoder_stream_handle_input fuel w mem src src_end
  | HI_qpack_decoder_stream => qpack_decoder_stream_handle_input fuel w mem src src_end
  | HI_unknown_stream_type => Some (unknown_stream_type_handle_input w mem src src_end)
  | HI_unknown_type => None
  end.

Definition unknown_type_handle_input (fuel : nat) (frame : h2o_http3_read_frame_t)
    (w : world) (mem : memory) (src src_end : Z) : option handled :=
  if src =? src_end then Some (mk_handled RET_OK w src)
  else
    let id := stream_id (w_stream w) in
    let b := load mem src in
    let w :=
      if b =? 67 then
        mk_world (set_ingress_control (w_conn w) (Some id))
                 (set_handle_input (w_stream w) HI_control_stream) (w_trace w)
      else if b =? 72 then
        mk_world (set_ingress_qpack_encoder (w_conn w) (Some id))
                 (set_handle_input (w_stream w) HI_qpack_encoder_stream) (w_trace w)
      else if b =? 104 then
        mk_world (set_ingress_qpack_decoder (w_conn w) (Some id))
                 (set_handle_input (w_stream w) HI_qpack_decoder_stream) (w_trace w)
      else
        mk_world (w_conn w) (set_handle_input (w_stream w) HI_unknown_stream_type)
                 (w_trace w ++ [Call_quicly_request_stop id]) in
    let src := src + 1 in
    call_typed_handle_input fuel frame w mem src src_end.

Definition call_handle_input (fuel : nat) (frame : h2o_http3_read_frame_t)
    (w : world) (mem : memory) (src src_end : Z) : option handled :=
  match handle_input (w_stream w) with
  | HI_unknown_type => unknown_type_handle_input fuel frame w mem src src_end
  | _ => call_typed_handle_input fuel frame w mem src src_end
  end.

Variable h2o_buffer_reserve : h2o_buffer_t -> Z -> h2o_buffer_t.

(** [ingress_unistream_on_receive(qs, off, input, len)].  The receive state
    in [w] is the one the transport has when it makes the call; [src] starts
    at [recvbuf->bytes], which is offset 0 of the buffer's bytes. *)
Definition ingress_unistream_on_receive (fuel : nat) (frame : h2o_http3_read_frame_t)
    (w : world) (off : Z) (input : list byte) (len : Z) : option (retcode * world) :=
  let '(ret, buf) :=
    h2o_http3_update_recvbuf h2o_buffer_reserve (recvbuf (w_stream w)) off input len in
  let w := mk_world (w_conn w) (set_recvbuf (w_stream w) buf) (w_trace w) in
  if negb (retcode_eqb ret RET_OK) then Some (ret, w)
  else if transfer_complete (recvstate (w_stream w)) then
    Some (H2O_HTTP3_ERROR_CLOSED_CRITICAL_STREAM, w)
  else
    let src := 0 in
    let src_end := src + bytes_available (recvstate (w_stream w)) in
    if src =? src_end then Some (RET_OK, w)
    else
      match call_handle_input fuel frame w (bytes (recvbuf (w_stream w))) src src_end with
      | None => None
      | Some r =>
          let w := h_world r in
          let bytes_consumed := h_src r - 0 in
          if negb (bytes_consumed =? 0) then
            let s := set_recvbuf (w_stream w)
                       (h2o_buffer_consume (recvbuf (w_stream w)) bytes_consumed) in
            let s := quicly_stream_sync_recvbuf s bytes_consumed in
            Some (h_ret r, mk_world (w_conn w) s (w_trace w))
          else Some (h_ret r, w)
      end.

Definition ingress_unistream_on_receive_reset (w : world) (err : Z) : retcode :=
  H2O_HTTP3_ERROR_CLOSED_CRITICAL_STREAM.

End Handlers.

(** ** What the control stream does with a frame *)

Section Gate.

Variable handle_control_stream_frame :
  h2o_http3_conn_t -> Z -> memory -> Z -> Z -> retcode * h2o_http3_conn_t.

(** The enforcement predicate of [control_stream_handle_input]. *)
Definition malformed_on_control_stream (conn : h2o_http3_conn_t) (type : Z) : bool :=
  Bool.eqb (h2o_http3_has_received_settings conn) (type =? H2O_HTTP3_FRAME_TYPE_SETTINGS)
  || (type =? H2O_HTTP3_FRAME_TYPE_DATA).

(** The call fails the connection with MALFORMED_FRAME(type). *)
Definition rejected (type : Z) (r : handled) : Prop :=
  h_ret r = H2O_HTTP3_ERROR_MALFORMED_FRAME type.

(** The frame is handed to the HTTP layer, whose verdict is returned. *)
Definition delivered (w : world) (mem : memory) (frame : h2o_http3_read_frame_t)
    (r : handled) : Prop :=
  w_trace (h_world r) =
    w_trace w ++ [Call_handle_control_stream_frame (frame_type frame)
                    (slice mem (frame_payload frame) (frame_length frame))
                    (frame_length frame)] /\
  (h_ret r, w_conn (h_world r)) =
    handle_control_stream_frame (w_conn w) (frame_type frame) mem
                                (frame_payload frame) (frame_length frame).

End Gate.

(** ** SETTINGS *)

(** How a call ends: it returns, it stops the process on a failed [assert],
    or its loop is still running when the fuel is spent. *)
Inductive outcome (A : Type) : Type :=
| Returns (a : A)
| Aborts
| OutOfFuel.
Arguments Returns {A} a.
Arguments Aborts {A}.
Arguments OutOfFuel {A}.

(** How the [while] loop of [h2o_http3_handle_settings_frame] ends: at
    [src == src_end] with the table size, or at the label [Malformed]. *)
Inductive settings_scan : Type :=
| Scanned (header_table_size : Z)
| Malformed.

Fixpoint settings_loop (fuel : nat) (mem : memory) (src src_end : Z)
    (header_table_size : Z) : option settings_scan :=
  match fuel with
  | O => None
  | S fuel =>
      if negb (src =? src_end) then
        match ptls_decode16 mem src src_end with
        | None => Some Malformed
        | Some (id, src) =>
            let '(value, src) := quicly_decodev mem src src_end in
            if value =? UINT64_MAX then Some Malformed
            else
              let header_table_size :=
                if id =? H2O_HTTP3_SETTINGS_HEADER_TABLE_SIZE then to_uint32 value
                else header_table_size in
              settings_loop fuel mem src src_end header_table_size
        end
      else Some (Scanned header_table_size)
  end.

(** [h2o_http3_handle_settings_frame(conn, payload, length, err_desc)].  Every
    turn of the loop that does not leave it moves [src] forward, so
    [length + 1] turns are enough (see [settings_loop_total]). *)
Definition h2o_http3_handle_settings_frame (conn : h2o_http3_conn_t) (tr : trace)
    (mem : memory) (payload length : Z) : outcome (retcode * h2o_http3_conn_t * trace) :=
  let src := payload in
  let src_end := src + length in
  if h2o_http3_has_received_settings conn then Aborts
  else
    match settings_loop (S (Z.to_nat length)) mem src src_end
                        H2O_HTTP3_DEFAULT_HEADER_TABLE_SIZE with
    | None => OutOfFuel
    | Some Malformed =>
        Returns (H2O_HTTP3_ERROR_MALFORMED_FRAME H2O_HTTP3_FRAME_TYPE_SETTINGS, conn, tr)
    | Some (Scanned header_table_size) =>
        Returns (RET_OK,
                 set_qpack_enc conn (Some (h2o_qpack_create_encoder header_table_size 100)),
                 tr ++ [Call_h2o_qpack_create_encoder header_table_size 100])
    end.

(** The SETTINGS payload in the spec's words: a sequence of pairs of a 16-bit
    identifier and a variable-length integer, until the payload ends. *)

Definition be_value (l : list byte) (acc : Z) : Z :=
  fold_left (fun a b => a * 256 + Z.of_N (Byte.to_N b)) l acc.

(** The variable-length integer at the front of [l] and what follows it. *)
Definition varint_of (l : list byte) : option (Z * list byte) :=
  match l with
  | [] => None
  | b :: rest =>
      let n := Nat.pow 2 (Z.to_nat (Z.of_N (Byte.to_N b) / 64)) in
      if (Datatypes.length l <? n)%nat then None
      else Some (be_value (firstn (n - 1) rest) (Z.of_N (Byte.to_N b) mod 64),
                 skipn (n - 1) rest)
  end.

Definition u16_of (l : list byte) : option (Z * list byte) :=
  match l with
  | b1 :: b2 :: rest => Some (Z.of_N (Byte.to_N b1) * 256 + Z.of_N (Byte.to_N b2), rest)
  | _ => None
  end.

(** [None]: some identifier or value is cut short. *)
Fixpoint settings_pairs (fuel : nat) (l : list byte) : option (list (Z * Z)) :=
  match fuel with
  | O => None
  | S fuel =>
      match l with
      | [] => Some []
      | _ =>
          match u16_of l with
          | None => None
          | Some (id, l) =>
              match varint_of l with
              | None => None
              | Some (value, l) =>
                  match settings_pairs fuel l with
                  | None => None
                  | Some ps => Some ((id, value) :: ps)
                  end
              end
          end
      end
  end.

Definition parse_settings (payload : list byte) : option (list (Z * Z)) :=
  settings_pairs (S (Datatypes.length payload)) payload.

(** The table size that a list of settings asks for: the value of the last
    HEADER_TABLE_SIZE (0x0001) entry, and 4096 without one. *)
Definition table_size_step (hts : Z) (p : Z * Z) : Z :=
  if fst p =? 1 then snd p else hts.

Definition negotiated_table_size (ps : list (Z * Z)) : Z :=
  fold_left table_size_step ps 4096.

(** ** The datagram pump *)

Definition sockaddr := list byte.

Fixpoint bytes_eqb (a b : list byte) : bool :=
  match a, b with
  | [], [] => true
  | x :: a, y :: b => Byte.eqb x y && bytes_eqb a b
  | _, _ => false
  end.

(** Modelled from the spec: [h2o_memis] (h2o/string_.h, not in this file)
    tells whether two byte ranges have the same length and contents. *)
Definition h2o_memis (a b : list byte) : bool := bytes_eqb a b.

(** What the read path looks at in a [quicly_decoded_packet_t]:
    [cid.dest.encrypted] and the packet's bytes. *)
Record quicly_decoded_packet_t : Type := mk_packet {
  cid_dest_encrypted : list byte;
  octets : list byte
}.

(** A datagram read by [recvmsg]: the peer address [mess.msg_name], and in
    place of the raw bytes of [vec] the packets that the successive calls of
    [quicly_decode_packet] deliver for it until [off] reaches [iov_len] or a
    call returns [SIZE_MAX]. *)
Record dgram_t : Type := mk_dgram {
  msg_name : sockaddr;
  vec_packets : list quicly_decoded_packet_t
}.

(** A call [process_packets(ctx, sa, salen, packets, num_packets)]. *)
Record process_packets_call : Type := mk_call {
  call_sa : sockaddr;
  call_packets : list quicly_decoded_packet_t
}.

Section Pump.

(** [h2o_socket_compare_address] (lib/common/socket.c, not in this file). *)
Variable h2o_socket_compare_address : sockaddr -> sockaddr -> Z.

(** The inner [while (off != dgrams[dgram_index].vec.iov_len)] loop.
    [packets] holds [packets[0 .. packet_index)]; the packet just decoded is
    stored at [packets[packet_index]]. *)
Fixpoint on_read_decode (sa : sockaddr) (decoded : list quicly_decoded_packet_t)
    (packets : list quicly_decoded_packet_t) (calls : list process_packets_call)
    : list quicly_decoded_packet_t * list process_packets_call :=
  match decoded with
  | [] => (packets, calls)
  | p :: decoded =>
      let packet_index := Z.of_nat (Datatypes.length packets) in
      let packets := packets ++ [p] in
      if (packet_index =? 64 - 1)
         || negb ((packet_index =? 0)
                  || h2o_memis (cid_dest_encrypted (nth 0 packets p))
                               (cid_dest_encrypted p))
      then on_read_decode sa decoded [] (calls ++ [mk_call sa packets])
      else on_read_decode sa decoded packets calls
  end.

(** The [for (dgram_index = 0; dgram_index != num_dgrams; ++dgram_index)]
    loop; [prev] is [dgrams[dgram_index - 1]], absent when [dgram_index == 0].
    The [int] that [h2o_socket_compare_address] returns is used as a truth
    value, true when it is not 0, and the batch is flushed when
    [!(dgram_index == 0 || that value)] holds. *)
Fixpoint on_read_dgrams (prev : option dgram_t) (dgrams : list dgram_t)
    (packets : list quicly_decoded_packet_t) (calls : list process_packets_call)
    : option dgram_t * list quicly_decoded_packet_t * list process_packets_call :=
  match dgrams with
  | [] => (prev, packets, calls)
  | d :: dgrams =>
      let '(packets, calls) :=
        match prev with
        | Some pd =>
            if negb (Z.of_nat (Datatypes.length packets) =? 0)
               && negb (negb (h2o_socket_compare_address (msg_name pd) (msg_name d) =? 0))
            then ([], calls ++ [mk_call (msg_name pd) packets])
            else (packets, calls)
        | None => (packets, calls)
        end in
      let '(packets, calls) := on_read_decode (msg_name d) (vec_packets d) packets calls in
      on_read_dgrams (Some d) dgrams packets calls
  end.

(** One turn of the outer loop of [on_read] after the datagrams were read:
    the calls of [process_packets], in order. *)
Definition on_read (dgrams : list dgram_t) : list process_packets_call :=
  let '(prev, packets, calls) := on_read_dgrams None dgrams [] [] in
  match prev with
  | Some pd =>
      if negb (Z.of_nat (Datatypes.length packets) =? 0)
      then calls ++ [mk_call (msg_name pd) packets]
      else calls
  | None => calls
  end.

End Pump.

(** All packets of a batch but the first carry the CID of the first. *)
Definition same_cid_as_first (packets : list quicly_decoded_packet_t) : bool :=
  match packets with
  | [] => true
  | p :: ps => forallb (fun q => h2o_memis (cid_dest_encrypted p) (cid_dest_encrypted q)) ps
  end.

(** What every call of [process_packets] is sure to get: at most 64 packets,
    of which all but the last one belong to one CID group. *)
Definition call_ok (c : process_packets_call) : Prop :=
  (Datatypes.length (call_packets c) <= 64)%nat /\
  same_cid_as_first (removelast (call_packets c)) = true.

(** Every packet of a call carries the destination CID of the first one. *)
Definition one_cid_group (c : process_packets_call) : bool :=
  same_cid_as_first (call_packets c).

(** ** Concrete inputs *)

(** A callback of the kind the HTTP layer installs: SETTINGS goes to
    [h2o_http3_handle_settings_frame], every other frame is accepted. *)
Definition example_handle_control_stream_frame (conn : h2o_http3_conn_t) (type : Z)
    (mem : memory) (payload length : Z) : retcode * h2o_http3_conn_t :=
  if type =? H2O_HTTP3_FRAME_TYPE_SETTINGS then
    match h2o_http3_handle_settings_frame conn [] mem payload length with
    | Returns (ret, conn, _) => (ret, conn)
    | _ => (RET_OTHER 1, conn)
    end
  else (RET_OK, conn).

(** QPACK input handlers that take all the input they are given. *)
Definition example_qpack_decoder_handle_input (dec : option h2o_qpack_decoder_t)
    (mem : memory) (src src_end : Z) : retcode * option h2o_qpack_decoder_t * Z :=
  (RET_OK, dec, src_end).

Definition example_qpack_encoder_handle_input (enc : option h2o_qpack_encoder_t)
    (mem : memory) (src src_end : Z) : retcode * option h2o_qpack_encoder_t * Z :=
  (RET_OK, enc, src_end).

(** A connection that has seen nothing yet, and a stream the peer has just
    opened, with [available] bytes received in order. *)
Definition fresh_conn : h2o_http3_conn_t :=
  mk_conn None (Some (h2o_qpack_create_decoder 4096 100)) None None None.

Definition fresh_stream (complete : bool) (available : Z) : st_h2o_http3_ingress_unistream_t :=
  mk_ingress 2 (mk_recvstate complete available) (mk_buffer 0 0 []) HI_unknown_type.

Definition fresh_world (complete : bool) (available : Z) : world :=
  mk_world fresh_conn (fresh_stream complete available) [].

(** ** Well-formed buffers, appending, and new streams *)

(** The allocation is as long as [capacity] says and holds the bytes in use. *)
Definition buffer_wf (buf : h2o_buffer_t) : Prop :=
  Z.of_nat (Datatypes.length (bytes buf)) = capacity buf /\ 0 <= size buf <= capacity buf.

(** Modelled from the spec: [h2o_buffer_init] (h2o/memory.h, not in this file)
    starts a buffer that holds nothing and has nothing allocated yet. *)
Definition h2o_buffer_init : h2o_buffer_t := mk_buffer 0 0 [].

Section Append.

Variable h2o_buffer_reserve : h2o_buffer_t -> Z -> h2o_buffer_t.

(** Modelled from the spec: [h2o_buffer_append] (lib/common/memory.c, not in
    this file) reserves room for [len] more bytes and copies them behind the
    bytes in use; without the room the buffer stays as reserving left it.
    The one caller modelled here ignores its return value. *)
Definition h2o_buffer_append (buf : h2o_buffer_t) (src : list byte) (len : Z)
    : h2o_buffer_t :=
  let buf := h2o_buffer_reserve buf len in
  if capacity buf - size buf <? len then buf
  else mk_buffer (capacity buf) (size buf + len) (memcpy (bytes buf) (size buf) src len).

End Append.

(** A call of [process_packets] that carries at least one packet. *)
Definition call_nonempty (c : process_packets_call) : Prop := call_packets c <> [].

(** What [h2o_http3_on_create_unidirectional_stream] stores in [qs->data]. *)
Inductive unistream_t : Type :=
| Egress_unistream (stream : st_h2o_http3_egress_unistream_t)
| Ingress_unistream (stream : st_h2o_http3_ingress_unistream_t).

(** [h2o_http3_on_create_unidirectional_stream(qs)]; [self_initiated] is
    [quicly_stream_is_self_initiated(qs)], [id] the stream id of [qs], and
    [rs] the receive state that the transport keeps for the stream. *)
Definition h2o_http3_on_create_unidirectional_stream (self_initiated : bool) (id : Z)
    (rs : quicly_recvstate_t) : unistream_t :=
  if self_initiated then Egress_unistream (mk_egress h2o_buffer_init)
  else Ingress_unistream (mk_ingress id rs h2o_buffer_init HI_unknown_type).

(** ** The timer *)

(** What this file reads of [h2o_timer_t]: [h2o_timer_is_linked] and
    [expire_at]. *)
Record h2o_timer_t : Type := mk_timer {
  timer_linked : bool;
  expire_at : Z
}.

(** Calls made by the send path, the timer and the registry, in order. *)
Inductive pump_event : Type :=
| Call_h2o_timer_unlink
| Call_h2o_timer_link (delay : Z)
| Call_h2o_http3_schedule_timer
| Call_send_one (data : list byte) (ret : Z)
| Call_perror
| Call_free_packet (data : list byte)
| Call_destroy_connection
| Call_abort
| Call_quicly_receive (conn : Z) (packet : quicly_decoded_packet_t)
| Call_acceptor (packets : list quicly_decoded_packet_t)
| Call_h2o_http3_send (conn : Z)
| Call_h2o_qpack_destroy_decoder
| Call_h2o_qpack_destroy_encoder
| Call_quicly_free (quic : Z).

(** Modelled from the spec: [h2o_timer_unlink] and [h2o_timer_link]
    (h2o/timerwheel.h, not in this file): a linked timer fires [delay] after
    the loop's current time. *)
Definition h2o_timer_unlink (t : h2o_timer_t) : h2o_timer_t :=
  mk_timer false (expire_at t).

Definition h2o_timer_link (now delay : Z) (t : h2o_timer_t) : h2o_timer_t :=
  mk_timer true (wrap64 (now + delay)).

(** [h2o_http3_schedule_timer(conn)].  [use_libuv] is the compile-time
    [H2O_USE_LIBUV], [timeout] the [int64_t] that [quicly_get_first_timeout]
    returns and [now] the [uint64_t] of [h2o_now]; a comparison of the two
    converts [timeout] to [uint64_t]. *)
Definition h2o_http3_schedule_timer (use_libuv : bool) (timeout now : Z)
    (t : h2o_timer_t) (tr : list pump_event) : h2o_timer_t * list pump_event :=
  let rearm (t : h2o_timer_t) (tr : list pump_event) :=
    let delay := if now <? wrap64 timeout then wrap64 (timeout - now) else 0 in
    (h2o_timer_link now delay t, tr ++ [Call_h2o_timer_link delay]) in
  if timer_linked t then
    if negb use_libuv && (wrap64 timeout =? expire_at t) then (t, tr)
    else rearm (h2o_timer_unlink t) (tr ++ [Call_h2o_timer_unlink])
  else rearm t tr.

(** ** Sending *)

(** What [sendmsg] answers: its return value, and whether [errno] is [EINTR]
    after the call. *)
Definition sendmsg_answer : Type := (Z * bool)%type.

(** [send_one(fd, p)] against the answers that the successive calls of
    [sendmsg] get: the return value and the answers left.  [None]: the
    answers ran out while the loop was still retrying. *)
Fixpoint send_one (answers : list sendmsg_answer) : option (Z * list sendmsg_answer) :=
  match answers with
  | [] => None
  | (ret, eintr) :: answers =>
      if (ret =? -1) && eintr then send_one answers else Some (ret, answers)
  end.

(** What [quicly_send] returns: 0, [QUICLY_ERROR_FREE_CONNECTION], or another
    code. *)
Inductive quicly_send_ret : Type :=
| Quicly_send_ok
| QUICLY_ERROR_FREE_CONNECTION
| Quicly_send_error (code : Z).

(** How [h2o_http3_send] ends. *)
Inductive send_end : Type :=
| Send_returned
| Send_destroyed
| Send_aborted.

(** The [for] loop over the packets of one [quicly_send]; a packet is named
    by its bytes. *)
Fixpoint send_packets (packets : list (list byte)) (answers : list sendmsg_answer)
    (tr : list pump_event) : option (list sendmsg_answer * list pump_event) :=
  match packets with
  | [] => Some (answers, tr)
  | p :: packets =>
      match send_one answers with
      | None => None
      | Some (ret, answers) =>
          let tr := tr ++ [Call_send_one p ret] in
          let tr := if ret =? -1 then tr ++ [Call_perror] else tr in
          send_packets packets answers (tr ++ [Call_free_packet p])
      end
  end.

(** [h2o_http3_send(conn)] against the results of the successive calls of
    [quicly_send], each a return value and the packets stored, and against
    the answers of [sendmsg].  [None]: one of the two lists ran out while the
    function was still running. *)
Fixpoint h2o_http3_send (sends : list (quicly_send_ret * list (list byte)))
    (answers : list sendmsg_answer) (tr : list pump_event)
    : option (send_end * list (quicly_send_ret * list (list byte))
              * list sendmsg_answer * list pump_event) :=
  match sends with
  | [] => None
  | (ret, packets) :: sends =>
      match ret with
      | Quicly_send_ok =>
          match send_packets packets answers tr with
          | None => None
          | Some (answers, tr) =>
              if Z.of_nat (Datatypes.length packets) =? 16
              then h2o_http3_send sends answers tr
              else Some (Send_returned, sends, answers,
                         tr ++ [Call_h2o_http3_schedule_timer])
          end
      | QUICLY_ERROR_FREE_CONNECTION =>
          Some (Send_destroyed, sends, answers, tr ++ [Call_destroy_connection])
      | Quicly_send_error _ => Some (Send_aborted, sends, answers, tr ++ [Call_abort])
      end
  end.

Definition sent_packets (tr : list pump_event) : list (list byte) :=
  flat_map (fun e => match e with Call_send_one p _ => [p] | _ => [] end) tr.

Definition freed_packets (tr : list pump_event) : list (list byte) :=
  flat_map (fun e => match e with Call_free_packet p => [p] | _ => [] end) tr.

(** ** The accept hash *)

(** The fields of a [struct sockaddr_in] or [struct sockaddr_in6]. *)
Record sockaddr_in_t : Type := mk_sockaddr_in {
  sa_family : Z;
  sin_addr : list byte;
  sin_port : Z
}.

Definition byte_of (z : Z) : byte :=
  match Byte.of_N (Z.to_N (z mod 256)) with Some b => b | None => x00 end.

(** Modelled from the spec: [quicly_encode16] of the QUIC library writes a
    16-bit integer in network order. *)
Definition quicly_encode16 (v : Z) : list byte := [byte_of (v / 256); byte_of v].

Section AcceptHash.

(** [AF_INET] and [AF_INET6] of <sys/socket.h>, and the keyed hash
    [accepting_hashkey_hashctx] with its process-wide key, of which the first
    64 bits are used. *)
Variable AF_INET AF_INET6 : Z.
Variable hmac : list byte -> Z.

(** The bytes that [calc_accepting_hashkey] collects in [buf]; [None] is the
    [default] case of the switch, which ends in [h2o_fatal]. *)
Definition accepting_hashkey_input (sa : sockaddr_in_t) (offered_cid : list byte)
    : option (list byte) :=
  let tail := byte_of (Z.of_nat (Datatypes.length offered_cid)) :: offered_cid in
  if sa_family sa =? AF_INET then
    Some (byte_of (sa_family sa) :: firstn 4 (sin_addr sa)
            ++ quicly_encode16 (sin_port sa) ++ tail)
  else if sa_family sa =? AF_INET6 then
    Some (byte_of (sa_family sa) :: firstn 16 (sin_addr sa)
            ++ quicly_encode16 (sin_port sa) ++ tail)
  else None.

(** [calc_accepting_hashkey(sa, offered_cid)]; [buf] has 1 + 16 + 4 + 1 + 18
    bytes, and the [assert] behind the copies checks that they were enough. *)
Definition calc_accepting_hashkey (sa : sockaddr_in_t) (offered_cid : list byte)
    : outcome Z :=
  match accepting_hashkey_input sa offered_cid with
  | None => Aborts
  | Some input =>
      if Z.of_nat (Datatypes.length input) <=? 1 + 16 + 4 + 1 + 18
      then Returns (hmac input)
      else Aborts
  end.

(** An IPv4 or IPv6 socket address with an address of 4 or 16 bytes and a
    16-bit port. *)
Definition sockaddr_wf (sa : sockaddr_in_t) : Prop :=
  ((sa_family sa = AF_INET /\ Datatypes.length (sin_addr sa) = 4%nat) \/
   (sa_family sa = AF_INET6 /\ Datatypes.length (sin_addr sa) = 16%nat)) /\
  0 <= sin_port sa < 65536.

End AcceptHash.

(** ** The connection registry *)

(** Modelled from the spec: the two hash tables of the context (h2o/khash.h,
    not in this file) are mappings from a 64-bit key to a connection, with
    unique keys.  A connection is named by its transport handle [conn->quic],
    which [h2o_http3_setup] ties to the connection in both directions.
    [kh_put] stands for
    [kh_put_...] followed by the assignment to [kh_val], and [kh_del] for the
    lookup followed by [kh_del_...] when the key is there. *)
Definition khash : Type := Z -> option Z.

Definition kh_init : khash := fun _ => None.
Definition kh_get (h : khash) (key : Z) : option Z := h key.
Definition kh_put (h : khash) (key conn : Z) : khash :=
  fun k => if k =? key then Some conn else h k.
Definition kh_del (h : khash) (key : Z) : khash :=
  match kh_get h key with
  | Some _ => fun k => if k =? key then None else h k
  | None => h
  end.

Record quicly_cid_plaintext_t : Type := mk_cid_plaintext {
  node_id : Z;
  thread_id : Z;
  master_id : Z
}.

Record h2o_http3_ctx_t : Type := mk_ctx {
  conns_by_id : khash;
  conns_accepting : khash;
  acceptor : option (sockaddr_in_t -> list quicly_decoded_packet_t -> option Z)
}.

(** [h2o_http3_init_context]: the two maps start empty. *)
Definition h2o_http3_init_context
    (acceptor : option (sockaddr_in_t -> list quicly_decoded_packet_t -> option Z))
    : h2o_http3_ctx_t :=
  mk_ctx kh_init kh_init acceptor.

(** The fields of [h2o_http3_conn_t] that setup and disposal work on, around
    the ones of the receive path: the transport handle, the three egress
    streams and the timer. *)
Record h2o_http3_conn_state_t : Type := mk_conn_state {
  cs_conn : h2o_http3_conn_t;
  cs_quic : option Z;
  cs_egress_control : option st_h2o_http3_egress_unistream_t;
  cs_egress_qpack_encoder : option st_h2o_http3_egress_unistream_t;
  cs_egress_qpack_decoder : option st_h2o_http3_egress_unistream_t;
  cs_timeout : h2o_timer_t
}.

(** [h2o_http3_init_conn]: everything but [ctx] and [callbacks] is zero. *)
Definition h2o_http3_init_conn : h2o_http3_conn_state_t :=
  mk_conn_state (mk_conn None None None None None) None None None None (mk_timer false 0).

Section Registry.

Variable AF_INET AF_INET6 : Z.
Variable hmac : list byte -> Z.

(** What the transport knows of a decoded packet and of a connection:
    [cid.dest.might_be_client_generated] and [cid.dest.plaintext] of the
    packet; [quicly_is_client], [quicly_is_destination],
    [quicly_get_master_id], [quicly_get_peername] and [quicly_get_offered_cid]
    of the connection. *)
Variable might_be_client_generated : quicly_decoded_packet_t -> bool.
Variable cid_dest_plaintext : quicly_decoded_packet_t -> quicly_cid_plaintext_t.
Variable quicly_is_client : Z -> bool.
Variable quicly_is_destination : Z -> sockaddr_in_t -> quicly_decoded_packet_t -> bool.
Variable quicly_get_master_id : Z -> Z.
Variable quicly_get_peername : Z -> sockaddr_in_t.
Variable quicly_get_offered_cid : Z -> list byte.

(** [calc_accepting_hashkey_from_conn(conn)]. *)
Definition calc_accepting_hashkey_from_conn (quic : Z) : outcome Z :=
  calc_accepting_hashkey AF_INET AF_INET6 hmac (quicly_get_peername quic)
                         (quicly_get_offered_cid quic).

(** The second half of [find_connection]: lookup by master id. *)
Definition find_connection_by_id (ctx : h2o_http3_ctx_t) (sa : sockaddr_in_t)
    (packet : quicly_decoded_packet_t) : option Z :=
  if (node_id (cid_dest_plaintext packet) =? 0)
     && (thread_id (cid_dest_plaintext packet) =? 0) then
    match kh_get (conns_by_id ctx) (master_id (cid_dest_plaintext packet)) with
    | Some conn => if quicly_is_destination conn sa packet then Some conn else None
    | None => None
    end
  else None.

(** [find_connection(ctx, sa, salen, packet)]. *)
Definition find_connection (ctx : h2o_http3_ctx_t) (sa : sockaddr_in_t)
    (packet : quicly_decoded_packet_t) : outcome (option Z) :=
  if might_be_client_generated packet then
    match calc_accepting_hashkey AF_INET AF_INET6 hmac sa (cid_dest_encrypted packet) with
    | Returns key =>
        match kh_get (conns_accepting ctx) key with
        | Some conn =>
            if quicly_is_client conn then Aborts
            else if quicly_is_destination conn sa packet then Returns (Some conn)
            else Returns (find_connection_by_id ctx sa packet)
        | None => Returns (find_connection_by_id ctx sa packet)
        end
    | Aborts => Aborts
    | OutOfFuel => OutOfFuel
    end
  else Returns (find_connection_by_id ctx sa packet).

(** [process_packets(ctx, sa, salen, packets, num_packets)] for a batch of at
    least one packet: [packet] is [packets[0]] and [others] are the packets
    behind it.  The result is the trace of calls. *)
Definition process_packets (ctx : h2o_http3_ctx_t) (sa : sockaddr_in_t)
    (packet : quicly_decoded_packet_t) (others : list quicly_decoded_packet_t)
    (tr : list pump_event) : outcome (list pump_event) :=
  match find_connection ctx sa packet with
  | Returns (Some conn) =>
      Returns (tr ++ map (Call_quicly_receive conn) (packet :: others)
                  ++ [Call_h2o_http3_send conn])
  | Returns None =>
      match acceptor ctx with
      | Some accept =>
          let tr := tr ++ [Call_acceptor (packet :: others)] in
          match accept sa (packet :: others) with
          | Some conn => Returns (tr ++ [Call_h2o_http3_send conn])
          | None => Returns tr
          end
      | None => Returns tr
      end
  | Aborts => Aborts
  | OutOfFuel => OutOfFuel
  end.

Variable h2o_buffer_reserve : h2o_buffer_t -> Z -> h2o_buffer_t.

(** [open_egress_unistream(conn, stream, initial_bytes)].  [answer] holds the
    return values of [quicly_open_stream] and [quicly_stream_sync_sendbuf];
    the stream that [quicly_open_stream] hands back was set up by
    [h2o_http3_on_create_unidirectional_stream], which for a stream opened
    here makes an egress record (and keeps neither [id] nor a receive state).
    The result is the return value and what [*stream] is set to, if it is
    set. *)
Definition open_egress_unistream (answer : retcode * retcode) (id : Z)
    (initial_bytes : list byte)
    : retcode * option st_h2o_http3_egress_unistream_t :=
  let '(open_ret, sync_ret) := answer in
  if negb (retcode_eqb open_ret RET_OK) then (open_ret, None)
  else
    match h2o_http3_on_create_unidirectional_stream true id (mk_recvstate false 0) with
    | Egress_unistream stream =>
        (sync_ret,
         Some (mk_egress (h2o_buffer_append h2o_buffer_reserve (sendbuf stream)
                            initial_bytes (Z.of_nat (Datatypes.length initial_bytes)))))
    | Ingress_unistream _ => (open_ret, None)
    end.

Definition or_keep {A : Type} (new old : option A) : option A :=
  match new with Some _ => new | None => old end.

(** [h2o_http3_setup(conn, quic)].  [control], [encoder] and [decoder] are
    the transport's answers for the
    three streams, of which a later one is not asked for when an earlier
    stream failed; [timeout] and [now] are as in [h2o_http3_schedule_timer]. *)
Definition h2o_http3_setup (use_libuv : bool) (timeout now : Z)
    (control encoder decoder : retcode * retcode)
    (ctx : h2o_http3_ctx_t) (conn : h2o_http3_conn_state_t) (quic : Z)
    (tr : list pump_event)
    : outcome (retcode * h2o_http3_ctx_t * h2o_http3_conn_state_t * list pump_event) :=
  let core := set_qpack_dec (cs_conn conn)
                (Some (h2o_qpack_create_decoder H2O_HTTP3_DEFAULT_HEADER_TABLE_SIZE 100)) in
  let by_id := kh_put (conns_by_id ctx) (quicly_get_master_id quic) quic in
  let registered :=
    if negb (quicly_is_client quic) then
      match calc_accepting_hashkey_from_conn quic with
      | Returns key => Returns (kh_put (conns_accepting ctx) key quic)
      | Aborts => Aborts
      | OutOfFuel => OutOfFuel
      end
    else Returns (conns_accepting ctx) in
  match registered with
  | Returns accepting =>
      let ctx := mk_ctx by_id accepting (acceptor ctx) in
      let '(ret1, s1) := open_egress_unistream control 0 [x43; x00; x04] in
      let conn1 := mk_conn_state core (Some quic) (or_keep s1 (cs_egress_control conn))
                     (cs_egress_qpack_encoder conn) (cs_egress_qpack_decoder conn)
                     (cs_timeout conn) in
      if negb (retcode_eqb ret1 RET_OK) then Returns (ret1, ctx, conn1, tr)
      else
        let '(ret2, s2) := open_egress_unistream encoder 0 [x48] in
        let conn2 := mk_conn_state core (Some quic) (cs_egress_control conn1)
                       (or_keep s2 (cs_egress_qpack_encoder conn))
                       (cs_egress_qpack_decoder conn) (cs_timeout conn) in
        if negb (retcode_eqb ret2 RET_OK) then Returns (ret2, ctx, conn2, tr)
        else
          let '(ret3, s3) := open_egress_unistream decoder 0 [x68] in
          let conn3 := mk_conn_state core (Some quic) (cs_egress_control conn1)
                         (cs_egress_qpack_encoder conn2)
                         (or_keep s3 (cs_egress_qpack_decoder conn)) (cs_timeout conn) in
          if negb (retcode_eqb ret3 RET_OK) then Returns (ret3, ctx, conn3, tr)
          else
            let '(timer, tr) :=
              h2o_http3_schedule_timer use_libuv timeout now (cs_timeout conn) tr in
            Returns (RET_OK, ctx,
                     mk_conn_state core (Some quic) (cs_egress_control conn1)
                       (cs_egress_qpack_encoder conn2) (cs_egress_qpack_decoder conn3)
                       timer,
                     tr)
  | Aborts => Aborts
  | OutOfFuel => OutOfFuel
  end.

(** [h2o_http3_dispose_conn(conn)]: the maps and the timer after the call,
    and the calls made, of which the last is the [h2o_timer_unlink] that the
    function makes whether or not the timer is linked. *)
Definition h2o_http3_dispose_conn (ctx : h2o_http3_ctx_t) (conn : h2o_http3_conn_state_t)
    (tr : list pump_event) : outcome (h2o_http3_ctx_t * h2o_timer_t * list pump_event) :=
  let tr := match qpack_dec (cs_conn conn) with
            | Some _ => tr ++ [Call_h2o_qpack_destroy_decoder]
            | None => tr
            end in
  let tr := match qpack_enc (cs_conn conn) with
            | Some _ => tr ++ [Call_h2o_qpack_destroy_encoder]
            | None => tr
            end in
  match cs_quic conn with
  | Some quic =>
      let by_id := kh_del (conns_by_id ctx) (quicly_get_master_id quic) in
      let unregistered :=
        if negb (quicly_is_client quic) then
          match calc_accepting_hashkey_from_conn quic with
          | Returns key => Returns (kh_del (conns_accepting ctx) key)
          | Aborts => Aborts
          | OutOfFuel => OutOfFuel
          end
        else Returns (conns_accepting ctx) in
      match unregistered with
      | Returns accepting =>
          Returns (mk_ctx by_id accepting (acceptor ctx),
                   h2o_timer_unlink (cs_timeout conn),
                   tr ++ [Call_quicly_free quic] ++ [Call_h2o_timer_unlink])
      | Aborts => Aborts
      | OutOfFuel => OutOfFuel
      end
  | None => Returns (ctx, h2o_timer_unlink (cs_timeout conn), tr ++ [Call_h2o_timer_unlink])
  end.

End Registry.

(** ** Predicates of the properties *)

(** The events with which [h2o_http3_send] can end. *)
Definition is_closing_event (e : pump_event) : bool :=
  match e with
  | Call_h2o_http3_schedule_timer | Call_destroy_connection | Call_abort => true
  | _ => false
  end.

(** The packets that a trace passes on, to [quicly_receive] or to the
    acceptor, in order. *)
Definition handed_on (tr : list pump_event) : list quicly_decoded_packet_t :=
  flat_map (fun e => match e with
                     | Call_quicly_receive _ p => [p]
                     | Call_acceptor ps => ps
                     | _ => []
                     end) tr.

(** [events] is, for each of the packets in turn, one call of [send_one] with
    it, a [perror] if that returned -1, and then the release of the packet;
    and nothing else. *)
Fixpoint sent_then_freed (packets : list (list byte)) (events : list pump_event) : Prop :=
  match packets with
  | [] => events = []
  | p :: packets =>
      exists (ret : Z) (rest : list pump_event),
        events = Call_send_one p ret
                 :: (if ret =? -1 then [Call_perror] else [])
                 ++ Call_free_packet p :: rest /\
        sent_then_freed packets rest
  end.

(** Reserving [len] bytes for a new buffer gives a well-formed, empty buffer
    with that much room. *)
Definition reserve_init_ok (h2o_buffer_reserve : h2o_buffer_t -> Z -> h2o_buffer_t)
    (len : Z) : Prop :=
  buffer_wf (h2o_buffer_reserve h2o_buffer_init len) /\
  size (h2o_buffer_reserve h2o_buffer_init len) = 0 /\
  len <= capacity (h2o_buffer_reserve h2o_buffer_init len).

(** ** More concrete inputs *)

(** A control stream with two bytes received in order and not yet saved. *)
Definition control_world : world :=
  mk_world fresh_conn
    (mk_ingress 2 (mk_recvstate false 2) (mk_buffer 0 0 []) HI_control_stream) [].

(** QPACK decoder input that takes one byte per call. *)
Definition bytewise_qpack_decoder_handle_input (dec : option h2o_qpack_decoder_t)
    (mem : memory) (src src_end : Z) : retcode * option h2o_qpack_decoder_t * Z :=
  (RET_OK, dec, src + 1).

(** The address families of Linux, a stand-in for the keyed hash, and a
    transport with one server connection, whose master id is 7 and whose peer
    10.0.0.1:443 offered the CID 01 02 03 04. *)
Definition example_AF_INET : Z := 2.
Definition example_AF_INET6 : Z := 10.

Definition example_hmac (input : list byte) : Z :=
  fold_left (fun a b => (a * 257 + Z.of_N (Byte.to_N b)) mod 2 ^ 64) input 0.

Definition example_peer : sockaddr_in_t := mk_sockaddr_in 2 [x0a; x00; x00; x01] 443.
Definition example_cid : list byte := [x01; x02; x03; x04].

Definition example_might_be_client_generated (p : quicly_decoded_packet_t) : bool :=
  bytes_eqb (cid_dest_encrypted p) example_cid.
Definition example_cid_dest_plaintext (p : quicly_decoded_packet_t) : quicly_cid_plaintext_t :=
  mk_cid_plaintext 0 0 7.
Definition example_quicly_is_client (quic : Z) : bool := false.
Definition example_quicly_is_destination (quic : Z) (sa : sockaddr_in_t)
    (p : quicly_decoded_packet_t) : bool := true.
Definition example_quicly_get_master_id (quic : Z) : Z := 7.
Definition example_quicly_get_peername (quic : Z) : sockaddr_in_t := example_peer.
Definition example_quicly_get_offered_cid (quic : Z) : list byte := example_cid.

Definition example_find_connection :=
  find_connection example_AF_INET example_AF_INET6 example_hmac
    example_might_be_client_generated example_cid_dest_plaintext
    example_quicly_is_client example_quicly_is_destination.

Definition example_process_packets :=
  process_packets example_AF_INET example_AF_INET6 example_hmac
    example_might_be_client_generated example_cid_dest_plaintext
    example_quicly_is_client example_quicly_is_destination.

Definition example_setup :=
  h2o_http3_setup example_AF_INET example_AF_INET6 example_hmac
    example_quicly_is_client example_quicly_get_master_id example_quicly_get_peername
    example_quicly_get_offered_cid (h2o_buffer_reserve_model true).

Definition example_dispose :=
  h2o_http3_dispose_conn example_AF_INET example_AF_INET6 example_hmac
    example_quicly_is_client example_quicly_get_master_id example_quicly_get_peername
    example_quicly_get_offered_cid.

(** The context and the connection after a setup in which every stream was
    opened: transport handle 1, deadline 125, time 100. *)
Definition example_after_setup :=
  example_setup false 125 100 (RET_OK, RET_OK) (RET_OK, RET_OK) (RET_OK, RET_OK)
    (h2o_http3_init_context None) h2o_http3_init_conn 1 [].

Definition example_ctx_after_setup : h2o_http3_ctx_t :=
  match example_after_setup with
  | Returns (_, ctx, _, _) => ctx
  | _ => h2o_http3_init_context None
  end.

Definition example_conn_after_setup : h2o_http3_conn_state_t :=
  match example_after_setup with
  | Returns (_, _, conn, _) => conn
  | _ => h2o_http3_init_conn
  end.

Definition example_trace_after_setup : list pump_event :=
  match example_after_setup with
  | Returns (_, _, _, tr) => tr
  | _ => []
  end.

(** * Properties *)

(** ** Bytes and variable-length integers *)

Lemma load_range (mem : memory) (p : Z) : 0 <= load mem p <= 255.
Proof.
  unfold load. pose proof (Byte.to_N_bounded (nth (Z.to_nat p) mem x00)). lia.
Qed.

Lemma load_be_bound (mem : memory) (n : nat) :
  forall p acc, 0 <= acc -> 0 <= load_be mem p n acc < (acc + 1) * 256 ^ Z.of_nat n.
Proof.
  induction n as [|n IH]; intros p acc Hacc.
  - simpl. lia.
  - cbn [load_be]. pose proof (load_range mem p) as Hb.
    specialize (IH (p + 1) (acc * 256 + load mem p) ltac:(lia)).
    rewrite Nat2Z.inj_succ, Z.pow_succ_r by lia. nia.
Qed.

Lemma varint_size_cases (mem : memory) (p : Z) :
  varint_size mem p = 1 \/ varint_size mem p = 2 \/
  varint_size mem p = 4 \/ varint_size mem p = 8.
Proof.
  unfold varint_size. pose proof (load_range mem p) as Hb.
  assert (Hq : 0 <= load mem p / 64 < 4).
  { split; [apply Z.div_pos; lia | apply Z.div_lt_upper_bound; lia]. }
  assert (Hc : load mem p / 64 = 0 \/ load mem p / 64 = 1 \/
               load mem p / 64 = 2 \/ load mem p / 64 = 3) by lia.
  destruct Hc as [H|[H|[H|H]]]; rewrite H; auto.
Qed.

Lemma decodev_size (mem : memory) (p : Z) :
  Z.shiftl 1 (Z.shiftr (load mem p) 6) = varint_size mem p.
Proof.
  unfold varint_size. rewrite Z.shiftl_1_l, Z.shiftr_div_pow2 by lia. reflexivity.
Qed.

Lemma quicly_decodev_truncated (mem : memory) (src src_end : Z) :
  varint_truncated mem src src_end ->
  quicly_decodev mem src src_end = (UINT64_MAX, src).
Proof.
  intros Ht. unfold quicly_decodev. rewrite decodev_size.
  destruct (Z.eqb_spec src src_end) as [|Hne]; [reflexivity|].
  destruct Ht as [Ht|Ht]; [contradiction|].
  destruct (Z.ltb_spec (src_end - src) (varint_size mem src)); [reflexivity|lia].
Qed.

Lemma quicly_decodev_complete (mem : memory) (src src_end : Z) :
  ~ varint_truncated mem src src_end ->
  snd (quicly_decodev mem src src_end) = src + varint_size mem src /\
  0 <= fst (quicly_decodev mem src src_end) < 2 ^ 62.
Proof.
  intros Ht. unfold varint_truncated in Ht. unfold quicly_decodev.
  rewrite decodev_size.
  destruct (Z.eqb_spec src src_end) as [|Hne]; [tauto|].
  destruct (Z.ltb_spec (src_end - src) (varint_size mem src)) as [|Hge]; [tauto|].
  cbn [fst snd]. split; [reflexivity|].
  change 63 with (Z.ones 6). rewrite Z.land_ones by lia.
  pose proof (Z.mod_pos_bound (load mem src) (2 ^ 6) ltac:(lia)) as Hm.
  pose proof (load_be_bound mem (Z.to_nat (varint_size mem src - 1)) (src + 1)
                (load mem src mod 2 ^ 6) ltac:(lia)) as Hb.
  assert (Hp : 256 ^ Z.of_nat (Z.to_nat (varint_size mem src - 1)) <= 256 ^ 7).
  { apply Z.pow_le_mono_r; [lia|].
    destruct (varint_size_cases mem src) as [H|[H|[H|H]]]; rewrite H; lia. }
  change (2 ^ 62) with (2 ^ 6 * 256 ^ 7). nia.
Qed.

Lemma quicly_decodev_fails_iff (mem : memory) (src src_end : Z) :
  fst (quicly_decodev mem src src_end) = UINT64_MAX <-> varint_truncated mem src src_end.
Proof.
  split.
  - intros Hf.
    destruct (Z.eq_dec src src_end) as [|Hne]; [left; assumption|].
    destruct (Z_lt_dec (src_end - src) (varint_size mem src)) as [|Hge]; [right; assumption|].
    assert (Hn : ~ varint_truncated mem src src_end) by (unfold varint_truncated; lia).
    apply quicly_decodev_complete in Hn. unfold UINT64_MAX in Hf.
    assert (2 ^ 62 < 2 ^ 64 - 1) by (vm_compute; reflexivity). lia.
  - intros Ht. rewrite quicly_decodev_truncated by assumption. reflexivity.
Qed.

(** ** The frame reader *)

(** C2. [h2o_http3_read_frame] on any buffer and cursor: INCOMPLETE when the
    length varint is cut short or no type byte follows it; for a type other
    than DATA, MALFORMED_FRAME(type) when the length is at least 16384,
    INCOMPLETE when fewer than [length] payload bytes remain, and otherwise
    success with [payload] pointing behind the header and the cursor behind
    the payload; for DATA, success whatever follows the header, [payload]
    left as it was, and the cursor behind the header. *)
Theorem h2o_http3_read_frame_cases :
  forall (frame : h2o_http3_read_frame_t) (mem : memory) (_src src_end : Z),
    let r := h2o_http3_read_frame frame mem _src src_end in
    let length := fst (quicly_decodev mem _src src_end) in
    let header := varint_size mem _src + 1 in
    let type := load mem (_src + varint_size mem _src) in
    (varint_truncated mem _src src_end -> rf_ret r = H2O_HTTP3_ERROR_INCOMPLETE) /\
    (~ varint_truncated mem _src src_end -> src_end - _src < header ->
     rf_ret r = H2O_HTTP3_ERROR_INCOMPLETE) /\
    (~ varint_truncated mem _src src_end -> header <= src_end - _src ->
     type <> H2O_HTTP3_FRAME_TYPE_DATA -> 16384 <= length ->
     rf_ret r = H2O_HTTP3_ERROR_MALFORMED_FRAME type) /\
    (~ varint_truncated mem _src src_end -> header <= src_end - _src ->
     type <> H2O_HTTP3_FRAME_TYPE_DATA -> length < 16384 ->
     src_end - (_src + header) < length ->
     rf_ret r = H2O_HTTP3_ERROR_INCOMPLETE) /\
    (~ varint_truncated mem _src src_end -> header <= src_end - _src ->
     type <> H2O_HTTP3_FRAME_TYPE_DATA -> length < 16384 ->
     length <= src_end - (_src + header) ->
     rf_ret r = RET_OK /\
     frame_type (rf_frame r) = type /\ frame_length (rf_frame r) = length /\
     frame_payload (rf_frame r) = _src + header /\
     rf_src r = _src + header + length) /\
    (~ varint_truncated mem _src src_end -> header <= src_end - _src ->
     type = H2O_HTTP3_FRAME_TYPE_DATA ->
     rf_ret r = RET_OK /\
     frame_type (rf_frame r) = type /\ frame_length (rf_frame r) = length /\
     frame_payload (rf_frame r) = frame_payload frame /\
     rf_src r = _src + header).
Proof.
  intros frame mem _src src_end r length header type.
  assert (Htrunc : varint_truncated mem _src src_end ->
                   rf_ret r = H2O_HTTP3_ERROR_INCOMPLETE).
  { intros Ht. subst r. unfold h2o_http3_read_frame.
    rewrite quicly_decodev_truncated by assumption.
    rewrite Z.eqb_refl. reflexivity. }
  split; [exact Htrunc|].
  assert (Hrun : ~ varint_truncated mem _src src_end ->
    r = let src := _src + varint_size mem _src in
        let f1 := set_frame_length frame length in
        if src =? src_end then (H2O_HTTP3_ERROR_INCOMPLETE, f1, _src)
        else
          let f2 := set_frame_header_size (set_frame_type f1 (load mem src))
                                          (to_uint8 (src + 1 - _src)) in
          if negb (load mem src =? H2O_HTTP3_FRAME_TYPE_DATA) then
            if MAX_FRAME_SIZE <=? length then
              (H2O_HTTP3_ERROR_MALFORMED_FRAME (load mem src), f2, _src)
            else if src_end - (src + 1) <? length then
              (H2O_HTTP3_ERROR_INCOMPLETE, f2, _src)
            else (RET_OK, set_frame_payload f2 (src + 1), src + 1 + length)
          else (RET_OK, f2, src + 1)).
  { intros Hn. pose proof (quicly_decodev_complete mem _src src_end Hn) as [Hs Hv].
    subst r length. unfold h2o_http3_read_frame.
    destruct (quicly_decodev mem _src src_end) as [len src] eqn:Hd.
    cbn [fst snd] in Hs, Hv |- *. subst src.
    assert (Hne : (len =? UINT64_MAX) = false).
    { apply Z.eqb_neq. unfold UINT64_MAX.
      assert (2 ^ 62 < 2 ^ 64 - 1) by (vm_compute; reflexivity). lia. }
    rewrite Hne. reflexivity. }
  unfold MAX_FRAME_SIZE in Hrun. cbv zeta in Hrun.
  split; [|split; [|split; [|split]]];
    intros Hn; specialize (Hrun Hn); intros;
    unfold varint_truncated in Hn;
    pose proof (varint_size_cases mem _src) as Hsz;
    subst header type; rewrite Hrun;
    repeat match goal with
           | |- context [Z.eqb ?a ?b] => destruct (Z.eqb_spec a b); try lia
           | |- context [Z.leb ?a ?b] => destruct (Z.leb_spec a b); try lia
           | |- context [Z.ltb ?a ?b] => destruct (Z.ltb_spec a b); try lia
           end; cbn; repeat split; try reflexivity; try lia.
Qed.

(** C9. Whenever [h2o_http3_read_frame] returns non-zero, INCOMPLETE or
    MALFORMED_FRAME alike, the caller's cursor is where it was. *)
Theorem h2o_http3_read_frame_error_keeps_cursor :
  forall (frame : h2o_http3_read_frame_t) (mem : memory) (_src src_end : Z),
    rf_ret (h2o_http3_read_frame frame mem _src src_end) <> RET_OK ->
    rf_src (h2o_http3_read_frame frame mem _src src_end) = _src.
Proof.
  intros frame mem _src src_end. unfold h2o_http3_read_frame.
  destruct (quicly_decodev mem _src src_end) as [len src].
  repeat match goal with
         | |- context [if ?c then _ else _] => destruct c
         end; cbn; intros H; try reflexivity; exfalso; apply H; reflexivity.
Qed.

(** ** The receive buffer *)

Lemma memcpy_from_length (dst : memory) :
  forall i off src len, Datatypes.length (memcpy_from i dst off src len) = Datatypes.length dst.
Proof.
  induction dst as [|b dst IH]; intros i off src len; cbn; [reflexivity|].
  rewrite IH. reflexivity.
Qed.

Lemma memcpy_from_nth (dst : memory) :
  forall i off src len (k : nat) d,
    (k < Datatypes.length dst)%nat ->
    nth k (memcpy_from i dst off src len) d =
    if (off <=? i + Z.of_nat k) && (i + Z.of_nat k <? off + len)
    then nth (Z.to_nat (i + Z.of_nat k - off)) src (nth k dst d)
    else nth k dst d.
Proof.
  induction dst as [|b dst IH]; intros i off src len k d Hk; cbn in Hk; [lia|].
  destruct k as [|k].
  - cbn. rewrite Z.add_0_r. reflexivity.
  - cbn [memcpy_from nth]. rewrite IH by lia.
    replace (i + 1 + Z.of_nat k) with (i + Z.of_nat (S k)) by lia. reflexivity.
Qed.

(** A cell inside the copied range receives the source byte, any other cell of
    the destination is kept. *)
Lemma memcpy_load (dst : memory) (off : Z) (src : list byte) (len p : Z) :
  0 <= p < Z.of_nat (Datatypes.length dst) ->
  0 <= off ->
  off + len - off <= Z.of_nat (Datatypes.length src) ->
  load (memcpy dst off src len) p =
  if (off <=? p) && (p <? off + len) then load src (p - off) else load dst p.
Proof.
  intros Hp Hoff Hsrc. unfold load, memcpy.
  rewrite memcpy_from_nth by lia. rewrite Z2Nat.id by lia. cbn [Z.add].
  destruct ((off <=? p) && (p <? off + len)) eqn:Hin; [|reflexivity].
  apply andb_true_iff in Hin. destruct Hin as [H1 H2].
  apply Z.leb_le in H1. apply Z.ltb_lt in H2.
  f_equal. f_equal. apply nth_indep. lia.
Qed.

Section RecvbufProperties.

Variable h2o_buffer_reserve : h2o_buffer_t -> Z -> h2o_buffer_t.

(** What the code does on success: the size is set to [off + len], whatever
    it was, and the bytes are copied to offset [off]. *)
Lemma h2o_http3_update_recvbuf_success (buf : h2o_buffer_t) (off : Z)
    (src : list byte) (len : Z) :
  fst (h2o_http3_update_recvbuf h2o_buffer_reserve buf off src len) = RET_OK ->
  exists base,
    (base = buf \/ base = h2o_buffer_reserve buf (wrap64 (off + len))) /\
    snd (h2o_http3_update_recvbuf h2o_buffer_reserve buf off src len) =
    mk_buffer (capacity base) (wrap64 (off + len)) (memcpy (bytes base) off src len).
Proof.
  unfold h2o_http3_update_recvbuf.
  destruct (size buf <? wrap64 (off + len)).
  - destruct (capacity (h2o_buffer_reserve buf (wrap64 (off + len))) <? wrap64 (off + len));
      cbn; intros H; [discriminate|].
    eexists; split; [right; reflexivity|reflexivity].
  - cbn. intros _. eexists; split; [left; reflexivity|reflexivity].
Qed.

(** Copying the same bytes to the same place twice is the same as copying
    them once. *)
Lemma memcpy_twice (dst : memory) (off : Z) (src : list byte) (len : Z) :
  memcpy (memcpy dst off src len) off src len = memcpy dst off src len.
Proof.
  apply nth_ext with (d := x00) (d' := x00).
  - unfold memcpy. rewrite !memcpy_from_length. reflexivity.
  - intros k Hk. unfold memcpy in *. rewrite !memcpy_from_length in Hk.
    rewrite (memcpy_from_nth (memcpy_from 0 dst off src len))
      by (rewrite memcpy_from_length; exact Hk).
    rewrite memcpy_from_nth by exact Hk.
    destruct ((off <=? 0 + Z.of_nat k) && (0 + Z.of_nat k <? off + len)) eqn:Hin;
      [|reflexivity].
    destruct (Nat.lt_ge_cases (Z.to_nat (0 + Z.of_nat k - off)) (Datatypes.length src))
      as [Hlt|Hge].
    + apply nth_indep. exact Hlt.
    + rewrite !nth_overflow by exact Hge. reflexivity.
Qed.

(** X25. A successful write applied a second time changes nothing. *)
Lemma h2o_http3_update_recvbuf_idempotent (buf : h2o_buffer_t) (off : Z)
    (src : list byte) (len : Z) :
  fst (h2o_http3_update_recvbuf h2o_buffer_reserve buf off src len) = RET_OK ->
  h2o_http3_update_recvbuf h2o_buffer_reserve
    (snd (h2o_http3_update_recvbuf h2o_buffer_reserve buf off src len)) off src len
  = (RET_OK, snd (h2o_http3_update_recvbuf h2o_buffer_reserve buf off src len)).
Proof.
  intros Hok.
  destruct (h2o_http3_update_recvbuf_success buf off src len Hok) as (base & _ & Hsnd).
  rewrite Hsnd. unfold h2o_http3_update_recvbuf at 1. cbn [size capacity bytes].
  rewrite Z.ltb_irrefl. rewrite memcpy_twice. reflexivity.
Qed.

(** C10. When [h2o_http3_update_recvbuf] fails with NO_MEMORY, the buffer
    could not be grown to [off + len] bytes, and the call has done nothing
    but the attempt to reserve; as reserving keeps the size and the bytes in
    use, the size and the bytes in [0, size) are what they were. *)
Theorem h2o_http3_update_recvbuf_no_memory (buf : h2o_buffer_t) (off : Z)
    (src : list byte) (len : Z) :
  size (h2o_buffer_reserve buf (wrap64 (off + len))) = size buf ->
  contents (h2o_buffer_reserve buf (wrap64 (off + len))) = contents buf ->
  fst (h2o_http3_update_recvbuf h2o_buffer_reserve buf off src len) = PTLS_ERROR_NO_MEMORY ->
  let buf' := snd (h2o_http3_update_recvbuf h2o_buffer_reserve buf off src len) in
  buf' = h2o_buffer_reserve buf (wrap64 (off + len)) /\
  capacity buf' < wrap64 (off + len) /\
  size buf' = size buf /\
  contents buf' = contents buf.
Proof.
  intros Hsize Hcontents. unfold h2o_http3_update_recvbuf.
  destruct (size buf <? wrap64 (off + len)); [|cbn; discriminate].
  destruct (Z.ltb_spec (capacity (h2o_buffer_reserve buf (wrap64 (off + len))))
                       (wrap64 (off + len))) as [Hcap|Hcap];
    cbn; intros H; [|discriminate].
  repeat split; auto.
Qed.

End RecvbufProperties.

Lemma h2o_buffer_reserve_model_size (alloc_ok : bool) (b : h2o_buffer_t) (n : Z) :
  size (h2o_buffer_reserve_model alloc_ok b n) = size b.
Proof.
  unfold h2o_buffer_reserve_model.
  destruct (n <=? capacity b - size b); [reflexivity|].
  destruct alloc_ok; reflexivity.
Qed.

Lemma h2o_buffer_reserve_model_contents (alloc_ok : bool) (b : h2o_buffer_t) (n : Z) :
  Z.of_nat (Datatypes.length (bytes b)) = capacity b ->
  size b <= capacity b ->
  contents (h2o_buffer_reserve_model alloc_ok b n) = contents b.
Proof.
  intros Hlen Hsz. unfold h2o_buffer_reserve_model.
  destruct (n <=? capacity b - size b); [reflexivity|].
  destruct alloc_ok; [|reflexivity].
  unfold contents, slice. cbn [size bytes]. cbn [Z.to_nat skipn].
  rewrite firstn_app.
  replace (Z.to_nat (size b) - Datatypes.length (bytes b))%nat with 0%nat by lia.
  cbn [firstn]. rewrite app_nil_r. reflexivity.
Qed.

(** A full buffer that holds the bytes 61 62, one more byte arriving behind
    them, and an allocator that has nothing left: the write fails, and the
    size and the two bytes are as before. *)
Lemma h2o_http3_update_recvbuf_no_memory_witness :
  let reserve := h2o_buffer_reserve_model false in
  let buf := mk_buffer 2 2 [x61; x62] in
  size (reserve buf (wrap64 (2 + 1))) = size buf /\
  contents (reserve buf (wrap64 (2 + 1))) = contents buf /\
  fst (h2o_http3_update_recvbuf reserve buf 2 [x63] 1) = PTLS_ERROR_NO_MEMORY /\
  size (snd (h2o_http3_update_recvbuf reserve buf 2 [x63] 1)) = 2 /\
  contents (snd (h2o_http3_update_recvbuf reserve buf 2 [x63] 1)) = [x61; x62].
Proof.
  cbv zeta.
  pose proof (h2o_http3_update_recvbuf_no_memory (h2o_buffer_reserve_model false)
                (mk_buffer 2 2 [x61; x62]) 2 [x63] 1 eq_refl eq_refl eq_refl) as H.
  cbv zeta in H. destruct H as (_ & _ & Hs & Hc).
  split; [reflexivity|]. split; [reflexivity|]. split; [reflexivity|].
  split; [exact Hs|exact Hc].
Defined.

(** A two-byte varint cut after its first byte: INCOMPLETE, cursor unmoved. *)
Lemma h2o_http3_read_frame_error_keeps_cursor_witness :
  rf_ret (h2o_http3_read_frame (mk_frame 0 0 0 0) [x40] 0 1) <> RET_OK /\
  rf_src (h2o_http3_read_frame (mk_frame 0 0 0 0) [x40] 0 1) = 0.
Proof.
  split.
  - vm_compute. discriminate.
  - apply (h2o_http3_read_frame_error_keeps_cursor (mk_frame 0 0 0 0) [x40] 0 1).
    vm_compute. discriminate.
Defined.

(** The frame reader on the control frames of the spec's scenarios. *)
Example h2o_http3_read_frame_settings :
  h2o_http3_read_frame (mk_frame 0 0 0 0) [x00; x04; x01; x0d; x00] 0 5
  = (RET_OK, mk_frame 4 2 2 0, 2).
Proof. reflexivity. Qed.

Example h2o_http3_read_frame_max_push_id :
  h2o_http3_read_frame (mk_frame 0 0 0 0) [x00; x04; x01; x0d; x00] 2 5
  = (RET_OK, mk_frame 13 2 4 1, 5).
Proof. reflexivity. Qed.

Example h2o_http3_read_frame_oversize :
  rf_ret (h2o_http3_read_frame (mk_frame 0 0 0 0) [x80; x00; x40; x00; x04] 0 5)
  = H2O_HTTP3_ERROR_MALFORMED_FRAME 4.
Proof. reflexivity. Qed.

Example h2o_http3_read_frame_data_without_payload :
  h2o_http3_read_frame (mk_frame 9 9 9 9) [x05; x00] 0 2 = (RET_OK, mk_frame 0 2 9 5, 2).
Proof. reflexivity. Qed.

(** C3. A buffer that holds ten bytes receives the three bytes of an earlier
    segment at offset 0: the call succeeds and leaves [size] at 3, where
    [max(size, offset + len)] is 10.  So two writes to disjoint ranges end
    with different sizes in the two orders. *)
Theorem h2o_http3_update_recvbuf_size_not_max :
  let buf := mk_buffer 16 10 (repeat x2e 16) in
  let reserve := h2o_buffer_reserve_model true in
  let early := h2o_http3_update_recvbuf reserve buf 0 [x61; x62; x63] 3 in
  let late (b : h2o_buffer_t) :=
    h2o_http3_update_recvbuf reserve b 5 [x76; x77; x78; x79; x7a] 5 in
  fst early = RET_OK /\
  size (snd early) = 3 /\
  size (update_recvbuf_spec buf 0 [x61; x62; x63] 3) = 10 /\
  size (snd (late (snd early))) = 10 /\
  size (snd (h2o_http3_update_recvbuf reserve (snd (late buf)) 0 [x61; x62; x63] 3)) = 3 /\
  contents (snd (late (snd early)))
    <> contents (snd (h2o_http3_update_recvbuf reserve (snd (late buf)) 0 [x61; x62; x63] 3)).
Proof.
  cbv zeta. repeat split; try reflexivity.
  vm_compute. discriminate.
Qed.

(** ** Egress streams *)

(** X8. What [egress_unistream_on_send_emit] reports: [wrote_all] is set
    exactly when the emitted range ends where the send buffer ends. *)
Lemma egress_unistream_on_send_emit_wrote_all (stream : st_h2o_http3_egress_unistream_t)
    (off : Z) (dst : memory) (len : Z) :
  0 <= off <= size (sendbuf stream) ->
  size (sendbuf stream) < 2 ^ 64 ->
  0 <= len ->
  let r := egress_unistream_on_send_emit stream off dst len in
  emit_len r = Z.min len (size (sendbuf stream) - off) /\
  (emit_wrote_all r = 1 <-> off + emit_len r = size (sendbuf stream)) /\
  (emit_wrote_all r = 0 <-> off + emit_len r < size (sendbuf stream)).
Proof.
  intros Hoff Hsz Hlen. unfold egress_unistream_on_send_emit, wrap64.
  rewrite Z.mod_small by lia.
  destruct (Z.leb_spec (size (sendbuf stream) - off) len); cbn; lia.
Qed.

(** The bytes handed to the transport are always the front of the send
    buffer: the offset has no part in the copy. *)
Lemma egress_unistream_on_send_emit_copies_front (stream : st_h2o_http3_egress_unistream_t)
    (off : Z) (dst : memory) (len : Z) :
  let r := egress_unistream_on_send_emit stream off dst len in
  emit_dst r = memcpy dst 0 (bytes (sendbuf stream)) (emit_len r).
Proof.
  unfold egress_unistream_on_send_emit.
  destruct (wrap64 (size (sendbuf stream) - off) <=? len); reflexivity.
Qed.

(** C4. The control stream's send buffer holds 43 00 04 and the transport asks
    for two bytes from offset 1: the bytes at offset 1 are 00 04, the call
    emits 43 00, and reports [wrote_all]. *)
Theorem egress_unistream_on_send_emit_ignores_offset :
  let stream := mk_egress (mk_buffer 3 3 [x43; x00; x04]) in
  let r := egress_unistream_on_send_emit stream 1 [x00; x00] 2 in
  emit_ret r = RET_OK /\
  emit_len r = 2 /\
  emit_wrote_all r = 1 /\
  emit_dst r = [x43; x00] /\
  slice (bytes (sendbuf stream)) 1 (emit_len r) = [x00; x04].
Proof.
  cbv zeta. repeat split; reflexivity.
Qed.

(** ** The control stream *)

Lemma snoc_neq {A : Type} (l : list A) (x : A) : l ++ [x] <> l.
Proof.
  intros H. apply (f_equal (@Datatypes.length A)) in H.
  rewrite length_app in H. cbn in H. lia.
Qed.

Section ControlStream.

Variable handle_control_stream_frame :
  h2o_http3_conn_t -> Z -> memory -> Z -> Z -> retcode * h2o_http3_conn_t.

Lemma control_stream_handle_input_frame (frame0 : h2o_http3_read_frame_t) (w : world)
    (mem : memory) (src src_end : Z) (frame : h2o_http3_read_frame_t) (src' : Z) :
  h2o_http3_read_frame frame0 mem src src_end = (RET_OK, frame, src') ->
  control_stream_handle_input handle_control_stream_frame frame0 w mem src src_end =
  if malformed_on_control_stream (w_conn w) (frame_type frame) then
    mk_handled (H2O_HTTP3_ERROR_MALFORMED_FRAME (frame_type frame)) w src'
  else
    mk_handled
      (fst (handle_control_stream_frame (w_conn w) (frame_type frame) mem
              (frame_payload frame) (frame_length frame)))
      (mk_world
         (snd (handle_control_stream_frame (w_conn w) (frame_type frame) mem
                 (frame_payload frame) (frame_length frame)))
         (w_stream w)
         (w_trace w ++ [Call_handle_control_stream_frame (frame_type frame)
                          (slice mem (frame_payload frame) (frame_length frame))
                          (frame_length frame)]))
      src'.
Proof.
  intros Hrf. unfold control_stream_handle_input, malformed_on_control_stream.
  rewrite Hrf. cbn [retcode_eqb negb].
  destruct (Bool.eqb _ _ || _); [reflexivity|].
  destruct (handle_control_stream_frame _ _ _ _ _). reflexivity.
Qed.

(** C1, as the code has it.  For every frame that the reader delivers on the
    control stream: when [has_received_settings(conn) == (type == SETTINGS)
    || type == DATA], the handler fails the connection with
    MALFORMED_FRAME(type) and calls nothing; the frame is handed to the HTTP
    layer's callback exactly when the predicate does not hold, and then the
    callback's return value is returned.  So the call returns
    MALFORMED_FRAME(type) exactly when the predicate holds or the callback
    returns that value.  Before SETTINGS only SETTINGS is accepted, a later
    SETTINGS is rejected, DATA is always rejected, and any other frame after
    SETTINGS reaches the callback. *)
Theorem control_stream_handle_input_gate (frame0 : h2o_http3_read_frame_t) (w : world)
    (mem : memory) (src src_end : Z) (frame : h2o_http3_read_frame_t) (src' : Z) :
  h2o_http3_read_frame frame0 mem src src_end = (RET_OK, frame, src') ->
  let r := control_stream_handle_input handle_control_stream_frame frame0 w mem src src_end in
  let type := frame_type frame in
  let settings := h2o_http3_has_received_settings (w_conn w) in
  let verdict := fst (handle_control_stream_frame (w_conn w) type mem
                        (frame_payload frame) (frame_length frame)) in
  (malformed_on_control_stream (w_conn w) type = true -> rejected type r /\ h_world r = w) /\
  (delivered handle_control_stream_frame w mem frame r <->
   malformed_on_control_stream (w_conn w) type = false) /\
  (malformed_on_control_stream (w_conn w) type = false -> h_ret r = verdict) /\
  (rejected type r <->
   malformed_on_control_stream (w_conn w) type = true \/
   verdict = H2O_HTTP3_ERROR_MALFORMED_FRAME type) /\
  (settings = false ->
   (delivered handle_control_stream_frame w mem frame r <->
    type = H2O_HTTP3_FRAME_TYPE_SETTINGS)) /\
  (settings = true -> type = H2O_HTTP3_FRAME_TYPE_SETTINGS ->
   rejected type r /\ h_world r = w) /\
  (type = H2O_HTTP3_FRAME_TYPE_DATA -> rejected type r /\ h_world r = w) /\
  (settings = true -> type <> H2O_HTTP3_FRAME_TYPE_SETTINGS ->
   type <> H2O_HTTP3_FRAME_TYPE_DATA -> delivered handle_control_stream_frame w mem frame r) /\
  h_src r = src'.
Proof.
  intros Hrf r type settings verdict.
  pose proof (control_stream_handle_input_frame frame0 w mem src src_end frame src' Hrf)
    as Hr.
  fold r in Hr. fold type in Hr. fold verdict in Hr.
  assert (Hrej : malformed_on_control_stream (w_conn w) type = true ->
                 rejected type r /\ h_world r = w).
  { intros Hm. unfold rejected. rewrite Hr, Hm. split; reflexivity. }
  assert (Hdel : delivered handle_control_stream_frame w mem frame r <->
                 malformed_on_control_stream (w_conn w) type = false).
  { unfold delivered. rewrite Hr. fold type.
    destruct (malformed_on_control_stream (w_conn w) type); cbn [h_ret h_world w_trace w_conn].
    - split; [|discriminate]. intros [Ht _]. exfalso.
      symmetry in Ht. exact (snoc_neq _ _ Ht).
    - split; [reflexivity|]. intros _. split; [reflexivity|].
      unfold verdict. destruct (handle_control_stream_frame _ _ _ _ _); reflexivity. }
  assert (Hver : malformed_on_control_stream (w_conn w) type = false -> h_ret r = verdict).
  { intros Hm. rewrite Hr, Hm. reflexivity. }
  assert (Hret : rejected type r <->
                 malformed_on_control_stream (w_conn w) type = true \/
                 verdict = H2O_HTTP3_ERROR_MALFORMED_FRAME type).
  { unfold rejected.
    destruct (malformed_on_control_stream (w_conn w) type) eqn:Hm.
    - split; [intros _; left; reflexivity|]. intros _. apply Hrej. reflexivity.
    - rewrite (Hver eq_refl). split; [intros H; right; exact H|].
      intros [H|H]; [discriminate|exact H]. }
  assert (Hsrc : h_src r = src').
  { rewrite Hr. destruct (malformed_on_control_stream (w_conn w) type); reflexivity. }
  split; [exact Hrej|]. split; [exact Hdel|]. split; [exact Hver|]. split; [exact Hret|].
  unfold malformed_on_control_stream in Hrej, Hdel. fold settings in Hrej, Hdel.
  unfold H2O_HTTP3_FRAME_TYPE_SETTINGS, H2O_HTTP3_FRAME_TYPE_DATA in *.
  split; [|split; [|split; [|split]]].
  - intros Hs. rewrite Hs in Hdel. rewrite Hdel. split.
    + intros H. destruct (Z.eqb_spec type 4); [assumption|].
      destruct (Z.eqb_spec type 0); cbn in H; discriminate.
    + intros H. rewrite H. reflexivity.
  - intros Hs Ht. apply Hrej. rewrite Hs, Ht. reflexivity.
  - intros Ht. apply Hrej. rewrite Ht. cbn. apply orb_true_r.
  - intros Hs H4 H0. apply Hdel. rewrite Hs.
    destruct (Z.eqb_spec type 4); [contradiction|].
    destruct (Z.eqb_spec type 0); [contradiction|]. reflexivity.
  - exact Hsrc.
Qed.

End ControlStream.

(** ** SETTINGS *)

Lemma view_length (mem : memory) (src src_end : Z) :
  0 <= src <= src_end -> src_end <= Z.of_nat (Datatypes.length mem) ->
  Z.of_nat (Datatypes.length (view mem src src_end)) = src_end - src.
Proof.
  intros Hs He. unfold view, slice. rewrite length_firstn, length_skipn. lia.
Qed.

Lemma view_end (mem : memory) (src : Z) : view mem src src = [].
Proof. unfold view, slice. rewrite Z.sub_diag. reflexivity. Qed.

Lemma view_cons (mem : memory) (src src_end : Z) :
  0 <= src < src_end -> src_end <= Z.of_nat (Datatypes.length mem) ->
  exists b, view mem src src_end = b :: view mem (src + 1) src_end /\
            load mem src = Z.of_N (Byte.to_N b).
Proof.
  intros Hs He. unfold view, slice, load.
  assert (Hlt : (Z.to_nat src < Datatypes.length mem)%nat) by lia.
  destruct (skipn (Z.to_nat src) mem) as [|b rest] eqn:Hsk.
  - apply (f_equal (@Datatypes.length byte)) in Hsk. rewrite length_skipn in Hsk.
    cbn in Hsk. lia.
  - exists b.
    replace (Z.to_nat (src_end - src)) with (S (Z.to_nat (src_end - (src + 1)))) by lia.
    replace (Z.to_nat (src + 1)) with (S (Z.to_nat src)) by lia.
    cbn [firstn]. split.
    + f_equal. f_equal.
      change (S (Z.to_nat src)) with (1 + Z.to_nat src)%nat.
      rewrite <- skipn_skipn. rewrite Hsk. reflexivity.
    + rewrite <- (Nat.add_0_r (Z.to_nat src)) at 1.
      rewrite <- nth_skipn. rewrite Hsk. reflexivity.
Qed.

Lemma view_skipn (mem : memory) (src_end : Z) (k : nat) :
  forall src, 0 <= src -> src + Z.of_nat k <= src_end ->
    src_end <= Z.of_nat (Datatypes.length mem) ->
    skipn k (view mem src src_end) = view mem (src + Z.of_nat k) src_end.
Proof.
  induction k as [|k IH]; intros src Hs Hk He.
  - cbn. rewrite Z.add_0_r. reflexivity.
  - destruct (view_cons mem src src_end ltac:(lia) He) as (b & Hv & _).
    rewrite Hv. cbn [skipn]. rewrite IH by lia. f_equal. lia.
Qed.

Lemma load_be_view (mem : memory) (src_end : Z) (k : nat) :
  forall src acc, 0 <= src -> src + Z.of_nat k <= src_end ->
    src_end <= Z.of_nat (Datatypes.length mem) ->
    load_be mem src k acc = be_value (firstn k (view mem src src_end)) acc.
Proof.
  induction k as [|k IH]; intros src acc Hs Hk He.
  - reflexivity.
  - destruct (view_cons mem src src_end ltac:(lia) He) as (b & Hv & Hb).
    rewrite Hv. cbn [load_be firstn]. unfold be_value. cbn [fold_left].
    rewrite Hb. apply IH; lia.
Qed.

Lemma ptls_decode16_view (mem : memory) (src src_end : Z) :
  0 <= src <= src_end -> src_end <= Z.of_nat (Datatypes.length mem) ->
  match ptls_decode16 mem src src_end with
  | None => u16_of (view mem src src_end) = None
  | Some (id, src') =>
      u16_of (view mem src src_end) = Some (id, view mem src' src_end) /\
      src' = src + 2 /\ src' <= src_end
  end.
Proof.
  intros Hs He. unfold ptls_decode16.
  destruct (Z.ltb_spec (src_end - src) 2) as [Hlt|Hge].
  - destruct (Z.eq_dec src src_end) as [->|Hne]; [rewrite view_end; reflexivity|].
    destruct (view_cons mem src src_end ltac:(lia) He) as (b & Hv & _).
    rewrite Hv. replace (src + 1) with src_end by lia. rewrite view_end. reflexivity.
  - destruct (view_cons mem src src_end ltac:(lia) He) as (b1 & Hv1 & Hb1).
    destruct (view_cons mem (src + 1) src_end ltac:(lia) He) as (b2 & Hv2 & Hb2).
    rewrite Hv1, Hv2. cbn [u16_of]. rewrite Hb1, Hb2.
    replace (src + 1 + 1) with (src + 2) by lia. repeat split; lia.
Qed.

Lemma varint_size_nat (mem : memory) (p : Z) :
  Z.of_nat (Nat.pow 2 (Z.to_nat (load mem p / 64))) = varint_size mem p.
Proof.
  unfold varint_size. pose proof (load_range mem p) as Hb.
  assert (Hq : 0 <= load mem p / 64 < 4).
  { split; [apply Z.div_pos; lia | apply Z.div_lt_upper_bound; lia]. }
  assert (Hc : load mem p / 64 = 0 \/ load mem p / 64 = 1 \/
               load mem p / 64 = 2 \/ load mem p / 64 = 3) by lia.
  destruct Hc as [H|[H|[H|H]]]; rewrite H; reflexivity.
Qed.

Lemma quicly_decodev_view (mem : memory) (src src_end : Z) :
  0 <= src <= src_end -> src_end <= Z.of_nat (Datatypes.length mem) ->
  let '(value, src') := quicly_decodev mem src src_end in
  if value =? UINT64_MAX then varint_of (view mem src src_end) = None
  else varint_of (view mem src src_end) = Some (value, view mem src' src_end) /\
       src < src' <= src_end.
Proof.
  intros Hs He.
  destruct (Z.eq_dec src src_end) as [Heq|Hne].
  { subst src_end. rewrite quicly_decodev_truncated by (left; reflexivity).
    rewrite Z.eqb_refl, view_end. reflexivity. }
  destruct (view_cons mem src src_end ltac:(lia) He) as (b & Hv & Hb).
  pose proof (view_length mem src src_end ltac:(lia) He) as Hlen.
  pose proof (varint_size_nat mem src) as Hn.
  pose proof (varint_size_cases mem src) as Hcases.
  destruct (Z_lt_dec (src_end - src) (varint_size mem src)) as [Hlt|Hge].
  - rewrite quicly_decodev_truncated by (right; assumption).
    rewrite Z.eqb_refl. rewrite Hv in Hlen |- *. unfold varint_of.
    rewrite <- Hb.
    destruct (Nat.ltb_spec (Datatypes.length (b :: view mem (src + 1) src_end))
                (Nat.pow 2 (Z.to_nat (load mem src / 64)))) as [|Hc];
      [reflexivity|lia].
  - assert (Hnt : ~ varint_truncated mem src src_end) by (unfold varint_truncated; lia).
    pose proof (quicly_decodev_complete mem src src_end Hnt) as [Hsnd Hfst].
    destruct (quicly_decodev mem src src_end) as [value src'] eqn:Hd.
    cbn [fst snd] in Hsnd, Hfst. subst src'.
    assert (Hneq : (value =? UINT64_MAX) = false).
    { apply Z.eqb_neq. unfold UINT64_MAX.
      assert (2 ^ 62 < 2 ^ 64 - 1) by (vm_compute; reflexivity). lia. }
    rewrite Hneq. split; [|lia].
    unfold quicly_decodev in Hd. rewrite decodev_size in Hd.
    destruct (Z.eqb_spec src src_end); [contradiction|].
    destruct (Z.ltb_spec (src_end - src) (varint_size mem src)); [lia|].
    injection Hd as Hvalue. subst value.
    rewrite Hv in Hlen |- *. unfold varint_of. rewrite <- Hb.
    destruct (Nat.ltb_spec (Datatypes.length (b :: view mem (src + 1) src_end))
                (Nat.pow 2 (Z.to_nat (load mem src / 64)))) as [Hc|Hc]; [lia|].
    change 63 with (Z.ones 6). rewrite Z.land_ones by lia. change (2 ^ 6) with 64.
    f_equal. f_equal.
    + replace (Z.to_nat (varint_size mem src - 1))
        with (Nat.pow 2 (Z.to_nat (load mem src / 64)) - 1)%nat by lia.
      symmetry. apply load_be_view; lia.
    + rewrite view_skipn by lia. f_equal. lia.
Qed.

(** Entries with another identifier than 0x0001 do not change the table size. *)
Lemma table_size_ignores_other_ids (ps : list (Z * Z)) :
  forall hts, (forall p, In p ps -> fst p <> 1) -> fold_left table_size_step ps hts = hts.
Proof.
  induction ps as [|p ps IH]; intros hts Hps; [reflexivity|].
  cbn [fold_left]. unfold table_size_step at 2.
  destruct (Z.eqb_spec (fst p) 1) as [H1|_].
  - exfalso. apply (Hps p); [left; reflexivity|assumption].
  - apply IH. intros q Hq. apply Hps. right. assumption.
Qed.

Lemma negotiated_table_size_default (ps : list (Z * Z)) :
  (forall p, In p ps -> fst p <> 1) -> negotiated_table_size ps = 4096.
Proof. apply table_size_ignores_other_ids. Qed.

(** The last HEADER_TABLE_SIZE entry decides. *)
Lemma negotiated_table_size_last (ps qs : list (Z * Z)) (value : Z) :
  (forall p, In p qs -> fst p <> 1) ->
  negotiated_table_size (ps ++ (1, value) :: qs) = value.
Proof.
  intros Hqs. unfold negotiated_table_size. rewrite fold_left_app. cbn [fold_left].
  rewrite table_size_ignores_other_ids by assumption. reflexivity.
Qed.

(** The table size is the default or the value of one of the
    HEADER_TABLE_SIZE entries. *)
Lemma table_size_cases (ps : list (Z * Z)) :
  forall hts,
    fold_left table_size_step ps hts = hts \/
    exists p, In p ps /\ fst p = 1 /\ fold_left table_size_step ps hts = snd p.
Proof.
  induction ps as [|p ps IH]; intros hts; [left; reflexivity|].
  cbn [fold_left]. destruct (IH (table_size_step hts p)) as [H|(q & Hq & H1 & H)].
  - rewrite H. unfold table_size_step. destruct (Z.eqb_spec (fst p) 1) as [Hp|_].
    + right. exists p. split; [left; reflexivity|]. split; [exact Hp|reflexivity].
    + left. reflexivity.
  - right. exists q. split; [right; exact Hq|]. split; assumption.
Qed.

(** What the code keeps in its [uint32_t] is the table size that the settings
    ask for, cast to 32 bits. *)
Lemma table_size_cast (ps : list (Z * Z)) :
  forall code_hts hts,
    code_hts = to_uint32 hts ->
    fold_left (fun hts p =>
                 if fst p =? H2O_HTTP3_SETTINGS_HEADER_TABLE_SIZE then to_uint32 (snd p)
                 else hts) ps code_hts
    = to_uint32 (fold_left table_size_step ps hts).
Proof.
  induction ps as [|p ps IH]; intros code_hts hts Hc; [exact Hc|].
  cbn [fold_left]. apply IH. unfold table_size_step, H2O_HTTP3_SETTINGS_HEADER_TABLE_SIZE.
  destruct (fst p =? 1); [reflexivity|exact Hc].
Qed.

(** The loop of the code and the parser of the spec walk the payload in step. *)
Lemma settings_loop_pairs (mem : memory) (src_end : Z) (fuel : nat) :
  forall src hts,
    0 <= src <= src_end -> src_end <= Z.of_nat (Datatypes.length mem) ->
    src_end - src < Z.of_nat fuel ->
    settings_loop fuel mem src src_end hts =
    Some match settings_pairs fuel (view mem src src_end) with
         | None => Malformed
         | Some ps =>
             Scanned (fold_left (fun hts p =>
                                   if fst p =? H2O_HTTP3_SETTINGS_HEADER_TABLE_SIZE
                                   then to_uint32 (snd p) else hts) ps hts)
         end.
Proof.
  induction fuel as [|fuel IH]; intros src hts Hs He Hf; [lia|].
  cbn [settings_loop settings_pairs].
  destruct (Z.eqb_spec src src_end) as [Heq|Hne]; cbn [negb].
  - subst src_end. rewrite view_end. reflexivity.
  - pose proof (ptls_decode16_view mem src src_end Hs He) as H16.
    pose proof (view_length mem src src_end Hs He) as Hlen.
    destruct (view mem src src_end) as [|b l] eqn:Hview; [cbn in Hlen; lia|].
    destruct (ptls_decode16 mem src src_end) as [[id src1]|].
    + destruct H16 as (Hu & Hsrc1 & Hle1). rewrite Hu.
      pose proof (quicly_decodev_view mem src1 src_end ltac:(lia) He) as Hdv.
      destruct (quicly_decodev mem src1 src_end) as [value src2].
      destruct (value =? UINT64_MAX).
      * rewrite Hdv. reflexivity.
      * destruct Hdv as (Hvar & Hsrc2). rewrite Hvar.
        rewrite IH by lia.
        destruct (settings_pairs fuel (view mem src2 src_end)) as [ps|]; [|reflexivity].
        cbn [fold_left fst snd]. reflexivity.
    + rewrite H16. reflexivity.
Qed.

(** The loop always ends within the fuel that [h2o_http3_handle_settings_frame]
    gives it. *)
Lemma settings_loop_total (mem : memory) (payload length hts : Z) :
  0 <= payload -> 0 <= length -> payload + length <= Z.of_nat (Datatypes.length mem) ->
  settings_loop (S (Z.to_nat length)) mem payload (payload + length) hts <> None.
Proof.
  intros Hp Hl He. rewrite settings_loop_pairs by lia. discriminate.
Qed.

(** C8, as the code has it.  [h2o_http3_handle_settings_frame] reads the
    payload as pairs of a 16-bit identifier and a varint until the payload
    ends.  A pair that is cut short gives MALFORMED_FRAME(SETTINGS), and
    neither the connection nor the trace of calls changes: no encoder is
    created.  Otherwise the encoder is created once, with 100 blocked streams,
    and nothing else of the connection changes; every identifier but
    HEADER_TABLE_SIZE (0x0001) is ignored.  The table size of the encoder is
    the negotiated one (the value of the last HEADER_TABLE_SIZE entry, 4096
    when there is none) cast to 32 bits: it is the negotiated size itself
    when every HEADER_TABLE_SIZE value is below 2^32. *)
Theorem h2o_http3_handle_settings_frame_spec (conn : h2o_http3_conn_t) (tr : trace)
    (mem : memory) (payload length : Z) :
  h2o_http3_has_received_settings conn = false ->
  0 <= payload -> 0 <= length -> payload + length <= Z.of_nat (Datatypes.length mem) ->
  match parse_settings (slice mem payload length) with
  | None =>
      h2o_http3_handle_settings_frame conn tr mem payload length =
      Returns (H2O_HTTP3_ERROR_MALFORMED_FRAME H2O_HTTP3_FRAME_TYPE_SETTINGS, conn, tr)
  | Some ps =>
      let table_size := to_uint32 (negotiated_table_size ps) in
      (exists conn',
         h2o_http3_handle_settings_frame conn tr mem payload length =
         Returns (RET_OK, conn', tr ++ [Call_h2o_qpack_create_encoder table_size 100]) /\
         qpack_enc conn' = Some (h2o_qpack_create_encoder table_size 100) /\
         qpack_dec conn' = qpack_dec conn /\
         ingress_control conn' = ingress_control conn /\
         ingress_qpack_encoder conn' = ingress_qpack_encoder conn /\
         ingress_qpack_decoder conn' = ingress_qpack_decoder conn) /\
      ((forall p, In p ps -> fst p = 1 -> 0 <= snd p < 2 ^ 32) ->
       table_size = negotiated_table_size ps)
  end.
Proof.
  intros Hpre Hp Hl He. unfold h2o_http3_handle_settings_frame. rewrite Hpre.
  rewrite settings_loop_pairs by lia.
  unfold parse_settings, view.
  replace (payload + length - payload) with length by lia.
  assert (Hlen : Datatypes.length (slice mem payload length) = Z.to_nat length).
  { unfold slice. rewrite length_firstn, length_skipn. lia. }
  rewrite Hlen.
  destruct (settings_pairs (S (Z.to_nat length)) (slice mem payload length)) as [ps|];
    [|reflexivity].
  cbv zeta. split.
  - rewrite (table_size_cast ps H2O_HTTP3_DEFAULT_HEADER_TABLE_SIZE 4096 eq_refl).
    fold (negotiated_table_size ps).
    eexists. split; [reflexivity|]. cbn. repeat split; reflexivity.
  - intros Hsmall. unfold negotiated_table_size, to_uint32.
    destruct (table_size_cases ps 4096) as [H|(p & Hin & H1 & H)]; rewrite H.
    + reflexivity.
    + apply Z.mod_small. apply Hsmall; assumption.
Qed.

(** A table size of 100 asked for by the peer. *)
Lemma h2o_http3_handle_settings_frame_spec_witness :
  let conn := mk_conn None None None None None in
  h2o_http3_has_received_settings conn = false /\
  parse_settings (slice [x00; x01; x40; x64] 0 4) = Some [(1, 100)] /\
  exists conn',
    h2o_http3_handle_settings_frame conn [] [x00; x01; x40; x64] 0 4 =
    Returns (RET_OK, conn', [] ++ [Call_h2o_qpack_create_encoder 100 100]) /\
    qpack_enc conn' = Some (h2o_qpack_create_encoder 100 100).
Proof.
  cbv zeta. split; [reflexivity|]. split; [reflexivity|].
  pose proof (h2o_http3_handle_settings_frame_spec (mk_conn None None None None None) []
                [x00; x01; x40; x64] 0 4 eq_refl (Z.le_refl 0)
                ltac:(discriminate) ltac:(cbn; discriminate)) as H.
  change (parse_settings (slice [x00; x01; x40; x64] 0 4)) with (Some [(1, 100)]) in H.
  cbv zeta in H. destruct H as [(conn' & Hr & He & _) _].
  exists conn'. split; [exact Hr|exact He].
Defined.

(** A peer that asks for a table of 2^32 bytes: the payload is well formed,
    the negotiated size is 2^32, and the encoder is created with size 0.  So
    the encoder does not always get the negotiated table size. *)
Lemma h2o_http3_handle_settings_frame_truncates_table_size :
  ~ (forall (conn : h2o_http3_conn_t) (tr : trace) (mem : memory) (payload length : Z)
            (ps : list (Z * Z)),
        h2o_http3_has_received_settings conn = false ->
        0 <= payload -> 0 <= length ->
        payload + length <= Z.of_nat (Datatypes.length mem) ->
        parse_settings (slice mem payload length) = Some ps ->
        exists conn' tr',
          h2o_http3_handle_settings_frame conn tr mem payload length
            = Returns (RET_OK, conn', tr') /\
          qpack_enc conn'
            = Some (h2o_qpack_create_encoder (negotiated_table_size ps) 100)).
Proof.
  intros H.
  destruct (H (mk_conn None None None None None) []
              [x00; x01; xc0; x00; x00; x01; x00; x00; x00; x00] 0 10 [(1, 2 ^ 32)]
              eq_refl ltac:(discriminate) ltac:(discriminate) ltac:(cbn; discriminate)
              eq_refl) as (conn' & tr' & Hr & He).
  vm_compute in Hr. injection Hr as <- _.
  vm_compute in He. discriminate.
Qed.

Example parse_settings_ignores_other_ids :
  parse_settings [x00; x07; x05; x00; x01; x40; x64; x00; x09; x00]
  = Some [(7, 5); (1, 100); (9, 0)] /\
  negotiated_table_size [(7, 5); (1, 100); (9, 0)] = 100.
Proof. split; reflexivity. Qed.

Example parse_settings_truncated_id : parse_settings [x00] = None.
Proof. reflexivity. Qed.

Example parse_settings_truncated_value : parse_settings [x00; x01; x40] = None.
Proof. reflexivity. Qed.

Example h2o_http3_handle_settings_frame_empty :
  h2o_http3_handle_settings_frame (mk_conn None None None None None) [] [x00; x04] 2 0
  = Returns (RET_OK,
             mk_conn (Some (h2o_qpack_create_encoder 4096 100)) None None None None,
             [Call_h2o_qpack_create_encoder 4096 100]).
Proof. reflexivity. Qed.

(** ** Ingress streams *)

(** The first frame of the spec's scenario 2 is SETTINGS on a connection that
    has none yet: it reaches the callback. *)
Lemma control_stream_handle_input_gate_witness :
  h2o_http3_read_frame (mk_frame 0 0 0 0) [x00; x04; x01; x0d; x00] 0 5
    = (RET_OK, mk_frame 4 2 2 0, 2) /\
  delivered example_handle_control_stream_frame (fresh_world false 5)
    [x00; x04; x01; x0d; x00] (mk_frame 4 2 2 0)
    (control_stream_handle_input example_handle_control_stream_frame (mk_frame 0 0 0 0)
       (fresh_world false 5) [x00; x04; x01; x0d; x00] 0 5).
Proof.
  split; [reflexivity|].
  pose proof (control_stream_handle_input_gate example_handle_control_stream_frame
                (mk_frame 0 0 0 0) (fresh_world false 5) [x00; x04; x01; x0d; x00] 0 5
                (mk_frame 4 2 2 0) 2 eq_refl) as H.
  cbv zeta in H. destruct H as (_ & _ & _ & _ & H & _).
  apply H; reflexivity.
Defined.

(** A first SETTINGS frame whose one payload byte is half an identifier, with
    a callback that gives SETTINGS to [h2o_http3_handle_settings_frame]: the
    predicate does not hold, the frame reaches the callback, and the call
    still returns MALFORMED_FRAME(SETTINGS).  So a call that fails with
    MALFORMED_FRAME(type) need not satisfy the predicate. *)
Lemma control_stream_handle_input_callback_malformed :
  ~ (forall (handle_control_stream_frame :
               h2o_http3_conn_t -> Z -> memory -> Z -> Z -> retcode * h2o_http3_conn_t)
            (frame0 : h2o_http3_read_frame_t) (w : world) (mem : memory)
            (src src_end : Z) (frame : h2o_http3_read_frame_t) (src' : Z),
        h2o_http3_read_frame frame0 mem src src_end = (RET_OK, frame, src') ->
        (rejected (frame_type frame)
           (control_stream_handle_input handle_control_stream_frame frame0 w mem src src_end)
         <-> malformed_on_control_stream (w_conn w) (frame_type frame) = true)).
Proof.
  intros H.
  destruct (H example_handle_control_stream_frame (mk_frame 0 0 0 0) (fresh_world false 3)
              [x01; x04; x00] 0 3 (mk_frame 4 2 2 1) 3 eq_refl) as [Hmal _].
  assert (Hrej : rejected (frame_type (mk_frame 4 2 2 1))
                   (control_stream_handle_input example_handle_control_stream_frame
                      (mk_frame 0 0 0 0) (fresh_world false 3) [x01; x04; x00] 0 3))
    by reflexivity.
  apply Hmal in Hrej. vm_compute in Hrej. discriminate.
Qed.

Section ControlStreamOnce.

Variable handle_control_stream_frame :
  h2o_http3_conn_t -> Z -> memory -> Z -> Z -> retcode * h2o_http3_conn_t.

(** One call of [control_stream_handle_input] makes at most one call of the
    HTTP layer's callback, whatever the input holds. *)
Lemma control_stream_handle_input_at_most_one_call (frame0 : h2o_http3_read_frame_t)
    (w : world) (mem : memory) (src src_end : Z) :
  exists calls,
    w_trace (h_world (control_stream_handle_input handle_control_stream_frame
                        frame0 w mem src src_end)) = w_trace w ++ calls /\
    (Datatypes.length calls <= 1)%nat.
Proof.
  unfold control_stream_handle_input.
  destruct (h2o_http3_read_frame frame0 mem src src_end) as [[ret frame] src'].
  destruct (negb (retcode_eqb ret RET_OK)).
  - exists []. rewrite app_nil_r. split; [reflexivity|cbn; lia].
  - destruct (Bool.eqb _ _ || _).
    + exists []. rewrite app_nil_r. split; [reflexivity|cbn; lia].
    + destruct (handle_control_stream_frame _ _ _ _ _).
      eexists. split; [reflexivity|cbn; lia].
Qed.

(** C5. The input of the spec's scenario 2, a complete SETTINGS frame
    followed by a complete MAX_PUSH_ID frame: one call of the control-frame
    handler reads the SETTINGS frame, hands it to the callback and returns
    the callback's verdict with the cursor behind that frame.  The
    MAX_PUSH_ID frame, complete at the cursor, is not read.  The same holds
    one level up: [ingress_unistream_on_receive] calls the handler once and
    leaves the three bytes of MAX_PUSH_ID in the receive buffer. *)
Theorem control_stream_handle_input_reads_one_frame :
  let frames := [x00; x04; x01; x0d; x00] in
  let w := mk_world fresh_conn
             (set_handle_input (fresh_stream false 5) HI_control_stream) [] in
  let r := control_stream_handle_input handle_control_stream_frame (mk_frame 0 0 0 0)
             w frames 0 5 in
  h_src r = 2 /\
  w_trace (h_world r) = [Call_handle_control_stream_frame 4 [] 0] /\
  h_ret r = fst (handle_control_stream_frame fresh_conn 4 frames 2 0) /\
  h2o_http3_read_frame (mk_frame 0 0 0 0) frames (h_src r) 5
    = (RET_OK, mk_frame 13 2 4 1, 5) /\
  forall fuel,
    ingress_unistream_on_receive example_handle_control_stream_frame
      example_qpack_decoder_handle_input example_qpack_encoder_handle_input
      (h2o_buffer_reserve_model true) fuel (mk_frame 0 0 0 0)
      (fresh_world false 6) 0 (x43 :: frames) 6
    = Some (RET_OK,
            mk_world
              (mk_conn (Some (h2o_qpack_create_encoder 4096 100))
                       (Some (h2o_qpack_create_decoder 4096 100)) (Some 2) None None)
              (mk_ingress 2 (mk_recvstate false 3) (mk_buffer 3 3 [x01; x0d; x00])
                          HI_control_stream)
              [Call_handle_control_stream_frame 4 [] 0]).
Proof.
  cbv zeta. unfold control_stream_handle_input.
  change (h2o_http3_read_frame (mk_frame 0 0 0 0) [x00; x04; x01; x0d; x00] 0 5)
    with (RET_OK, mk_frame 4 2 2 0, 2).
  cbn [retcode_eqb negb].
  change (Bool.eqb _ _ || _) with false. cbv iota.
  cbn [frame_type frame_payload frame_length w_conn].
  destruct (handle_control_stream_frame fresh_conn 4 [x00; x04; x01; x0d; x00] 2 0)
    as [ret conn] eqn:Hcb.
  cbn [h_src h_world h_ret w_trace fst].
  repeat split.
Qed.

End ControlStreamOnce.

Section CriticalStream.

Variable handle_control_stream_frame :
  h2o_http3_conn_t -> Z -> memory -> Z -> Z -> retcode * h2o_http3_conn_t.
Variable h2o_qpack_decoder_handle_input :
  option h2o_qpack_decoder_t -> memory -> Z -> Z -> retcode * option h2o_qpack_decoder_t * Z.
Variable h2o_qpack_encoder_handle_input :
  option h2o_qpack_encoder_t -> memory -> Z -> Z -> retcode * option h2o_qpack_encoder_t * Z.
Variable h2o_buffer_reserve : h2o_buffer_t -> Z -> h2o_buffer_t.

(** C7, as the code has it.  A RESET on an ingress stream gives
    CLOSED_CRITICAL_STREAM whatever the state of the stream and the error
    code are.  Bytes that arrive when the receive state is transfer-complete
    are first saved: if that succeeds the call returns
    CLOSED_CRITICAL_STREAM, without running the input handler; if it fails,
    the call returns the error of [h2o_http3_update_recvbuf]. *)
Theorem ingress_unistream_closed_critical_stream (fuel : nat)
    (frame : h2o_http3_read_frame_t) (w : world) (off : Z) (input : list byte)
    (len : Z) :
  (forall (w0 : world) (err : Z),
     ingress_unistream_on_receive_reset w0 err = H2O_HTTP3_ERROR_CLOSED_CRITICAL_STREAM) /\
  (transfer_complete (recvstate (w_stream w)) = true ->
   let saved := h2o_http3_update_recvbuf h2o_buffer_reserve (recvbuf (w_stream w))
                  off input len in
   let w' := mk_world (w_conn w) (set_recvbuf (w_stream w) (snd saved)) (w_trace w) in
   (fst saved = RET_OK ->
    ingress_unistream_on_receive handle_control_stream_frame
      h2o_qpack_decoder_handle_input h2o_qpack_encoder_handle_input h2o_buffer_reserve
      fuel frame w off input len
    = Some (H2O_HTTP3_ERROR_CLOSED_CRITICAL_STREAM, w')) /\
   (fst saved <> RET_OK ->
    ingress_unistream_on_receive handle_control_stream_frame
      h2o_qpack_decoder_handle_input h2o_qpack_encoder_handle_input h2o_buffer_reserve
      fuel frame w off input len
    = Some (fst saved, w'))).
Proof.
  split; [intros w0 err; reflexivity|].
  intros Hfin saved w'.
  unfold ingress_unistream_on_receive. fold saved.
  destruct saved as [ret buf] eqn:Hsaved. cbn [fst snd] in *.
  split; intros Hret.
  - subst ret. cbn [retcode_eqb negb]. cbn [w_stream set_recvbuf recvstate].
    rewrite Hfin. reflexivity.
  - destruct ret; try reflexivity. contradiction.
Qed.

End CriticalStream.

(** A RESET on a stream that is still open, with some error code; and a
    stream on which the peer's FIN has been received: the bytes of the last
    segment are saved, and the call closes the connection. *)
Lemma ingress_unistream_closed_critical_stream_witness :
  ingress_unistream_on_receive_reset (fresh_world false 1) 7
  = H2O_HTTP3_ERROR_CLOSED_CRITICAL_STREAM /\
  transfer_complete (recvstate (w_stream (fresh_world true 1))) = true /\
  ingress_unistream_on_receive example_handle_control_stream_frame
    example_qpack_decoder_handle_input example_qpack_encoder_handle_input
    (h2o_buffer_reserve_model true) 1 (mk_frame 0 0 0 0) (fresh_world true 1) 0 [x43] 1
  = Some (H2O_HTTP3_ERROR_CLOSED_CRITICAL_STREAM,
          mk_world fresh_conn
            (mk_ingress 2 (mk_recvstate true 1) (mk_buffer 1 1 [x43]) HI_unknown_type) []).
Proof.
  pose proof (ingress_unistream_closed_critical_stream
                example_handle_control_stream_frame example_qpack_decoder_handle_input
                example_qpack_encoder_handle_input (h2o_buffer_reserve_model true)
                1 (mk_frame 0 0 0 0) (fresh_world true 1) 0 [x43] 1) as [Hreset Hfin].
  split; [exact (Hreset (fresh_world false 1) 7)|].
  split; [reflexivity|].
  cbv zeta in Hfin. destruct (Hfin eq_refl) as [H _].
  exact (H eq_refl).
Defined.

(** The same segment when the receive buffer cannot grow: the call returns
    NO_MEMORY, not CLOSED_CRITICAL_STREAM. *)
Lemma ingress_unistream_on_receive_fin_no_memory :
  ~ (forall (reserve : h2o_buffer_t -> Z -> h2o_buffer_t) (fuel : nat)
            (frame : h2o_http3_read_frame_t) (w : world) (off : Z) (input : list byte)
            (len : Z),
        transfer_complete (recvstate (w_stream w)) = true ->
        exists w',
          ingress_unistream_on_receive example_handle_control_stream_frame
            example_qpack_decoder_handle_input example_qpack_encoder_handle_input
            reserve fuel frame w off input len
          = Some (H2O_HTTP3_ERROR_CLOSED_CRITICAL_STREAM, w')).
Proof.
  intros H.
  destruct (H (h2o_buffer_reserve_model false) 1%nat (mk_frame 0 0 0 0)
              (fresh_world true 1) 0 [x43] 1 eq_refl) as [w' Hw'].
  vm_compute in Hw'. discriminate.
Qed.

(** ** The datagram pump *)

Lemma same_cid_as_first_snoc (packets : list quicly_decoded_packet_t)
    (p : quicly_decoded_packet_t) :
  same_cid_as_first packets = true ->
  (Datatypes.length packets =? 0)%nat
  || h2o_memis (cid_dest_encrypted (nth 0 (packets ++ [p]) p)) (cid_dest_encrypted p) = true ->
  same_cid_as_first (packets ++ [p]) = true.
Proof.
  destruct packets as [|p0 ps]; [reflexivity|].
  cbn [same_cid_as_first Datatypes.length Nat.eqb orb app nth]. intros Hall Hp.
  rewrite forallb_app, Hall. cbn. rewrite Hp. reflexivity.
Qed.

Section PumpProperties.

Variable h2o_socket_compare_address : sockaddr -> sockaddr -> Z.

Lemma on_read_decode_ok (sa : sockaddr) (decoded : list quicly_decoded_packet_t) :
  forall packets calls,
    (Datatypes.length packets < 64)%nat ->
    same_cid_as_first packets = true ->
    Forall call_ok calls ->
    let r := on_read_decode sa decoded packets calls in
    (Datatypes.length (fst r) < 64)%nat /\
    same_cid_as_first (fst r) = true /\
    Forall call_ok (snd r).
Proof.
  induction decoded as [|p decoded IH]; intros packets calls Hlen Hcid Hcalls.
  - cbn. auto.
  - cbn [on_read_decode].
    destruct (Z.eqb_spec (Z.of_nat (Datatypes.length packets)) (64 - 1)) as [Hfull|Hroom];
      cbn [orb].
    + apply IH; [cbn; lia|reflexivity|].
      apply Forall_app. split; [assumption|]. constructor; [|constructor].
      split; cbn [call_packets].
      * rewrite length_app. cbn. lia.
      * rewrite removelast_last. assumption.
    + destruct (Z.eqb_spec (Z.of_nat (Datatypes.length packets)) 0) as [Hz|Hnz];
        cbn [orb negb].
      * apply IH; [rewrite length_app; cbn; lia| |assumption].
        destruct packets; [reflexivity|cbn in Hz; lia].
      * destruct (h2o_memis (cid_dest_encrypted (nth 0 (packets ++ [p]) p))
                            (cid_dest_encrypted p)) eqn:Hsame; cbn [negb].
        -- apply IH; [rewrite length_app; cbn; lia| |assumption].
           apply same_cid_as_first_snoc; [assumption|].
           rewrite Hsame. apply orb_true_r.
        -- apply IH; [cbn; lia|reflexivity|].
           apply Forall_app. split; [assumption|]. constructor; [|constructor].
           split; cbn [call_packets].
           ++ rewrite length_app. cbn. lia.
           ++ rewrite removelast_last. assumption.
Qed.

Lemma on_read_dgrams_ok (dgrams : list dgram_t) :
  forall prev packets calls,
    (Datatypes.length packets < 64)%nat ->
    same_cid_as_first packets = true ->
    Forall call_ok calls ->
    let r := on_read_dgrams h2o_socket_compare_address prev dgrams packets calls in
    (Datatypes.length (snd (fst r)) < 64)%nat /\
    same_cid_as_first (snd (fst r)) = true /\
    Forall call_ok (snd r).
Proof.
  induction dgrams as [|d dgrams IH]; intros prev packets calls Hlen Hcid Hcalls.
  - cbn. auto.
  - cbn [on_read_dgrams].
    assert (Hflush : Forall call_ok (calls ++ [mk_call (msg_name d) packets]) /\
                     forall sa, Forall call_ok (calls ++ [mk_call sa packets])).
    { assert (Hone : forall sa, call_ok (mk_call sa packets)).
      { intros sa. split; cbn [call_packets]; [lia|].
        destruct packets as [|p0 ps] using rev_ind; [reflexivity|].
        rewrite removelast_last.
        destruct ps as [|q qs]; [reflexivity|].
        cbn [app same_cid_as_first] in Hcid |- *.
        rewrite forallb_app in Hcid. apply andb_true_iff in Hcid. tauto. }
      split; [|intros sa]; apply Forall_app; split; auto. }
    destruct Hflush as [_ Hflush].
    set (st := match prev with
               | Some pd =>
                   if negb (Z.of_nat (Datatypes.length packets) =? 0)
                      && negb (negb (h2o_socket_compare_address (msg_name pd) (msg_name d)
                                     =? 0))
                   then ([], calls ++ [mk_call (msg_name pd) packets])
                   else (packets, calls)
               | None => (packets, calls)
               end).
    assert (Hst : (Datatypes.length (fst st) < 64)%nat /\
                  same_cid_as_first (fst st) = true /\ Forall call_ok (snd st)).
    { subst st. destruct prev as [pd|]; [|auto].
      destruct (negb _ && negb _); cbn [fst snd]; [|auto].
      repeat split; [cbn; lia|apply Hflush]. }
    destruct st as [packets1 calls1]. cbn [fst snd] in Hst.
    destruct Hst as (H1 & H2 & H3).
    pose proof (on_read_decode_ok (msg_name d) (vec_packets d) packets1 calls1 H1 H2 H3)
      as Hdec.
    cbv zeta in Hdec.
    destruct (on_read_decode (msg_name d) (vec_packets d) packets1 calls1)
      as [packets2 calls2].
    cbn [fst snd] in Hdec. destruct Hdec as (H4 & H5 & H6).
    apply IH; assumption.
Qed.

(** X13. Every call that [on_read] makes gets at most 64 packets, and all of
    them except possibly the last carry one destination CID. *)
Lemma on_read_calls_ok (dgrams : list dgram_t) :
  Forall call_ok (on_read h2o_socket_compare_address dgrams).
Proof.
  unfold on_read.
  pose proof (on_read_dgrams_ok dgrams None [] [] ltac:(cbn; lia) eq_refl (Forall_nil _))
    as H.
  cbv zeta in H.
  destruct (on_read_dgrams h2o_socket_compare_address None dgrams [] [])
    as [[prev packets] calls].
  cbn [fst snd] in H. destruct H as (Hlen & Hcid & Hcalls).
  destruct prev as [pd|]; [|assumption].
  destruct (negb (Z.of_nat (Datatypes.length packets) =? 0)); [|assumption].
  apply Forall_app. split; [assumption|]. constructor; [|constructor].
  split; cbn [call_packets]; [lia|].
  destruct packets as [|p0 ps] using rev_ind; [reflexivity|].
  rewrite removelast_last.
  destruct ps as [|q qs]; [reflexivity|].
  cbn [app same_cid_as_first] in Hcid |- *.
  rewrite forallb_app in Hcid. apply andb_true_iff in Hcid. tauto.
Qed.

(** C6. One datagram carries two packets with different destination CIDs.
    The test that sees the change of CID runs after the second packet has
    been stored in the batch, and the flush passes [packet_index + 1]
    packets: [process_packets] is called once, with both packets. *)
Theorem on_read_mixes_cid_groups :
  let sa := [x0a; x00; x00; x01] in
  let p1 := mk_packet [x01] [xc0; x01] in
  let p2 := mk_packet [x02] [xc0; x02] in
  on_read h2o_socket_compare_address [mk_dgram sa [p1; p2]] = [mk_call sa [p1; p2]] /\
  one_cid_group (mk_call sa [p1; p2]) = false.
Proof.
  cbv zeta. split; reflexivity.
Qed.

(** With a comparison that returns 0 for equal addresses, as [memcmp] does,
    the test between datagrams flushes when the peer is the same and keeps
    the batch when the peer changes.  The spec's scenario 6: two datagrams
    of peer A with one packet each, then one of peer B. *)
Hypothesis compare_equal : forall a b, h2o_socket_compare_address a b = 0 <-> a = b.

Lemma on_read_scenario_6 :
  let A := [x0a; x00; x00; x01] in
  let B := [x0a; x00; x00; x02] in
  let a1 := mk_packet [x01] [x40; x01] in
  let a2 := mk_packet [x01] [x40; x02] in
  let b1 := mk_packet [x01] [x40; x03] in
  on_read h2o_socket_compare_address [mk_dgram A [a1]; mk_dgram A [a2]; mk_dgram B [b1]]
  = [mk_call A [a1]; mk_call B [a2; b1]].
Proof.
  cbv zeta. unfold on_read. cbn [on_read_dgrams on_read_decode msg_name vec_packets].
  cbn [Datatypes.length app Z.of_nat Z.eqb orb negb andb nth cid_dest_encrypted].
  assert (Heq : (h2o_socket_compare_address [x0a; x00; x00; x01] [x0a; x00; x00; x01]
                 =? 0) = true).
  { apply Z.eqb_eq. apply compare_equal. reflexivity. }
  assert (Hne : (h2o_socket_compare_address [x0a; x00; x00; x01] [x0a; x00; x00; x02]
                 =? 0) = false).
  { apply Z.eqb_neq. rewrite compare_equal. discriminate. }
  cbn. rewrite Heq. cbn. rewrite Hne. cbn. reflexivity.
Qed.

End PumpProperties.

(** * Further properties *)

(** * Further properties of the receive path *)

(** ** The frame reader *)

(** The frame reader once the length is decoded. *)
Lemma h2o_http3_read_frame_decoded (frame : h2o_http3_read_frame_t) (mem : memory)
    (_src src_end : Z) :
  ~ varint_truncated mem _src src_end ->
  let length := fst (quicly_decodev mem _src src_end) in
  let src := _src + varint_size mem _src in
  let f1 := set_frame_length frame length in
  let f2 := set_frame_header_size (set_frame_type f1 (load mem src))
                                  (to_uint8 (src + 1 - _src)) in
  0 <= length < 2 ^ 62 /\
  h2o_http3_read_frame frame mem _src src_end =
  if src =? src_end then (H2O_HTTP3_ERROR_INCOMPLETE, f1, _src)
  else if negb (load mem src =? H2O_HTTP3_FRAME_TYPE_DATA) then
    if MAX_FRAME_SIZE <=? length then
      (H2O_HTTP3_ERROR_MALFORMED_FRAME (load mem src), f2, _src)
    else if src_end - (src + 1) <? length then (H2O_HTTP3_ERROR_INCOMPLETE, f2, _src)
    else (RET_OK, set_frame_payload f2 (src + 1), src + 1 + length)
  else (RET_OK, f2, src + 1).
Proof.
  intros Hn. pose proof (quicly_decodev_complete mem _src src_end Hn) as [Hs Hv].
  cbv zeta. split; [exact Hv|]. unfold h2o_http3_read_frame.
  destruct (quicly_decodev mem _src src_end) as [len src] eqn:Hd.
  cbn [fst snd] in Hs, Hv |- *. subst src.
  assert (Hne : (len =? UINT64_MAX) = false).
  { apply Z.eqb_neq. unfold UINT64_MAX.
    assert (2 ^ 62 < 2 ^ 64 - 1) by (vm_compute; reflexivity). lia. }
  rewrite Hne. reflexivity.
Qed.

(** X1. A successful [h2o_http3_read_frame] always moves the cursor forward
    and never past the end of the input.  The header is 2 to 9 bytes long;
    for a type other than DATA the length is below 16384 and the payload lies
    between the header and the new cursor; for DATA the new cursor is just
    behind the header. *)
Theorem h2o_http3_read_frame_success_bounds (frame : h2o_http3_read_frame_t)
    (mem : memory) (_src src_end : Z) :
  rf_ret (h2o_http3_read_frame frame mem _src src_end) = RET_OK ->
  let r := h2o_http3_read_frame frame mem _src src_end in
  let f := rf_frame r in
  _src < rf_src r <= src_end /\
  2 <= frame_header_size f <= 9 /\
  0 <= frame_type f <= 255 /\
  0 <= frame_length f < 2 ^ 62 /\
  (frame_type f = H2O_HTTP3_FRAME_TYPE_DATA -> rf_src r = _src + frame_header_size f) /\
  (frame_type f <> H2O_HTTP3_FRAME_TYPE_DATA ->
   frame_length f < 16384 /\
   frame_payload f = _src + frame_header_size f /\
   rf_src r = frame_payload f + frame_length f).
Proof.
  intros Hok r f.
  destruct (Z.eq_dec _src src_end) as [Heq|Hne];
    [| destruct (Z_lt_dec (src_end - _src) (varint_size mem _src)) as [Hlt|Hge] ].
  - exfalso. subst r f. unfold h2o_http3_read_frame in Hok.
    rewrite quicly_decodev_truncated in Hok by (left; assumption).
    rewrite Z.eqb_refl in Hok. discriminate.
  - exfalso. subst r f. unfold h2o_http3_read_frame in Hok.
    rewrite quicly_decodev_truncated in Hok by (right; assumption).
    rewrite Z.eqb_refl in Hok. discriminate.
  - assert (Hn : ~ varint_truncated mem _src src_end) by (unfold varint_truncated; lia).
    pose proof (h2o_http3_read_frame_decoded frame mem _src src_end Hn) as Hrun.
    cbv zeta in Hrun. destruct Hrun as [Hlen Hrun].
    pose proof (varint_size_cases mem _src) as Hsz.
    pose proof (load_range mem (_src + varint_size mem _src)) as Hty.
    assert (Hhs : to_uint8 (_src + varint_size mem _src + 1 - _src) = varint_size mem _src + 1).
    { unfold to_uint8. replace (_src + varint_size mem _src + 1 - _src)
        with (varint_size mem _src + 1) by lia.
      apply Z.mod_small. change (2 ^ 8) with 256. lia. }
    subst f r. rewrite Hrun in Hok |- *.
    unfold MAX_FRAME_SIZE, H2O_HTTP3_FRAME_TYPE_DATA in *.
    repeat match type of Hok with
           | context [Z.eqb ?a ?b] => destruct (Z.eqb_spec a b)
           | context [Z.leb ?a ?b] => destruct (Z.leb_spec a b)
           | context [Z.ltb ?a ?b] => destruct (Z.ltb_spec a b)
           end; cbn in Hok; try discriminate;
      cbn; rewrite Hhs; repeat split; try lia.
Qed.

(** A DATA frame of five bytes whose payload has not arrived yet. *)
Lemma h2o_http3_read_frame_success_bounds_witness :
  rf_ret (h2o_http3_read_frame (mk_frame 0 0 0 0) [x05; x00] 0 2) = RET_OK /\
  0 < rf_src (h2o_http3_read_frame (mk_frame 0 0 0 0) [x05; x00] 0 2) <= 2.
Proof.
  split; [reflexivity|].
  pose proof (h2o_http3_read_frame_success_bounds (mk_frame 0 0 0 0) [x05; x00] 0 2 eq_refl)
    as H.
  cbv zeta in H. exact (proj1 H).
Defined.

(** The codes that the frame reader returns. *)
Lemma h2o_http3_read_frame_codes (frame : h2o_http3_read_frame_t) (mem : memory)
    (_src src_end : Z) :
  let r := h2o_http3_read_frame frame mem _src src_end in
  rf_ret r = RET_OK \/
  (rf_ret r = H2O_HTTP3_ERROR_INCOMPLETE /\ rf_src r = _src) \/
  (exists type, type <> H2O_HTTP3_FRAME_TYPE_DATA /\
                rf_ret r = H2O_HTTP3_ERROR_MALFORMED_FRAME type /\ rf_src r = _src).
Proof.
  cbv zeta. unfold h2o_http3_read_frame.
  destruct (quicly_decodev mem _src src_end) as [len src].
  destruct (len =? UINT64_MAX); [right; left; split; reflexivity|].
  destruct (src =? src_end); [right; left; split; reflexivity|].
  cbn [frame_type set_frame_type set_frame_header_size frame_length set_frame_length].
  destruct (Z.eqb_spec (load mem src) H2O_HTTP3_FRAME_TYPE_DATA) as [Hd|Hd]; cbn [negb].
  - left. reflexivity.
  - destruct (MAX_FRAME_SIZE <=? len).
    + right. right. exists (load mem src). repeat split. exact Hd.
    + destruct (src_end - (src + 1) <? len); [right; left; split; reflexivity|].
      left. reflexivity.
Qed.

(** ** The control stream, when the reader fails *)

Section ControlStreamWaits.

Variable handle_control_stream_frame :
  h2o_http3_conn_t -> Z -> memory -> Z -> Z -> retcode * h2o_http3_conn_t.

(** X2. When the frame reader does not deliver a frame,
    [control_stream_handle_input] calls nothing and leaves the connection,
    the stream and the cursor as they are.  It returns 0 if the frame is
    incomplete, so that the caller waits for more bytes, and otherwise the
    reader's MALFORMED_FRAME(type), whose type is never DATA. *)
Theorem control_stream_handle_input_no_frame (frame0 : h2o_http3_read_frame_t)
    (w : world) (mem : memory) (src src_end : Z) :
  rf_ret (h2o_http3_read_frame frame0 mem src src_end) <> RET_OK ->
  let rr := h2o_http3_read_frame frame0 mem src src_end in
  let r := control_stream_handle_input handle_control_stream_frame frame0 w mem src src_end in
  h_world r = w /\ h_src r = src /\
  ((rf_ret rr = H2O_HTTP3_ERROR_INCOMPLETE /\ h_ret r = RET_OK) \/
   (exists type, type <> H2O_HTTP3_FRAME_TYPE_DATA /\
                 rf_ret rr = H2O_HTTP3_ERROR_MALFORMED_FRAME type /\
                 h_ret r = H2O_HTTP3_ERROR_MALFORMED_FRAME type)).
Proof.
  intros Hfail rr r.
  pose proof (h2o_http3_read_frame_codes frame0 mem src src_end) as Hc.
  cbv zeta in Hc. fold rr in Hc, Hfail.
  subst r. unfold control_stream_handle_input. fold rr.
  destruct rr as [[ret frame] src'] eqn:Hrr. unfold rf_ret, rf_src in *. cbn [fst snd] in *.
  destruct Hc as [Hok | [[Hinc Hs] | (type & Hty & Hmal & Hs)]].
  - contradiction.
  - subst ret src'. cbn. repeat split. left. split; reflexivity.
  - subst ret src'. cbn. repeat split. right. exists type. repeat split; assumption.
Qed.

End ControlStreamWaits.

(** The first byte of a two-byte varint and nothing else: the handler waits. *)
Lemma control_stream_handle_input_no_frame_witness :
  rf_ret (h2o_http3_read_frame (mk_frame 0 0 0 0) [x40] 0 1) <> RET_OK /\
  h_world (control_stream_handle_input example_handle_control_stream_frame
             (mk_frame 0 0 0 0) (fresh_world false 1) [x40] 0 1) = fresh_world false 1 /\
  h_src (control_stream_handle_input example_handle_control_stream_frame
           (mk_frame 0 0 0 0) (fresh_world false 1) [x40] 0 1) = 0.
Proof.
  split; [vm_compute; discriminate|].
  pose proof (control_stream_handle_input_no_frame example_handle_control_stream_frame
                (mk_frame 0 0 0 0) (fresh_world false 1) [x40] 0 1
                ltac:(vm_compute; discriminate)) as H.
  cbv zeta in H. destruct H as (Hw & Hs & _).
  exact (conj Hw Hs).
Defined.

(** ** Input handlers and the stream record *)

Section HandlerInvariants.

Variable handle_control_stream_frame :
  h2o_http3_conn_t -> Z -> memory -> Z -> Z -> retcode * h2o_http3_conn_t.
Variable h2o_qpack_decoder_handle_input :
  option h2o_qpack_decoder_t -> memory -> Z -> Z -> retcode * option h2o_qpack_decoder_t * Z.
Variable h2o_qpack_encoder_handle_input :
  option h2o_qpack_encoder_t -> memory -> Z -> Z -> retcode * option h2o_qpack_encoder_t * Z.

Lemma control_stream_handle_input_stream (frame : h2o_http3_read_frame_t) (w : world)
    (mem : memory) (src src_end : Z) :
  w_stream (h_world (control_stream_handle_input handle_control_stream_frame
                       frame w mem src src_end)) = w_stream w.
Proof.
  unfold control_stream_handle_input.
  destruct (h2o_http3_read_frame frame mem src src_end) as [[ret f] src'].
  destruct (negb (retcode_eqb ret RET_OK)); [reflexivity|].
  destruct (Bool.eqb _ _ || _); [reflexivity|].
  destruct (handle_control_stream_frame _ _ _ _ _). reflexivity.
Qed.

(** What a QPACK feed loop hands back: the stream and the trace are as they
    were, and a return of 0 means that the whole input was taken. *)
Lemma qpack_encoder_stream_handle_input_result (fuel : nat) :
  forall (w : world) (mem : memory) (src src_end : Z) (r : handled),
    qpack_encoder_stream_handle_input h2o_qpack_decoder_handle_input fuel w mem src src_end
      = Some r ->
    w_stream (h_world r) = w_stream w /\ w_trace (h_world r) = w_trace w /\
    qpack_enc (w_conn (h_world r)) = qpack_enc (w_conn w) /\
    (h_ret r = RET_OK -> h_src r = src_end).
Proof.
  induction fuel as [|fuel IH]; intros w mem src src_end r Hr; [discriminate|].
  cbn [qpack_encoder_stream_handle_input] in Hr.
  destruct (Z.eqb_spec src src_end) as [Heq|Hne]; cbn [negb] in Hr.
  - injection Hr as <-. cbn. auto.
  - destruct (h2o_qpack_decoder_handle_input (qpack_dec (w_conn w)) mem src src_end)
      as [[ret dec] src'].
    destruct (retcode_eqb ret RET_OK) eqn:Hret; cbn [negb] in Hr.
    + apply IH in Hr. cbn in Hr. exact Hr.
    + injection Hr as <-. cbn. repeat split.
      intros ->. discriminate.
Qed.

Lemma qpack_decoder_stream_handle_input_result (fuel : nat) :
  forall (w : world) (mem : memory) (src src_end : Z) (r : handled),
    qpack_decoder_stream_handle_input h2o_qpack_encoder_handle_input fuel w mem src src_end
      = Some r ->
    w_stream (h_world r) = w_stream w /\ w_trace (h_world r) = w_trace w /\
    qpack_dec (w_conn (h_world r)) = qpack_dec (w_conn w) /\
    (h_ret r = RET_OK -> h_src r = src_end).
Proof.
  induction fuel as [|fuel IH]; intros w mem src src_end r Hr; [discriminate|].
  cbn [qpack_decoder_stream_handle_input] in Hr.
  destruct (Z.eqb_spec src src_end) as [Heq|Hne]; cbn [negb] in Hr.
  - injection Hr as <-. cbn. auto.
  - destruct (h2o_qpack_encoder_handle_input (qpack_enc (w_conn w)) mem src src_end)
      as [[ret enc] src'].
    destruct (retcode_eqb ret RET_OK) eqn:Hret; cbn [negb] in Hr.
    + apply IH in Hr. cbn in Hr. exact Hr.
    + injection Hr as <-. cbn. repeat split.
      intros ->. discriminate.
Qed.

Lemma call_typed_handle_input_stream (fuel : nat) (frame : h2o_http3_read_frame_t)
    (w : world) (mem : memory) (src src_end : Z) (r : handled) :
  call_typed_handle_input handle_control_stream_frame h2o_qpack_decoder_handle_input
    h2o_qpack_encoder_handle_input fuel frame w mem src src_end = Some r ->
  w_stream (h_world r) = w_stream w.
Proof.
  unfold call_typed_handle_input.
  destruct (handle_input (w_stream w)); intros Hr.
  - discriminate.
  - injection Hr as <-. apply control_stream_handle_input_stream.
  - apply qpack_encoder_stream_handle_input_result in Hr. tauto.
  - apply qpack_decoder_stream_handle_input_result in Hr. tauto.
  - injection Hr as <-. reflexivity.
Qed.

(** X3. The type of an ingress stream is decided by its first byte and never
    changes afterwards.  A call of the stream's input handler keeps the stream
    id, the receive state and the receive buffer; a stream whose handler is
    not the initial one is left exactly as it is; and a stream that still has
    the initial handler after the call was given no input, in which case
    nothing at all has changed and the call returned 0. *)
Theorem call_handle_input_stream_type (fuel : nat) (frame : h2o_http3_read_frame_t)
    (w : world) (mem : memory) (src src_end : Z) (r : handled) :
  call_handle_input handle_control_stream_frame h2o_qpack_decoder_handle_input
    h2o_qpack_encoder_handle_input fuel frame w mem src src_end = Some r ->
  stream_id (w_stream (h_world r)) = stream_id (w_stream w) /\
  recvstate (w_stream (h_world r)) = recvstate (w_stream w) /\
  recvbuf (w_stream (h_world r)) = recvbuf (w_stream w) /\
  (handle_input (w_stream w) <> HI_unknown_type -> w_stream (h_world r) = w_stream w) /\
  (handle_input (w_stream (h_world r)) = HI_unknown_type ->
   src = src_end /\ r = mk_handled RET_OK w src).
Proof.
  unfold call_handle_input. intros Hr.
  destruct (handle_input (w_stream w)) eqn:Hh.
  - unfold unknown_type_handle_input in Hr.
    destruct (Z.eqb_spec src src_end) as [Heq|Hne].
    + injection Hr as <-. cbn. repeat split; auto; contradiction.
    + apply call_typed_handle_input_stream in Hr. rewrite Hr.
      repeat match goal with
             | |- context [if ?c then _ else _] => destruct c
             end; cbn; repeat split; try congruence; discriminate.
  - apply call_typed_handle_input_stream in Hr. rewrite Hr, Hh.
    repeat split; auto; discriminate.
  - apply call_typed_handle_input_stream in Hr. rewrite Hr, Hh.
    repeat split; auto; discriminate.
  - apply call_typed_handle_input_stream in Hr. rewrite Hr, Hh.
    repeat split; auto; discriminate.
  - apply call_typed_handle_input_stream in Hr. rewrite Hr, Hh.
    repeat split; auto; discriminate.
Qed.

(** X4. A stream whose first byte is none of 'C', 'H' and 'h': the transport
    is asked once to stop the sender, the connection is not touched, the call
    returns 0 with all input taken; and from then on every call on that stream
    takes all its input, returns 0 and changes nothing. *)
Theorem unknown_stream_type_is_discarded (fuel : nat) (frame : h2o_http3_read_frame_t)
    (w : world) (mem : memory) (src src_end : Z) :
  handle_input (w_stream w) = HI_unknown_type ->
  src <> src_end ->
  load mem src <> 67 -> load mem src <> 72 -> load mem src <> 104 ->
  let w' := mk_world (w_conn w) (set_handle_input (w_stream w) HI_unknown_stream_type)
              (w_trace w ++ [Call_quicly_request_stop (stream_id (w_stream w))]) in
  call_handle_input handle_control_stream_frame h2o_qpack_decoder_handle_input
    h2o_qpack_encoder_handle_input fuel frame w mem src src_end
  = Some (mk_handled RET_OK w' src_end) /\
  forall fuel2 frame2 mem2 src2 src_end2,
    call_handle_input handle_control_stream_frame h2o_qpack_decoder_handle_input
      h2o_qpack_encoder_handle_input fuel2 frame2 w' mem2 src2 src_end2
    = Some (mk_handled RET_OK w' src_end2).
Proof.
  intros Hh Hne H67 H72 H104 w'. split.
  - unfold call_handle_input. rewrite Hh. unfold unknown_type_handle_input.
    destruct (Z.eqb_spec src src_end); [contradiction|].
    destruct (Z.eqb_spec (load mem src) 67); [contradiction|].
    destruct (Z.eqb_spec (load mem src) 72); [contradiction|].
    destruct (Z.eqb_spec (load mem src) 104); [contradiction|].
    reflexivity.
  - intros. reflexivity.
Qed.

(** X5. The QPACK encoder-stream handler feeds the decoder until the input is
    used up or the decoder fails.  Whenever it returns, the stream, the
    encoder and the trace of calls are untouched, and a return of 0 means that
    the cursor is at the end of the input.  If each call of the decoder that
    returns 0 moves the cursor forward without passing the end, the loop ends
    after at most as many turns as there are bytes. *)
Theorem qpack_encoder_stream_handle_input_consumes (fuel : nat) (w : world)
    (mem : memory) (src src_end : Z) :
  (forall dec s, src <= s < src_end ->
     let '(ret, _, s') := h2o_qpack_decoder_handle_input dec mem s src_end in
     ret = RET_OK -> s < s' <= src_end) ->
  src <= src_end ->
  src_end - src < Z.of_nat fuel ->
  exists r,
    qpack_encoder_stream_handle_input h2o_qpack_decoder_handle_input fuel w mem src src_end
      = Some r /\
    w_stream (h_world r) = w_stream w /\ w_trace (h_world r) = w_trace w /\
    qpack_enc (w_conn (h_world r)) = qpack_enc (w_conn w) /\
    (h_ret r = RET_OK -> h_src r = src_end).
Proof.
  intros Hprog Hle Hfuel.
  assert (Hsome : exists r,
    qpack_encoder_stream_handle_input h2o_qpack_decoder_handle_input fuel w mem src src_end
      = Some r).
  { revert w src Hprog Hle Hfuel.
    induction fuel as [|fuel IH]; intros w src Hprog Hle Hfuel; [lia|].
    cbn [qpack_encoder_stream_handle_input].
    destruct (Z.eqb_spec src src_end) as [Heq|Hne]; cbn [negb]; [eexists; reflexivity|].
    pose proof (Hprog (qpack_dec (w_conn w)) src ltac:(lia)) as Hstep.
    destruct (h2o_qpack_decoder_handle_input (qpack_dec (w_conn w)) mem src src_end)
      as [[ret dec] src'].
    destruct ret; cbn [retcode_eqb negb]; try (eexists; reflexivity).
    specialize (Hstep eq_refl).
    apply IH; [|lia|lia].
    intros dec0 s Hs. apply Hprog. lia. }
  destruct Hsome as [r Hr]. exists r. split; [exact Hr|].
  apply qpack_encoder_stream_handle_input_result in Hr. exact Hr.
Qed.

End HandlerInvariants.

(** ** Receiving on a control stream *)

Lemma h2o_http3_read_frame_cursor (frame : h2o_http3_read_frame_t) (mem : memory)
    (_src src_end : Z) :
  rf_ret (h2o_http3_read_frame frame mem _src src_end) = RET_OK ->
  _src < rf_src (h2o_http3_read_frame frame mem _src src_end) <= src_end.
Proof.
  intros Hok.
  destruct (Z.eq_dec _src src_end) as [Heq|Hne];
    [| destruct (Z_lt_dec (src_end - _src) (varint_size mem _src)) as [Hlt|Hge] ].
  - exfalso. unfold h2o_http3_read_frame in Hok.
    rewrite quicly_decodev_truncated in Hok by (left; assumption).
    rewrite Z.eqb_refl in Hok. discriminate.
  - exfalso. unfold h2o_http3_read_frame in Hok.
    rewrite quicly_decodev_truncated in Hok by (right; assumption).
    rewrite Z.eqb_refl in Hok. discriminate.
  - assert (Hn : ~ varint_truncated mem _src src_end) by (unfold varint_truncated; lia).
    pose proof (h2o_http3_read_frame_decoded frame mem _src src_end Hn) as Hrun.
    cbv zeta in Hrun. destruct Hrun as [Hlen Hrun].
    pose proof (varint_size_cases mem _src) as Hsz.
    rewrite Hrun in Hok |- *. unfold MAX_FRAME_SIZE in *.
    repeat match type of Hok with
           | context [Z.eqb ?a ?b] => destruct (Z.eqb_spec a b)
           | context [Z.leb ?a ?b] => destruct (Z.leb_spec a b)
           | context [Z.ltb ?a ?b] => destruct (Z.ltb_spec a b)
           end; cbn in Hok; try discriminate; cbn; lia.
Qed.

Section ControlStreamReceive.

Variable handle_control_stream_frame :
  h2o_http3_conn_t -> Z -> memory -> Z -> Z -> retcode * h2o_http3_conn_t.
Variable h2o_qpack_decoder_handle_input :
  option h2o_qpack_decoder_t -> memory -> Z -> Z -> retcode * option h2o_qpack_decoder_t * Z.
Variable h2o_qpack_encoder_handle_input :
  option h2o_qpack_encoder_t -> memory -> Z -> Z -> retcode * option h2o_qpack_encoder_t * Z.
Variable h2o_buffer_reserve : h2o_buffer_t -> Z -> h2o_buffer_t.

(** The cursor of the control-frame handler stays within the input, and a
    cursor that has not moved means that nothing was done. *)
Lemma control_stream_handle_input_cursor (frame0 : h2o_http3_read_frame_t) (w : world)
    (mem : memory) (src src_end : Z) :
  let r := control_stream_handle_input handle_control_stream_frame frame0 w mem src src_end in
  (h_src r = src /\ h_world r = w) \/ (src < h_src r <= src_end).
Proof.
  cbv zeta.
  pose proof (h2o_http3_read_frame_codes frame0 mem src src_end) as Hc.
  pose proof (h2o_http3_read_frame_cursor frame0 mem src src_end) as Hb.
  cbv zeta in Hc. unfold control_stream_handle_input.
  destruct (h2o_http3_read_frame frame0 mem src src_end) as [[ret frame] src'].
  unfold rf_ret, rf_src in *. cbn [fst snd] in *.
  destruct Hc as [Hok | [[Hinc Hs] | (type & Hty & Hmal & Hs)]].
  - subst ret. specialize (Hb eq_refl). cbn [retcode_eqb negb]. right.
    destruct (Bool.eqb _ _ || _); [exact Hb|].
    destruct (handle_control_stream_frame _ _ _ _ _). exact Hb.
  - subst ret src'. left. split; reflexivity.
  - subst ret src'. left. split; reflexivity.
Qed.

(** X6. Bytes arriving on a control stream whose transfer is not complete and
    whose buffer took them: the call returns, it removes from the receive
    buffer exactly the bytes that it reports to the flow controller as
    consumed, never more than were available, and if it consumed nothing then
    it called nothing and the connection is as before. *)
Theorem ingress_unistream_on_receive_control_accounting (fuel : nat)
    (frame : h2o_http3_read_frame_t) (w : world) (off : Z) (input : list byte)
    (len : Z) (saved : h2o_buffer_t) :
  handle_input (w_stream w) = HI_control_stream ->
  transfer_complete (recvstate (w_stream w)) = false ->
  0 <= bytes_available (recvstate (w_stream w)) ->
  h2o_http3_update_recvbuf h2o_buffer_reserve (recvbuf (w_stream w)) off input len
    = (RET_OK, saved) ->
  exists ret w',
    ingress_unistream_on_receive handle_control_stream_frame
      h2o_qpack_decoder_handle_input h2o_qpack_encoder_handle_input h2o_buffer_reserve
      fuel frame w off input len = Some (ret, w') /\
    let consumed :=
      bytes_available (recvstate (w_stream w)) - bytes_available (recvstate (w_stream w')) in
    0 <= consumed <= bytes_available (recvstate (w_stream w)) /\
    recvbuf (w_stream w') =
      (if consumed =? 0 then saved else h2o_buffer_consume saved consumed) /\
    handle_input (w_stream w') = HI_control_stream /\
    (consumed = 0 -> w_conn w' = w_conn w /\ w_trace w' = w_trace w).
Proof.
  intros Hh Hfin Hav Hsave. unfold ingress_unistream_on_receive.
  rewrite Hsave. cbn [retcode_eqb negb w_stream set_recvbuf recvstate w_conn w_trace].
  rewrite Hfin. cbn [Z.add].
  destruct (Z.eqb_spec 0 (bytes_available (recvstate (w_stream w)))) as [Hz|Hnz].
  - eexists. eexists. split; [reflexivity|].
    cbn [w_stream set_recvbuf recvstate recvbuf handle_input w_conn w_trace].
    rewrite Z.sub_diag. cbn. repeat split; auto; lia.
  - unfold call_handle_input, call_typed_handle_input.
    cbn [w_stream set_recvbuf handle_input]. rewrite Hh.
    set (w1 := mk_world (w_conn w) (set_recvbuf (w_stream w) saved) (w_trace w)).
    pose proof (control_stream_handle_input_cursor frame w1 (bytes saved) 0
                  (bytes_available (recvstate (w_stream w)))) as Hcur.
    pose proof (control_stream_handle_input_stream handle_control_stream_frame frame w1
                  (bytes saved) 0 (bytes_available (recvstate (w_stream w)))) as Hst.
    cbv zeta in Hcur.
    cbn [recvbuf set_recvbuf].
    destruct (control_stream_handle_input handle_control_stream_frame frame w1
                (bytes saved) 0 (bytes_available (recvstate (w_stream w)))) as [ret wr srcr].
    cbn [h_src h_world h_ret] in *. rewrite Z.sub_0_r.
    destruct (Z.eqb_spec srcr 0) as [Hzero|Hmoved]; cbn [negb].
    + eexists. eexists. split; [reflexivity|].
      destruct Hcur as [[_ Hw]|Hlt]; [|lia]. subst wr. subst w1.
      cbn [w_stream set_recvbuf recvstate recvbuf handle_input w_conn w_trace].
      rewrite Z.sub_diag. cbn. repeat split; auto; lia.
    + eexists. eexists. split; [reflexivity|].
      destruct Hcur as [[Hs _]|Hlt]; [contradiction|].
      rewrite Hst. subst w1.
      cbn [w_stream set_recvbuf recvstate recvbuf handle_input w_conn w_trace
           quicly_stream_sync_recvbuf set_recvstate bytes_available].
      replace (bytes_available (recvstate (w_stream w))
               - (bytes_available (recvstate (w_stream w)) - srcr)) with srcr by lia.
      destruct (Z.eqb_spec srcr 0); [contradiction|].
      repeat split; auto; lia.
Qed.

(** X7. SETTINGS is accepted at most once.  After
    [h2o_http3_handle_settings_frame] has returned 0 for a connection, the
    control-frame handler rejects every further SETTINGS frame on that
    connection with MALFORMED_FRAME(SETTINGS), whatever the callback is, and
    does not call it. *)
Theorem settings_frame_accepted_once (conn conn' : h2o_http3_conn_t) (tr tr' : trace)
    (payload_mem : memory) (payload length : Z)
    (frame0 frame : h2o_http3_read_frame_t)
    (s : st_h2o_http3_ingress_unistream_t) (t : trace)
    (mem : memory) (src src_end src' : Z) :
  h2o_http3_handle_settings_frame conn tr payload_mem payload length
    = Returns (RET_OK, conn', tr') ->
  h2o_http3_read_frame frame0 mem src src_end = (RET_OK, frame, src') ->
  frame_type frame = H2O_HTTP3_FRAME_TYPE_SETTINGS ->
  control_stream_handle_input handle_control_stream_frame frame0 (mk_world conn' s t)
    mem src src_end
  = mk_handled (H2O_HTTP3_ERROR_MALFORMED_FRAME H2O_HTTP3_FRAME_TYPE_SETTINGS)
               (mk_world conn' s t) src'.
Proof.
  intros Hset Hrf Hty.
  assert (Hrecv : h2o_http3_has_received_settings conn' = true).
  { unfold h2o_http3_handle_settings_frame in Hset.
    destruct (h2o_http3_has_received_settings conn); [discriminate|].
    destruct (settings_loop _ _ _ _ _) as [[hts|]|]; try discriminate.
    injection Hset as <- _. reflexivity. }
  rewrite (control_stream_handle_input_frame handle_control_stream_frame
             frame0 (mk_world conn' s t) mem src src_end frame src' Hrf).
  unfold malformed_on_control_stream. cbn [w_conn].
  rewrite Hrecv, Hty. reflexivity.
Qed.

End ControlStreamReceive.

(** ** Copying *)

Lemma memcpy_length (dst : memory) (off : Z) (src : list byte) (len : Z) :
  Datatypes.length (memcpy dst off src len) = Datatypes.length dst.
Proof. apply memcpy_from_length. Qed.

(** A copy that fits writes the source bytes between the bytes before and the
    bytes behind. *)
Lemma memcpy_splice (dst : memory) (off : Z) (src : list byte) (len : Z) :
  0 <= off -> 0 <= len ->
  off + len <= Z.of_nat (Datatypes.length dst) ->
  len <= Z.of_nat (Datatypes.length src) ->
  memcpy dst off src len =
  firstn (Z.to_nat off) dst ++ firstn (Z.to_nat len) src ++ skipn (Z.to_nat (off + len)) dst.
Proof.
  intros Hoff Hlen Hdst Hsrc.
  apply nth_ext with (d := x00) (d' := x00).
  - rewrite memcpy_length, !length_app, !length_firstn, length_skipn. lia.
  - intros k Hk. rewrite memcpy_length in Hk. unfold memcpy.
    rewrite memcpy_from_nth by exact Hk. cbn [Z.add].
    destruct (Z.leb_spec off (Z.of_nat k)) as [Hge|Hlt]; cbn [andb].
    + destruct (Z.ltb_spec (Z.of_nat k) (off + len)) as [Hin|Hout].
      * rewrite app_nth2 by (rewrite length_firstn; lia).
        rewrite length_firstn.
        replace (Nat.min (Z.to_nat off) (Datatypes.length dst)) with (Z.to_nat off) by lia.
        rewrite app_nth1 by (rewrite length_firstn; lia).
        rewrite nth_firstn.
        replace (Z.to_nat (Z.of_nat k - off)) with (k - Z.to_nat off)%nat by lia.
        destruct (Nat.ltb_spec (k - Z.to_nat off) (Z.to_nat len)); [|lia].
        apply nth_indep. lia.
      * rewrite app_nth2 by (rewrite length_firstn; lia).
        rewrite length_firstn.
        replace (Nat.min (Z.to_nat off) (Datatypes.length dst)) with (Z.to_nat off) by lia.
        rewrite app_nth2 by (rewrite length_firstn; lia).
        rewrite length_firstn.
        replace (Nat.min (Z.to_nat len) (Datatypes.length src)) with (Z.to_nat len) by lia.
        rewrite nth_skipn. f_equal. lia.
    + rewrite app_nth1 by (rewrite length_firstn; lia).
      rewrite nth_firstn.
      destruct (Nat.ltb_spec k (Z.to_nat off)); [reflexivity|lia].
Qed.

(** ** Egress streams *)

(** X9. Asked for bytes from offset 0, [egress_unistream_on_send_emit] hands
    over the first [min(len, size)] bytes of the send buffer and leaves the
    rest of the destination alone. *)
Theorem egress_unistream_on_send_emit_from_start (stream : st_h2o_http3_egress_unistream_t)
    (dst : memory) (len : Z) :
  0 <= len <= Z.of_nat (Datatypes.length dst) ->
  0 <= size (sendbuf stream) <= Z.of_nat (Datatypes.length (bytes (sendbuf stream))) ->
  size (sendbuf stream) < 2 ^ 64 ->
  let r := egress_unistream_on_send_emit stream 0 dst len in
  emit_ret r = RET_OK /\
  emit_len r = Z.min len (size (sendbuf stream)) /\
  emit_dst r = slice (bytes (sendbuf stream)) 0 (emit_len r)
               ++ skipn (Z.to_nat (emit_len r)) dst.
Proof.
  intros Hlen Hsz Hmax. unfold egress_unistream_on_send_emit, wrap64.
  rewrite Z.sub_0_r, Z.mod_small by lia.
  destruct (Z.leb_spec (size (sendbuf stream)) len) as [Hle|Hgt];
    cbn [emit_ret emit_len emit_dst]; (split; [reflexivity|]); (split; [lia|]);
    rewrite memcpy_splice by lia; reflexivity.
Qed.

(** ** The receive buffer *)

Section RecvbufStores.

Variable h2o_buffer_reserve : h2o_buffer_t -> Z -> h2o_buffer_t.

Lemma h2o_http3_update_recvbuf_base (buf : h2o_buffer_t) (off : Z) (src : list byte)
    (len : Z) :
  fst (h2o_http3_update_recvbuf h2o_buffer_reserve buf off src len) = RET_OK ->
  buffer_wf buf ->
  buffer_wf (h2o_buffer_reserve buf (wrap64 (off + len))) ->
  exists base,
    (base = buf \/ base = h2o_buffer_reserve buf (wrap64 (off + len))) /\
    buffer_wf base /\ wrap64 (off + len) <= capacity base /\
    snd (h2o_http3_update_recvbuf h2o_buffer_reserve buf off src len) =
    mk_buffer (capacity base) (wrap64 (off + len)) (memcpy (bytes base) off src len).
Proof.
  unfold h2o_http3_update_recvbuf. intros Hok Hwf Hwfr.
  destruct (Z.ltb_spec (size buf) (wrap64 (off + len))) as [Hgrow|Hfits].
  - destruct (Z.ltb_spec (capacity (h2o_buffer_reserve buf (wrap64 (off + len))))
                         (wrap64 (off + len))) as [Hcap|Hcap];
      cbn in Hok; [discriminate|].
    exists (h2o_buffer_reserve buf (wrap64 (off + len))).
    repeat split; auto; apply Hwfr.
  - exists buf. destruct Hwf as [Hl Hs]. repeat split; auto; lia.
Qed.

(** X10. A successful [h2o_http3_update_recvbuf] on a well-formed buffer puts
    the [len] source bytes at offset [off], sets [size] to [off + len], keeps
    every other byte of the allocation it wrote into, and leaves the buffer
    well formed. *)
Theorem h2o_http3_update_recvbuf_stores (buf : h2o_buffer_t) (off : Z)
    (src : list byte) (len : Z) :
  fst (h2o_http3_update_recvbuf h2o_buffer_reserve buf off src len) = RET_OK ->
  buffer_wf buf ->
  buffer_wf (h2o_buffer_reserve buf (wrap64 (off + len))) ->
  0 <= off -> Z.of_nat (Datatypes.length src) = len -> off + len < 2 ^ 64 ->
  let buf' := snd (h2o_http3_update_recvbuf h2o_buffer_reserve buf off src len) in
  exists base,
    (base = buf \/ base = h2o_buffer_reserve buf (wrap64 (off + len))) /\
    buffer_wf buf' /\
    size buf' = off + len /\
    slice (bytes buf') off len = src /\
    slice (bytes buf') 0 off = slice (bytes base) 0 off /\
    skipn (Z.to_nat (off + len)) (bytes buf') = skipn (Z.to_nat (off + len)) (bytes base).
Proof.
  intros Hok Hwf Hwfr Hoff Hlen Hmax buf'.
  destruct (h2o_http3_update_recvbuf_base buf off src len Hok Hwf Hwfr)
    as (base & Hbase & [Hbl Hbs] & Hcap & Hsnd).
  subst buf'. rewrite Hsnd. exists base.
  assert (Hw : wrap64 (off + len) = off + len).
  { unfold wrap64. apply Z.mod_small. lia. }
  rewrite Hw in *. cbn [bytes size capacity].
  rewrite memcpy_splice by lia.
  replace (Z.to_nat len) with (Datatypes.length src) by lia. rewrite firstn_all.
  assert (Hf : Datatypes.length (firstn (Z.to_nat off) (bytes base)) = Z.to_nat off).
  { rewrite length_firstn. lia. }
  split; [exact Hbase|]. split.
  { split; cbn [bytes size capacity]; [|lia].
    rewrite !length_app, Hf, length_skipn. lia. }
  split; [reflexivity|]. unfold slice. cbn [Z.to_nat skipn].
  split; [|split].
  - rewrite skipn_app, Hf, Nat.sub_diag. cbn [skipn].
    rewrite skipn_all2 by lia. cbn [app].
    replace (Z.to_nat len) with (Datatypes.length src) by lia.
    rewrite firstn_app. rewrite firstn_all. rewrite Nat.sub_diag. cbn [firstn].
    apply app_nil_r.
  - rewrite firstn_app, Hf, Nat.sub_diag. cbn [firstn]. rewrite app_nil_r.
    rewrite firstn_firstn. f_equal. lia.
  - rewrite app_assoc. rewrite skipn_app.
    rewrite skipn_all2 by (rewrite length_app, Hf; lia).
    rewrite length_app, Hf. cbn [app].
    replace (Z.to_nat (off + len) - (Z.to_nat off + Datatypes.length src))%nat
      with 0%nat by lia.
    reflexivity.
Qed.

(** X11. Bytes that arrive in order are appended: a successful write at
    offset [size] makes the contents of the buffer the old contents followed
    by the new bytes, provided that reserving keeps the contents. *)
Theorem h2o_http3_update_recvbuf_in_order (buf : h2o_buffer_t) (src : list byte)
    (len : Z) :
  fst (h2o_http3_update_recvbuf h2o_buffer_reserve buf (size buf) src len) = RET_OK ->
  buffer_wf buf ->
  buffer_wf (h2o_buffer_reserve buf (wrap64 (size buf + len))) ->
  contents (h2o_buffer_reserve buf (wrap64 (size buf + len))) = contents buf ->
  size (h2o_buffer_reserve buf (wrap64 (size buf + len))) = size buf ->
  Z.of_nat (Datatypes.length src) = len -> size buf + len < 2 ^ 64 ->
  contents (snd (h2o_http3_update_recvbuf h2o_buffer_reserve buf (size buf) src len))
  = contents buf ++ src.
Proof.
  intros Hok Hwf Hwfr Hcont Hsize Hlen Hmax.
  destruct (h2o_http3_update_recvbuf_base buf (size buf) src len Hok Hwf Hwfr)
    as (base & Hbase & [Hbl Hbs] & Hcap & Hsnd).
  rewrite Hsnd.
  assert (Hw : wrap64 (size buf + len) = size buf + len).
  { unfold wrap64. apply Z.mod_small. destruct Hwf. lia. }
  rewrite Hw in *.
  assert (Hcb : contents base = contents buf /\ size base = size buf).
  { destruct Hbase as [->| ->]; auto. }
  destruct Hcb as [Hcb Hsb]. destruct Hwf as [Hl Hs].
  unfold contents, slice in *. cbn [bytes size Z.to_nat skipn] in *.
  rewrite memcpy_splice by lia.
  replace (Z.to_nat len) with (Datatypes.length src) by lia. rewrite firstn_all.
  rewrite app_assoc. rewrite firstn_app.
  rewrite firstn_all2 by (rewrite length_app, length_firstn; lia).
  rewrite length_app, length_firstn.
  replace (Z.to_nat (size buf + len)
           - (Nat.min (Z.to_nat (size buf)) (Datatypes.length (bytes base))
              + Datatypes.length src))%nat with 0%nat by lia.
  cbn [firstn]. rewrite app_nil_r. rewrite <- Hsb at 1. rewrite Hcb. reflexivity.
Qed.

End RecvbufStores.

(** ** The datagram pump: nothing is lost *)

Section PumpDelivery.

Variable h2o_socket_compare_address : sockaddr -> sockaddr -> Z.

Lemma on_read_decode_delivers (sa : sockaddr) (decoded : list quicly_decoded_packet_t) :
  forall packets calls,
    Forall call_nonempty calls ->
    let r := on_read_decode sa decoded packets calls in
    flat_map call_packets (snd r) ++ fst r
      = flat_map call_packets calls ++ packets ++ decoded /\
    Forall call_nonempty (snd r).
Proof.
  induction decoded as [|p decoded IH]; intros packets calls Hne.
  - cbn. rewrite app_nil_r. auto.
  - cbn [on_read_decode].
    assert (Hflush :
      flat_map call_packets (calls ++ [mk_call sa (packets ++ [p])]) ++ [] ++ decoded
      = flat_map call_packets calls ++ packets ++ p :: decoded /\
      Forall call_nonempty (calls ++ [mk_call sa (packets ++ [p])])).
    { split.
      - rewrite flat_map_app. cbn. rewrite app_nil_r, <- !app_assoc. reflexivity.
      - apply Forall_app. split; [assumption|]. constructor; [|constructor].
        unfold call_nonempty. cbn. destruct packets; discriminate. }
    destruct Hflush as [Hf1 Hf2].
    destruct ((Z.of_nat (Datatypes.length packets) =? 64 - 1)
              || negb ((Z.of_nat (Datatypes.length packets) =? 0)
                       || h2o_memis (cid_dest_encrypted (nth 0 (packets ++ [p]) p))
                                    (cid_dest_encrypted p))).
    + destruct (IH [] _ Hf2) as [H1 H2]. split; [|exact H2].
      rewrite H1. exact Hf1.
    + destruct (IH (packets ++ [p]) calls Hne) as [H1 H2]. split; [|exact H2].
      rewrite H1. rewrite <- !app_assoc. reflexivity.
Qed.

Lemma on_read_dgrams_delivers (dgrams : list dgram_t) :
  forall prev packets calls,
    Forall call_nonempty calls ->
    let r := on_read_dgrams h2o_socket_compare_address prev dgrams packets calls in
    flat_map call_packets (snd r) ++ snd (fst r)
      = flat_map call_packets calls ++ packets ++ flat_map vec_packets dgrams /\
    Forall call_nonempty (snd r) /\
    (dgrams <> [] -> fst (fst r) <> None).
Proof.
  induction dgrams as [|d dgrams IH]; intros prev packets calls Hne.
  - cbn. rewrite app_nil_r. repeat split; auto; contradiction.
  - cbn [on_read_dgrams].
    set (st := match prev with
               | Some pd =>
                   if negb (Z.of_nat (Datatypes.length packets) =? 0)
                      && negb (negb (h2o_socket_compare_address (msg_name pd) (msg_name d)
                                     =? 0))
                   then ([], calls ++ [mk_call (msg_name pd) packets])
                   else (packets, calls)
               | None => (packets, calls)
               end).
    assert (Hst : flat_map call_packets (snd st) ++ fst st
                  = flat_map call_packets calls ++ packets /\
                  Forall call_nonempty (snd st)).
    { subst st. destruct prev as [pd|]; [|auto].
      destruct (Z.eqb_spec (Z.of_nat (Datatypes.length packets)) 0) as [Hz|Hnz];
        cbn [negb andb]; [auto|].
      destruct (negb (negb _)); cbn [fst snd]; [|auto].
      split.
      - rewrite flat_map_app. cbn. rewrite !app_nil_r. reflexivity.
      - apply Forall_app. split; [assumption|]. constructor; [|constructor].
        unfold call_nonempty. cbn. destruct packets; [cbn in Hnz; lia|discriminate]. }
    destruct st as [packets1 calls1]. cbn [fst snd] in Hst. destruct Hst as [Hs1 Hs2].
    pose proof (on_read_decode_delivers (msg_name d) (vec_packets d) packets1 calls1 Hs2)
      as Hdec.
    cbv zeta in Hdec.
    destruct (on_read_decode (msg_name d) (vec_packets d) packets1 calls1)
      as [packets2 calls2].
    cbn [fst snd] in Hdec. destruct Hdec as [Hd1 Hd2].
    destruct (IH (Some d) packets2 calls2 Hd2) as (H1 & H2 & H3).
    split; [|split].
    + rewrite H1. rewrite app_assoc, Hd1. cbn [flat_map].
      rewrite app_assoc, Hs1. rewrite <- !app_assoc. reflexivity.
    + exact H2.
    + intros _. destruct dgrams as [|d2 dgrams]; [cbn; discriminate|].
      apply H3. discriminate.
Qed.

(** X12. Whatever the datagrams and their addresses are, the calls of
    [process_packets] that [on_read] makes carry every decoded packet exactly
    once and in the order of arrival, and no call is made without a packet. *)
Theorem on_read_delivers_every_packet (dgrams : list dgram_t) :
  flat_map call_packets (on_read h2o_socket_compare_address dgrams)
    = flat_map vec_packets dgrams /\
  Forall call_nonempty (on_read h2o_socket_compare_address dgrams).
Proof.
  destruct dgrams as [|d0 dgrams0]; [split; [reflexivity|constructor]|].
  set (dgrams := d0 :: dgrams0). unfold on_read.
  pose proof (on_read_dgrams_delivers dgrams None [] [] (Forall_nil _)) as H.
  cbv zeta in H.
  destruct (on_read_dgrams h2o_socket_compare_address None dgrams [] [])
    as [[prev packets] calls].
  cbn [fst snd flat_map app] in H. destruct H as (Hall & Hne & Hprev).
  destruct prev as [pd|]; [|exfalso; apply Hprev; [discriminate|reflexivity]].
  destruct (Z.eqb_spec (Z.of_nat (Datatypes.length packets)) 0) as [Hz|Hnz]; cbn [negb].
  - destruct packets; [|cbn in Hz; lia]. rewrite app_nil_r in Hall. auto.
  - split.
    + rewrite flat_map_app. cbn. rewrite app_nil_r. exact Hall.
    + apply Forall_app. split; [assumption|]. constructor; [|constructor].
      unfold call_nonempty. cbn. destruct packets; [cbn in Hnz; lia|discriminate].
Qed.

End PumpDelivery.

(** ** The timer *)

(** X14. Without libuv, for a deadline and a clock that fit 63 bits: after
    [h2o_http3_schedule_timer] the timer is linked, and it expires at the
    transport's deadline, or now if the deadline has passed and the timer had
    to be armed.  A timer that is already armed for exactly the deadline is
    left alone, without a call to the timer wheel; in every other case an
    armed timer is unlinked once and the timer is linked once. *)
Theorem h2o_http3_schedule_timer_deadline (timeout now : Z) (t : h2o_timer_t)
    (tr : list pump_event) :
  0 <= timeout < 2 ^ 63 -> 0 <= now < 2 ^ 63 ->
  let r := h2o_http3_schedule_timer false timeout now t tr in
  timer_linked (fst r) = true /\
  ((timer_linked t = true /\ expire_at t = timeout /\ r = (t, tr)) \/
   ((timer_linked t = false \/ expire_at t <> timeout) /\
    expire_at (fst r) = Z.max timeout now /\
    snd r = tr ++ (if timer_linked t then [Call_h2o_timer_unlink] else [])
               ++ [Call_h2o_timer_link (Z.max timeout now - now)])).
Proof.
  intros Ht Hn. unfold h2o_http3_schedule_timer.
  assert (Hw : wrap64 timeout = timeout).
  { unfold wrap64. apply Z.mod_small. lia. }
  rewrite Hw. cbn [negb andb].
  assert (Hre : forall t0,
    expire_at (h2o_timer_link now
                 (if now <? timeout then wrap64 (timeout - now) else 0) t0)
      = Z.max timeout now /\
    (if now <? timeout then wrap64 (timeout - now) else 0) = Z.max timeout now - now).
  { intros t0. unfold h2o_timer_link. cbn [expire_at].
    destruct (Z.ltb_spec now timeout) as [Hlt|Hge].
    - assert (Hd : wrap64 (timeout - now) = timeout - now).
      { unfold wrap64. apply Z.mod_small. lia. }
      rewrite Hd. unfold wrap64. rewrite Z.mod_small by lia. lia.
    - unfold wrap64. rewrite Z.mod_small by lia. lia. }
  destruct (timer_linked t) eqn:Hl.
  - destruct (Z.eqb_spec timeout (expire_at t)) as [Heq|Hne].
    + cbn [fst snd]. split; [exact Hl|]. left. auto.
    + destruct (Hre (h2o_timer_unlink t)) as [He Hd]. cbn [fst snd].
      split; [reflexivity|]. right. split; [right; congruence|].
      split; [exact He|]. rewrite Hd, <- app_assoc. reflexivity.
  - destruct (Hre t) as [He Hd]. cbn [fst snd].
    split; [reflexivity|]. right. split; [left; reflexivity|].
    split; [exact He|]. rewrite Hd. reflexivity.
Qed.

(** A fresh timer, a deadline 25 ticks ahead. *)
Lemma h2o_http3_schedule_timer_deadline_witness :
  (0 <= 125 < 2 ^ 63) /\ (0 <= 100 < 2 ^ 63) /\
  timer_linked (fst (h2o_http3_schedule_timer false 125 100 (mk_timer false 0) [])) = true.
Proof.
  split; [lia|]. split; [lia|].
  pose proof (h2o_http3_schedule_timer_deadline 125 100 (mk_timer false 0) []
                ltac:(lia) ltac:(lia)) as H.
  cbv zeta in H. exact (proj1 H).
Defined.

Example h2o_http3_schedule_timer_fresh :
  h2o_http3_schedule_timer false 125 100 (mk_timer false 0) []
  = (mk_timer true 125, [Call_h2o_timer_link 25]).
Proof. reflexivity. Qed.

Example h2o_http3_schedule_timer_overdue :
  h2o_http3_schedule_timer false 90 100 (mk_timer true 90) []
  = (mk_timer true 90, []) /\
  h2o_http3_schedule_timer false 90 100 (mk_timer true 50) []
  = (mk_timer true 100, [Call_h2o_timer_unlink; Call_h2o_timer_link 0]).
Proof. split; reflexivity. Qed.

(** X15. Without libuv, once the timer has been scheduled for a deadline that
    had not passed, scheduling it again for the same deadline does nothing,
    whatever the time is by then; with libuv every call unlinks the armed
    timer and links it again. *)
Theorem h2o_http3_schedule_timer_coalesces (timeout now now2 : Z) (t : h2o_timer_t)
    (tr : list pump_event) :
  0 <= timeout < 2 ^ 63 -> 0 <= now <= timeout ->
  let r := h2o_http3_schedule_timer false timeout now t tr in
  h2o_http3_schedule_timer false timeout now2 (fst r) (snd r) = r /\
  snd (h2o_http3_schedule_timer true timeout now2 (fst r) (snd r))
    = snd r ++ [Call_h2o_timer_unlink;
                Call_h2o_timer_link (if now2 <? timeout then wrap64 (timeout - now2) else 0)].
Proof.
  intros Ht Hn.
  assert (Hw : wrap64 timeout = timeout).
  { unfold wrap64. apply Z.mod_small. lia. }
  assert (Hr : let r := h2o_http3_schedule_timer false timeout now t tr in
               timer_linked (fst r) = true /\ expire_at (fst r) = timeout).
  { cbv zeta. unfold h2o_http3_schedule_timer. rewrite Hw. cbn [negb andb].
    assert (He : forall t0,
      expire_at (h2o_timer_link now
                   (if now <? timeout then wrap64 (timeout - now) else 0) t0) = timeout).
    { intros t0. unfold h2o_timer_link. cbn [expire_at].
      destruct (Z.ltb_spec now timeout) as [Hlt|Hge].
      - assert (Hd : wrap64 (timeout - now) = timeout - now).
        { unfold wrap64. apply Z.mod_small. lia. }
        rewrite Hd. unfold wrap64. rewrite Z.mod_small by lia. lia.
      - unfold wrap64. rewrite Z.mod_small by lia. lia. }
    destruct (timer_linked t) eqn:Hl.
    - destruct (Z.eqb_spec timeout (expire_at t)) as [Heq|Hne]; cbn [fst].
      + auto.
      + split; [reflexivity|apply He].
    - cbn [fst]. split; [reflexivity|apply He]. }
  cbv zeta in Hr |- *.
  destruct (h2o_http3_schedule_timer false timeout now t tr) as [t1 tr1].
  cbn [fst snd] in *. destruct Hr as [Hl He].
  unfold h2o_http3_schedule_timer. rewrite Hl, Hw, He, Z.eqb_refl. cbn [negb andb snd].
  split; [reflexivity|]. rewrite <- app_assoc. reflexivity.
Qed.

Lemma h2o_http3_schedule_timer_coalesces_witness :
  (0 <= 125 < 2 ^ 63) /\ (0 <= 100 <= 125) /\
  h2o_http3_schedule_timer false 125 110
    (fst (h2o_http3_schedule_timer false 125 100 (mk_timer false 0) []))
    (snd (h2o_http3_schedule_timer false 125 100 (mk_timer false 0) []))
  = h2o_http3_schedule_timer false 125 100 (mk_timer false 0) [].
Proof.
  split; [lia|]. split; [lia|].
  pose proof (h2o_http3_schedule_timer_coalesces 125 100 110 (mk_timer false 0) []
                ltac:(lia) ltac:(lia)) as H.
  cbv zeta in H. exact (proj1 H).
Defined.

(** ** The send loop *)

Lemma sent_packets_app (a b : list pump_event) :
  sent_packets (a ++ b) = sent_packets a ++ sent_packets b.
Proof. unfold sent_packets. apply flat_map_app. Qed.

Lemma freed_packets_app (a b : list pump_event) :
  freed_packets (a ++ b) = freed_packets a ++ freed_packets b.
Proof. unfold freed_packets. apply flat_map_app. Qed.

Lemma sent_then_freed_app (a : list (list byte)) :
  forall (b : list (list byte)) (ea eb : list pump_event),
    sent_then_freed a ea -> sent_then_freed b eb -> sent_then_freed (a ++ b) (ea ++ eb).
Proof.
  induction a as [|p a IH]; intros b ea eb Ha Hb.
  - cbn in Ha. subst ea. exact Hb.
  - cbn [sent_then_freed app] in Ha |- *. destruct Ha as (ret & rest & -> & Hrest).
    exists ret, (rest ++ eb). split; [|apply IH; assumption].
    cbn [app]. rewrite <- app_assoc. reflexivity.
Qed.

Lemma send_packets_trace (packets : list (list byte)) :
  forall answers tr answers' tr',
    send_packets packets answers tr = Some (answers', tr') ->
    exists new, tr' = tr ++ new /\
      sent_packets new = packets /\ freed_packets new = packets /\
      existsb is_closing_event new = false /\
      sent_then_freed packets new.
Proof.
  induction packets as [|p packets IH]; intros answers tr answers' tr' H.
  - cbn in H. injection H as <- <-. exists []. rewrite app_nil_r.
    repeat split; reflexivity.
  - cbn [send_packets] in H.
    destruct (send_one answers) as [[ret answers1]|]; [|discriminate].
    apply IH in H. destruct H as (new & Htr & Hs & Hf & Hc & Ho).
    exists ((Call_send_one p ret :: (if ret =? -1 then [Call_perror] else []))
            ++ Call_free_packet p :: new).
    split; [|split; [|split; [|split]]].
    + rewrite Htr. destruct (ret =? -1); cbn; rewrite <- !app_assoc; reflexivity.
    + rewrite sent_packets_app. destruct (ret =? -1); cbn; f_equal; exact Hs.
    + rewrite freed_packets_app. destruct (ret =? -1); cbn; f_equal; exact Hf.
    + rewrite existsb_app. destruct (ret =? -1); cbn; exact Hc.
    + cbn [sent_then_freed]. exists ret, new. split; [reflexivity|exact Ho].
Qed.

(** X16. Whenever [h2o_http3_send] ends, it has called [quicly_send] some
    number of times that each returned 0 and filled all 16 slots, and then
    once more.  What it did before its closing call is, for every packet of
    the full rounds, and of the last round if that returned 0 too, in order:
    the packet was passed to [send_one], [perror] was called if that
    returned -1, and then the packet was freed; nothing else.  After a last
    round that returned 0 the timer is scheduled; after FREE_CONNECTION the
    connection is destroyed and after any other error the process is
    stopped, and in both cases the packets of that round are neither sent nor
    freed and the timer is not scheduled. *)
Theorem h2o_http3_send_rounds (sends : list (quicly_send_ret * list (list byte))) :
  forall answers tr e sends' answers' tr',
    h2o_http3_send sends answers tr = Some (e, sends', answers', tr') ->
    exists full last body closing,
      sends = full ++ last :: sends' /\
      Forall (fun s => fst s = Quicly_send_ok /\ Datatypes.length (snd s) = 16%nat) full /\
      tr' = tr ++ body ++ [closing] /\
      existsb is_closing_event body = false /\
      freed_packets body = sent_packets body /\
      sent_then_freed (sent_packets body) body /\
      match e with
      | Send_returned =>
          fst last = Quicly_send_ok /\ Datatypes.length (snd last) <> 16%nat /\
          sent_packets body = flat_map snd full ++ snd last /\
          closing = Call_h2o_http3_schedule_timer
      | Send_destroyed =>
          fst last = QUICLY_ERROR_FREE_CONNECTION /\
          sent_packets body = flat_map snd full /\
          closing = Call_destroy_connection
      | Send_aborted =>
          (exists code, fst last = Quicly_send_error code) /\
          sent_packets body = flat_map snd full /\
          closing = Call_abort
      end.
Proof.
  induction sends as [|[ret packets] sends IH]; intros answers tr e sends' answers' tr' H;
    [discriminate|].
  cbn [h2o_http3_send] in H. destruct ret.
  - destruct (send_packets packets answers tr) as [[answers1 tr1]|] eqn:Hsp; [|discriminate].
    apply send_packets_trace in Hsp. destruct Hsp as (new & Htr1 & Hs & Hf & Hc & Ho).
    destruct (Z.eqb_spec (Z.of_nat (Datatypes.length packets)) 16) as [H16|Hn16].
    + apply IH in H.
      destruct H
        as (full & last & body & closing & Hsends & Hfull & Htr & Hcl & Hfs & Hord & He).
      exists ((Quicly_send_ok, packets) :: full), last, (new ++ body), closing.
      split; [rewrite Hsends; reflexivity|].
      split; [constructor; [split; [reflexivity|cbn; lia]|exact Hfull]|].
      split; [rewrite Htr, Htr1, <- !app_assoc; reflexivity|].
      split; [rewrite existsb_app, Hc, Hcl; reflexivity|].
      split; [rewrite freed_packets_app, sent_packets_app, Hf, Hs, Hfs; reflexivity|].
      split; [rewrite sent_packets_app, Hs; apply sent_then_freed_app; assumption|].
      rewrite sent_packets_app, Hs. cbn [flat_map snd].
      destruct e.
      * destruct He as (H1 & H2 & H3 & H4). rewrite H3, <- app_assoc. auto.
      * destruct He as (H1 & H2 & H3). rewrite H2. auto.
      * destruct He as (H1 & H2 & H3). rewrite H2. auto.
    + injection H as <- <- <- <-.
      exists [], (Quicly_send_ok, packets), new, Call_h2o_http3_schedule_timer.
      split; [reflexivity|]. split; [constructor|].
      split; [rewrite Htr1, <- app_assoc; reflexivity|].
      split; [exact Hc|]. split; [rewrite Hf, Hs; reflexivity|].
      split; [rewrite Hs; exact Ho|].
      cbn [fst snd flat_map app]. repeat split; auto. lia.
  - injection H as <- <- <- <-.
    exists [], (QUICLY_ERROR_FREE_CONNECTION, packets), [], Call_destroy_connection.
    cbn. repeat split; auto.
  - injection H as <- <- <- <-.
    exists [], (Quicly_send_error code, packets), [], Call_abort.
    cbn. repeat split; auto. exists code. reflexivity.
Qed.

(** ** The accept hash *)

Lemma byte_of_value (z : Z) : Z.of_N (Byte.to_N (byte_of z)) = z mod 256.
Proof.
  unfold byte_of.
  pose proof (Z.mod_pos_bound z 256 ltac:(lia)) as Hm.
  destruct (Byte.of_N (Z.to_N (z mod 256))) as [b|] eqn:Hb.
  - apply Byte.to_of_N in Hb. rewrite Hb. lia.
  - apply Byte.of_N_None_iff in Hb. lia.
Qed.

Lemma byte_of_inj (a b : Z) :
  0 <= a < 256 -> 0 <= b < 256 -> byte_of a = byte_of b -> a = b.
Proof.
  intros Ha Hb H. apply (f_equal (fun x => Z.of_N (Byte.to_N x))) in H.
  rewrite !byte_of_value, !Z.mod_small in H by lia. exact H.
Qed.

Lemma quicly_encode16_inj (v w : Z) :
  0 <= v < 65536 -> 0 <= w < 65536 -> quicly_encode16 v = quicly_encode16 w -> v = w.
Proof.
  intros Hv Hw H. unfold quicly_encode16 in H. injection H as Hhi Hlo.
  apply (f_equal (fun x => Z.of_N (Byte.to_N x))) in Hhi, Hlo.
  rewrite !byte_of_value in Hhi, Hlo.
  assert (Hv1 : 0 <= v / 256 < 256)
    by (split; [apply Z.div_pos; lia|apply Z.div_lt_upper_bound; lia]).
  assert (Hw1 : 0 <= w / 256 < 256)
    by (split; [apply Z.div_pos; lia|apply Z.div_lt_upper_bound; lia]).
  rewrite (Z.mod_small (v / 256)), (Z.mod_small (w / 256)) in Hhi by lia.
  rewrite (Z.div_mod v 256), (Z.div_mod w 256) by lia. lia.
Qed.

Lemma app_inv_length {A : Type} (a : list A) :
  forall a' b b', Datatypes.length a = Datatypes.length a' ->
    a ++ b = a' ++ b' -> a = a' /\ b = b'.
Proof.
  induction a as [|x a IH]; intros [|y a'] b b' Hl H; cbn in Hl; try discriminate.
  - auto.
  - cbn in H. injection H as -> H. destruct (IH a' b b' ltac:(lia) H) as [-> ->]. auto.
Qed.

Section AcceptHashProperties.

Variable AF_INET AF_INET6 : Z.
Variable hmac : list byte -> Z.

(** The two constants are labels of one [switch], so they differ. *)
Lemma accepting_hashkey_input_wf (sa : sockaddr_in_t) (cid : list byte) :
  AF_INET <> AF_INET6 ->
  sockaddr_wf AF_INET AF_INET6 sa ->
  accepting_hashkey_input AF_INET AF_INET6 sa cid
  = Some (byte_of (sa_family sa) :: sin_addr sa ++ quicly_encode16 (sin_port sa)
            ++ byte_of (Z.of_nat (Datatypes.length cid)) :: cid).
Proof.
  intros families_differ [[[Hf Hl]|[Hf Hl]] _]; unfold accepting_hashkey_input.
  - rewrite Hf, Z.eqb_refl. rewrite <- Hl, firstn_all. reflexivity.
  - rewrite Hf. rewrite <- Hl, firstn_all.
    destruct (Z.eqb_spec AF_INET6 AF_INET); [congruence|].
    rewrite Z.eqb_refl. reflexivity.
Qed.

(** X17. The bytes that [calc_accepting_hashkey] hands to the keyed hash
    determine the address family, the address, the port and the connection
    id: two calls with well-formed addresses hash the same bytes only if all
    of these agree.  (The two family constants must differ in their low byte,
    which is all that is stored.) *)
Theorem accepting_hashkey_input_injective (sa1 sa2 : sockaddr_in_t)
    (cid1 cid2 : list byte) :
  AF_INET mod 256 <> AF_INET6 mod 256 ->
  sockaddr_wf AF_INET AF_INET6 sa1 -> sockaddr_wf AF_INET AF_INET6 sa2 ->
  accepting_hashkey_input AF_INET AF_INET6 sa1 cid1
    = accepting_hashkey_input AF_INET AF_INET6 sa2 cid2 ->
  sa1 = sa2 /\ cid1 = cid2.
Proof.
  intros Hfam Hwf1 Hwf2 H.
  assert (Hdiff : AF_INET <> AF_INET6) by congruence.
  rewrite !accepting_hashkey_input_wf in H by assumption.
  injection H as Hb Hrest.
  apply (f_equal (fun x => Z.of_N (Byte.to_N x))) in Hb. rewrite !byte_of_value in Hb.
  destruct Hwf1 as [Hk1 Hp1]. destruct Hwf2 as [Hk2 Hp2].
  assert (Hlen : sa_family sa1 = sa_family sa2 /\
                 Datatypes.length (sin_addr sa1) = Datatypes.length (sin_addr sa2)).
  { destruct Hk1 as [[Hf1 Hl1]|[Hf1 Hl1]], Hk2 as [[Hf2 Hl2]|[Hf2 Hl2]];
      rewrite Hf1, Hf2 in Hb |- *; rewrite Hl1, Hl2; auto; congruence. }
  destruct Hlen as [Hf Hl].
  apply app_inv_length in Hrest; [|exact Hl]. destruct Hrest as [Ha Hrest].
  injection Hrest as Hhi Hlo _ Hcid.
  assert (Hport : quicly_encode16 (sin_port sa1) = quicly_encode16 (sin_port sa2))
    by (unfold quicly_encode16; congruence).
  apply quicly_encode16_inj in Hport; [|assumption|assumption].
  split; [|exact Hcid].
  destruct sa1, sa2. cbn in *. congruence.
Qed.

(** X18. For a well-formed address [calc_accepting_hashkey] returns the hash
    of the collected bytes exactly when they fit the 40 bytes of [buf], that
    is for a connection id of up to 32 bytes with IPv4 and of up to 20 bytes
    with IPv6; for a longer one the [assert] behind the copies stops the
    process.  (The two family constants are labels of one [switch], so they
    differ.) *)
Theorem calc_accepting_hashkey_fits (sa : sockaddr_in_t) (cid : list byte) :
  AF_INET <> AF_INET6 ->
  sockaddr_wf AF_INET AF_INET6 sa ->
  calc_accepting_hashkey AF_INET AF_INET6 hmac sa cid =
  if (Z.of_nat (Datatypes.length cid) <=? 36 - Z.of_nat (Datatypes.length (sin_addr sa)))
  then Returns (hmac (byte_of (sa_family sa) :: sin_addr sa
                        ++ quicly_encode16 (sin_port sa)
                        ++ byte_of (Z.of_nat (Datatypes.length cid)) :: cid))
  else Aborts.
Proof.
  intros Hdiff Hwf. unfold calc_accepting_hashkey.
  rewrite accepting_hashkey_input_wf by assumption.
  cbn [Datatypes.length]. rewrite length_app. cbn [quicly_encode16 app Datatypes.length].
  destruct (Z.leb_spec (Z.of_nat (Datatypes.length cid))
              (36 - Z.of_nat (Datatypes.length (sin_addr sa)))) as [Hle|Hgt];
    [destruct (Z.leb_spec
       (Z.of_nat (S (Datatypes.length (sin_addr sa) + S (S (S (Datatypes.length cid))))))
       (1 + 16 + 4 + 1 + 18)); [reflexivity|lia]
    |destruct (Z.leb_spec
       (Z.of_nat (S (Datatypes.length (sin_addr sa) + S (S (S (Datatypes.length cid))))))
       (1 + 16 + 4 + 1 + 18)); [lia|reflexivity]].
Qed.

Lemma calc_accepting_hashkey_unknown_family (sa : sockaddr_in_t) (cid : list byte) :
  sa_family sa <> AF_INET -> sa_family sa <> AF_INET6 ->
  calc_accepting_hashkey AF_INET AF_INET6 hmac sa cid = Aborts.
Proof.
  intros H4 H6. unfold calc_accepting_hashkey, accepting_hashkey_input.
  destruct (Z.eqb_spec (sa_family sa) AF_INET); [contradiction|].
  destruct (Z.eqb_spec (sa_family sa) AF_INET6); [contradiction|]. reflexivity.
Qed.

End AcceptHashProperties.

(** ** The connection registry *)

Lemma kh_get_put (h : khash) (key conn k : Z) :
  kh_get (kh_put h key conn) k = if k =? key then Some conn else kh_get h k.
Proof. reflexivity. Qed.

Lemma kh_get_del (h : khash) (key k : Z) :
  kh_get (kh_del h key) k = if k =? key then None else kh_get h k.
Proof.
  unfold kh_del, kh_get. destruct (h key) eqn:Hk; [reflexivity|].
  destruct (Z.eqb_spec k key) as [->|]; [exact Hk|reflexivity].
Qed.

(** The initial bytes of an egress stream whose buffer has been given room. *)
Lemma h2o_buffer_append_init (reserve : h2o_buffer_t -> Z -> h2o_buffer_t)
    (src : list byte) :
  let len := Z.of_nat (Datatypes.length src) in
  buffer_wf (reserve h2o_buffer_init len) ->
  size (reserve h2o_buffer_init len) = 0 ->
  len <= capacity (reserve h2o_buffer_init len) ->
  contents (h2o_buffer_append reserve h2o_buffer_init src len) = src.
Proof.
  intros len [Hl Hs] Hz Hcap. unfold h2o_buffer_append. fold len.
  rewrite Hz, Z.sub_0_r.
  destruct (Z.ltb_spec (capacity (reserve h2o_buffer_init len)) len); [lia|].
  unfold contents, slice. cbn [bytes size Z.add Z.to_nat skipn].
  rewrite memcpy_splice by lia. cbn [Z.to_nat firstn app Z.add].
  subst len. rewrite Nat2Z.id, firstn_app, firstn_all, Nat.sub_diag.
  rewrite firstn_all. cbn [firstn]. apply app_nil_r.
Qed.

Section RegistryProperties.

Variable AF_INET AF_INET6 : Z.
Variable hmac : list byte -> Z.
Variable might_be_client_generated : quicly_decoded_packet_t -> bool.
Variable cid_dest_plaintext : quicly_decoded_packet_t -> quicly_cid_plaintext_t.
Variable quicly_is_client : Z -> bool.
Variable quicly_is_destination : Z -> sockaddr_in_t -> quicly_decoded_packet_t -> bool.
Variable quicly_get_master_id : Z -> Z.
Variable quicly_get_peername : Z -> sockaddr_in_t.
Variable quicly_get_offered_cid : Z -> list byte.
Variable h2o_buffer_reserve : h2o_buffer_t -> Z -> h2o_buffer_t.

Local Abbreviation find := (find_connection AF_INET AF_INET6 hmac might_be_client_generated
                          cid_dest_plaintext quicly_is_client quicly_is_destination).
Local Abbreviation process := (process_packets AF_INET AF_INET6 hmac might_be_client_generated
                             cid_dest_plaintext quicly_is_client quicly_is_destination).
Local Abbreviation hashkey := (calc_accepting_hashkey AF_INET AF_INET6 hmac).
Local Abbreviation setup := (h2o_http3_setup AF_INET AF_INET6 hmac quicly_is_client
                           quicly_get_master_id quicly_get_peername quicly_get_offered_cid
                           h2o_buffer_reserve).
Local Abbreviation dispose := (h2o_http3_dispose_conn AF_INET AF_INET6 hmac quicly_is_client
                             quicly_get_master_id quicly_get_peername
                             quicly_get_offered_cid).

Lemma find_connection_by_id_sound (ctx : h2o_http3_ctx_t) (sa : sockaddr_in_t)
    (packet : quicly_decoded_packet_t) (conn : Z) :
  find_connection_by_id cid_dest_plaintext quicly_is_destination ctx sa packet = Some conn ->
  quicly_is_destination conn sa packet = true /\
  node_id (cid_dest_plaintext packet) = 0 /\ thread_id (cid_dest_plaintext packet) = 0 /\
  kh_get (conns_by_id ctx) (master_id (cid_dest_plaintext packet)) = Some conn.
Proof.
  unfold find_connection_by_id.
  destruct (Z.eqb_spec (node_id (cid_dest_plaintext packet)) 0); [|discriminate].
  destruct (Z.eqb_spec (thread_id (cid_dest_plaintext packet)) 0); [|discriminate].
  cbn [andb].
  destruct (kh_get (conns_by_id ctx) (master_id (cid_dest_plaintext packet)))
    as [c|]; [|discriminate].
  destruct (quicly_is_destination c sa packet) eqn:Hd; [|discriminate].
  intros H. injection H as <-. auto.
Qed.

(** X19. [find_connection] never hands out a connection that the transport
    does not confirm as the destination of the packet.  The connection it
    returns is registered either under the accept hash of the peer address
    and the packet's destination CID, for a packet whose CID may be client
    generated, and is then not a client connection; or under the master id of
    the packet's decrypted CID, whose node and thread ids are 0. *)
Theorem find_connection_sound (ctx : h2o_http3_ctx_t) (sa : sockaddr_in_t)
    (packet : quicly_decoded_packet_t) (conn : Z) :
  find ctx sa packet = Returns (Some conn) ->
  quicly_is_destination conn sa packet = true /\
  ((might_be_client_generated packet = true /\ quicly_is_client conn = false /\
    exists key, hashkey sa (cid_dest_encrypted packet) = Returns key /\
                kh_get (conns_accepting ctx) key = Some conn) \/
   (node_id (cid_dest_plaintext packet) = 0 /\ thread_id (cid_dest_plaintext packet) = 0 /\
    kh_get (conns_by_id ctx) (master_id (cid_dest_plaintext packet)) = Some conn)).
Proof.
  unfold find_connection.
  assert (Hid : Returns (find_connection_by_id cid_dest_plaintext quicly_is_destination
                           ctx sa packet) = Returns (Some conn) ->
    quicly_is_destination conn sa packet = true /\
    ((might_be_client_generated packet = true /\ quicly_is_client conn = false /\
      exists key, hashkey sa (cid_dest_encrypted packet) = Returns key /\
                  kh_get (conns_accepting ctx) key = Some conn) \/
     (node_id (cid_dest_plaintext packet) = 0 /\
      thread_id (cid_dest_plaintext packet) = 0 /\
      kh_get (conns_by_id ctx) (master_id (cid_dest_plaintext packet)) = Some conn))).
  { intros H. injection H as H. apply find_connection_by_id_sound in H.
    destruct H as (H1 & H2). auto. }
  destruct (might_be_client_generated packet) eqn:Hm; [|exact Hid].
  destruct (hashkey sa (cid_dest_encrypted packet)) as [key| |] eqn:Hkey; try discriminate.
  destruct (kh_get (conns_accepting ctx) key) as [c|] eqn:Hget; [|exact Hid].
  destruct (quicly_is_client c) eqn:Hc; [discriminate|].
  destruct (quicly_is_destination c sa packet) eqn:Hd; [|exact Hid].
  intros H. injection H as <-. split; [exact Hd|]. left.
  repeat split; auto. exists key. auto.
Qed.

Lemma find_connection_destination (ctx : h2o_http3_ctx_t) (sa : sockaddr_in_t)
    (packet : quicly_decoded_packet_t) (conn : Z) :
  find ctx sa packet = Returns (Some conn) ->
  quicly_is_destination conn sa packet = true.
Proof.
  unfold find_connection.
  assert (Hid : Returns (find_connection_by_id cid_dest_plaintext quicly_is_destination
                           ctx sa packet) = Returns (Some conn) ->
                quicly_is_destination conn sa packet = true).
  { intros H. injection H as H. apply find_connection_by_id_sound in H. apply H. }
  destruct (might_be_client_generated packet); [|exact Hid].
  destruct (hashkey sa (cid_dest_encrypted packet)) as [key| |]; try discriminate.
  destruct (kh_get (conns_accepting ctx) key) as [c|]; [|exact Hid].
  destruct (quicly_is_client c); [discriminate|].
  destruct (quicly_is_destination c sa packet) eqn:Hd; [|exact Hid].
  intros H. injection H as <-. exact Hd.
Qed.

Lemma handed_on_receive (conn : Z) (packets : list quicly_decoded_packet_t) :
  handed_on (map (Call_quicly_receive conn) packets) = packets.
Proof.
  induction packets as [|p packets IH]; [reflexivity|].
  cbn. f_equal. exact IH.
Qed.

Lemma handed_on_app (a b : list pump_event) :
  handed_on (a ++ b) = handed_on a ++ handed_on b.
Proof. unfold handed_on. apply flat_map_app. Qed.


(** X21. Whenever [h2o_http3_setup] returns, with whatever value, the
    connection is registered under its master id, and no other entry of that
    map has changed; the QPACK decoder exists, with a table of 4096 bytes and
    100 blocked streams, and the encoder is as it was.  If the value is not 0,
    because a stream could not be opened, the timer has not been touched and
    the connection is registered all the same; if it is 0, the timer has been
    scheduled. *)
Theorem h2o_http3_setup_registers (use_libuv : bool) (timeout now : Z)
    (control encoder decoder : retcode * retcode) (ctx ctx' : h2o_http3_ctx_t)
    (conn conn' : h2o_http3_conn_state_t) (quic : Z) (tr tr' : list pump_event)
    (ret : retcode) :
  setup use_libuv timeout now control encoder decoder ctx conn quic tr
    = Returns (ret, ctx', conn', tr') ->
  (forall k, kh_get (conns_by_id ctx') k =
             if k =? quicly_get_master_id quic then Some quic
             else kh_get (conns_by_id ctx) k) /\
  acceptor ctx' = acceptor ctx /\
  cs_quic conn' = Some quic /\
  qpack_dec (cs_conn conn') = Some (h2o_qpack_create_decoder 4096 100) /\
  qpack_enc (cs_conn conn') = qpack_enc (cs_conn conn) /\
  (ret <> RET_OK -> cs_timeout conn' = cs_timeout conn /\ tr' = tr) /\
  (ret = RET_OK ->
   (cs_timeout conn', tr') =
   h2o_http3_schedule_timer use_libuv timeout now (cs_timeout conn) tr).
Proof.
  unfold h2o_http3_setup.
  destruct (if negb (quicly_is_client quic)
            then match calc_accepting_hashkey_from_conn AF_INET AF_INET6 hmac
                         quicly_get_peername quicly_get_offered_cid quic with
                 | Returns key => Returns (kh_put (conns_accepting ctx) key quic)
                 | Aborts => Aborts
                 | OutOfFuel => OutOfFuel
                 end
            else Returns (conns_accepting ctx)) as [accepting| |]; try discriminate.
  destruct (open_egress_unistream h2o_buffer_reserve control 0 [x43; x00; x04])
    as [ret1 s1].
  destruct (retcode_eqb ret1 RET_OK) eqn:H1; cbn [negb].
  2:{ intros H. injection H as <- <- <- <-. cbn.
      repeat split; auto; try (intros ->; discriminate). }
  destruct (open_egress_unistream h2o_buffer_reserve encoder 0 [x48]) as [ret2 s2].
  destruct (retcode_eqb ret2 RET_OK) eqn:H2; cbn [negb].
  2:{ intros H. injection H as <- <- <- <-. cbn.
      repeat split; auto; try (intros ->; discriminate). }
  destruct (open_egress_unistream h2o_buffer_reserve decoder 0 [x68]) as [ret3 s3].
  destruct (retcode_eqb ret3 RET_OK) eqn:H3; cbn [negb].
  2:{ intros H. injection H as <- <- <- <-. cbn.
      repeat split; auto; try (intros ->; discriminate). }
  destruct (h2o_http3_schedule_timer use_libuv timeout now (cs_timeout conn) tr)
    as [timer tr1].
  intros H. injection H as <- <- <- <-. cbn.
  repeat split; auto; congruence.
Qed.

End RegistryProperties.

Section SetupProperties.

Variable AF_INET AF_INET6 : Z.
Variable hmac : list byte -> Z.
Variable might_be_client_generated : quicly_decoded_packet_t -> bool.
Variable cid_dest_plaintext : quicly_decoded_packet_t -> quicly_cid_plaintext_t.
Variable quicly_is_client : Z -> bool.
Variable quicly_is_destination : Z -> sockaddr_in_t -> quicly_decoded_packet_t -> bool.
Variable quicly_get_master_id : Z -> Z.
Variable quicly_get_peername : Z -> sockaddr_in_t.
Variable quicly_get_offered_cid : Z -> list byte.
Variable h2o_buffer_reserve : h2o_buffer_t -> Z -> h2o_buffer_t.

Local Abbreviation find := (find_connection AF_INET AF_INET6 hmac might_be_client_generated
                              cid_dest_plaintext quicly_is_client quicly_is_destination).
Local Abbreviation hashkey_of := (calc_accepting_hashkey_from_conn AF_INET AF_INET6 hmac
                                    quicly_get_peername quicly_get_offered_cid).
Local Abbreviation setup := (h2o_http3_setup AF_INET AF_INET6 hmac quicly_is_client
                               quicly_get_master_id quicly_get_peername
                               quicly_get_offered_cid h2o_buffer_reserve).
Local Abbreviation dispose := (h2o_http3_dispose_conn AF_INET AF_INET6 hmac quicly_is_client
                                 quicly_get_master_id quicly_get_peername
                                 quicly_get_offered_cid).

Lemma open_egress_unistream_ok (answer : retcode * retcode) (id : Z)
    (initial_bytes : list byte) (ret : retcode)
    (s : option st_h2o_http3_egress_unistream_t) :
  reserve_init_ok h2o_buffer_reserve (Z.of_nat (Datatypes.length initial_bytes)) ->
  open_egress_unistream h2o_buffer_reserve answer id initial_bytes = (ret, s) ->
  retcode_eqb ret RET_OK = true ->
  answer = (RET_OK, RET_OK) /\
  exists stream, s = Some stream /\ contents (sendbuf stream) = initial_bytes.
Proof.
  intros (Hwf & Hz & Hcap) H Hret. unfold open_egress_unistream in H.
  destruct answer as [open_ret sync_ret].
  destruct (retcode_eqb open_ret RET_OK) eqn:Ho; cbn [negb] in H.
  - cbn in H. injection H as <- <-.
    destruct open_ret; try discriminate. destruct sync_ret; try discriminate.
    split; [reflexivity|]. eexists. split; [reflexivity|].
    cbn [sendbuf]. apply h2o_buffer_append_init; assumption.
  - injection H as <- <-. rewrite Ho in Hret. discriminate.
Qed.

(** X22. If [h2o_http3_setup] returns 0, then the transport opened all three
    streams and accepted their send buffers, and the streams hold exactly the
    bytes 43 00 04 (type 'C' and an empty SETTINGS frame), 48 ('H') and 68
    ('h'), provided the allocator gave each new buffer its room. *)
Theorem h2o_http3_setup_egress_bytes (use_libuv : bool) (timeout now : Z)
    (control encoder decoder : retcode * retcode) (ctx ctx' : h2o_http3_ctx_t)
    (conn conn' : h2o_http3_conn_state_t) (quic : Z) (tr tr' : list pump_event) :
  reserve_init_ok h2o_buffer_reserve 3 -> reserve_init_ok h2o_buffer_reserve 1 ->
  setup use_libuv timeout now control encoder decoder ctx conn quic tr
    = Returns (RET_OK, ctx', conn', tr') ->
  control = (RET_OK, RET_OK) /\ encoder = (RET_OK, RET_OK) /\ decoder = (RET_OK, RET_OK) /\
  exists c e d,
    cs_egress_control conn' = Some c /\ contents (sendbuf c) = [x43; x00; x04] /\
    cs_egress_qpack_encoder conn' = Some e /\ contents (sendbuf e) = [x48] /\
    cs_egress_qpack_decoder conn' = Some d /\ contents (sendbuf d) = [x68].
Proof.
  intros Hr3 Hr1. unfold h2o_http3_setup.
  destruct (if negb (quicly_is_client quic)
            then match hashkey_of quic with
                 | Returns key => Returns (kh_put (conns_accepting ctx) key quic)
                 | Aborts => Aborts
                 | OutOfFuel => OutOfFuel
                 end
            else Returns (conns_accepting ctx)) as [accepting| |]; try discriminate.
  destruct (open_egress_unistream h2o_buffer_reserve control 0 [x43; x00; x04])
    as [ret1 s1] eqn:Ho1.
  destruct (retcode_eqb ret1 RET_OK) eqn:H1; cbn [negb].
  2:{ intros H. injection H as -> _ _ _. discriminate. }
  destruct (open_egress_unistream h2o_buffer_reserve encoder 0 [x48]) as [ret2 s2] eqn:Ho2.
  destruct (retcode_eqb ret2 RET_OK) eqn:H2; cbn [negb].
  2:{ intros H. injection H as -> _ _ _. discriminate. }
  destruct (open_egress_unistream h2o_buffer_reserve decoder 0 [x68]) as [ret3 s3] eqn:Ho3.
  destruct (retcode_eqb ret3 RET_OK) eqn:H3; cbn [negb].
  2:{ intros H. injection H as -> _ _ _. discriminate. }
  destruct (h2o_http3_schedule_timer use_libuv timeout now (cs_timeout conn) tr)
    as [timer tr1].
  intros H. injection H as _ <- _.
  destruct (open_egress_unistream_ok control 0 [x43; x00; x04] ret1 s1 Hr3 Ho1 H1)
    as (Hc & c & -> & Hcc).
  destruct (open_egress_unistream_ok encoder 0 [x48] ret2 s2 Hr1 Ho2 H2)
    as (He & e & -> & Hec).
  destruct (open_egress_unistream_ok decoder 0 [x68] ret3 s3 Hr1 Ho3 H3)
    as (Hd & d & -> & Hdc).
  split; [exact Hc|]. split; [exact He|]. split; [exact Hd|].
  exists c, e, d. cbn. repeat split; assumption.
Qed.

(** X23. Disposing of a connection that [h2o_http3_setup] has returned for,
    with whatever value, takes it out of both maps again: the entry under its
    master id is gone, the entry under its accept hash is gone if it is a
    server connection, and every other key of either map maps to what it did
    before the setup.  The calls it makes are, in this order: the decoder is
    destroyed, the encoder if there is one, the transport's connection is
    freed, and [h2o_timer_unlink] is called, after which the timer is not
    linked. *)
Theorem h2o_http3_setup_dispose (use_libuv : bool) (timeout now : Z)
    (control encoder decoder : retcode * retcode) (ctx ctx' : h2o_http3_ctx_t)
    (conn conn' : h2o_http3_conn_state_t) (quic : Z) (tr tr' : list pump_event)
    (ret : retcode) :
  setup use_libuv timeout now control encoder decoder ctx conn quic tr
    = Returns (ret, ctx', conn', tr') ->
  exists ctx'' timer tr'',
    dispose ctx' conn' tr' = Returns (ctx'', timer, tr'') /\
    (forall k, kh_get (conns_by_id ctx'') k =
               if k =? quicly_get_master_id quic then None
               else kh_get (conns_by_id ctx) k) /\
    (forall k, kh_get (conns_accepting ctx'') k =
               if quicly_is_client quic then kh_get (conns_accepting ctx) k
               else match hashkey_of quic with
                    | Returns key => if k =? key then None
                                     else kh_get (conns_accepting ctx) k
                    | _ => kh_get (conns_accepting ctx) k
                    end) /\
    timer_linked timer = false /\
    tr'' = tr' ++ Call_h2o_qpack_destroy_decoder
               :: match qpack_enc (cs_conn conn) with
                  | Some _ => [Call_h2o_qpack_destroy_encoder]
                  | None => []
                  end ++ [Call_quicly_free quic; Call_h2o_timer_unlink].
Proof.
  intros Hsetup.
  assert (Hshape : exists accepting s1 s2 s3 timer1,
    (if negb (quicly_is_client quic)
     then match hashkey_of quic with
          | Returns key => Returns (kh_put (conns_accepting ctx) key quic)
          | Aborts => Aborts
          | OutOfFuel => OutOfFuel
          end
     else Returns (conns_accepting ctx)) = Returns accepting /\
    ctx' = mk_ctx (kh_put (conns_by_id ctx) (quicly_get_master_id quic) quic) accepting
                  (acceptor ctx) /\
    conn' = mk_conn_state
              (set_qpack_dec (cs_conn conn) (Some (h2o_qpack_create_decoder 4096 100)))
              (Some quic) s1 s2 s3 timer1).
  { unfold h2o_http3_setup in Hsetup.
    destruct (if negb (quicly_is_client quic)
              then match hashkey_of quic with
                   | Returns key => Returns (kh_put (conns_accepting ctx) key quic)
                   | Aborts => Aborts
                   | OutOfFuel => OutOfFuel
                   end
              else Returns (conns_accepting ctx)) as [accepting| |]; try discriminate.
    exists accepting.
    destruct (open_egress_unistream h2o_buffer_reserve control 0 [x43; x00; x04])
      as [ret1 s1].
    destruct (retcode_eqb ret1 RET_OK); cbn [negb] in Hsetup.
    2:{ injection Hsetup as _ <- <- _. do 4 eexists. repeat split. }
    destruct (open_egress_unistream h2o_buffer_reserve encoder 0 [x48]) as [ret2 s2].
    destruct (retcode_eqb ret2 RET_OK); cbn [negb] in Hsetup.
    2:{ injection Hsetup as _ <- <- _. do 4 eexists. repeat split. }
    destruct (open_egress_unistream h2o_buffer_reserve decoder 0 [x68]) as [ret3 s3].
    destruct (retcode_eqb ret3 RET_OK); cbn [negb] in Hsetup.
    2:{ injection Hsetup as _ <- <- _. do 4 eexists. repeat split. }
    destruct (h2o_http3_schedule_timer use_libuv timeout now (cs_timeout conn) tr)
      as [timer tr1].
    injection Hsetup as _ <- <- _. do 4 eexists. repeat split. }
  destruct Hshape as (accepting & s1 & s2 & s3 & timer1 & Hacc & -> & ->).
  unfold h2o_http3_dispose_conn.
  cbn [cs_conn cs_quic cs_timeout qpack_dec qpack_enc set_qpack_dec conns_by_id
       conns_accepting acceptor].
  destruct (quicly_is_client quic) eqn:Hcl; cbn [negb] in Hacc |- *.
  - injection Hacc as <-. do 3 eexists. split; [reflexivity|].
    cbn [conns_by_id conns_accepting].
    split; [intros k; rewrite kh_get_del, kh_get_put; destruct (k =? _); reflexivity|].
    split; [reflexivity|]. split; [reflexivity|].
    destruct (qpack_enc (cs_conn conn)); cbn; rewrite <- ?app_assoc; reflexivity.
  - destruct (hashkey_of quic) as [key| |]; try discriminate.
    injection Hacc as <-. do 3 eexists. split; [reflexivity|].
    cbn [conns_by_id conns_accepting].
    split; [intros k; rewrite kh_get_del, kh_get_put; destruct (k =? _); reflexivity|].
    split; [intros k; rewrite kh_get_del, kh_get_put; destruct (k =? _); reflexivity|].
    split; [reflexivity|].
    destruct (qpack_enc (cs_conn conn)); cbn; rewrite <- ?app_assoc; reflexivity.
Qed.

(** X24. After [h2o_http3_setup] has returned for a connection,
    [find_connection] finds it: by the master id, for a packet whose CID is
    not client generated and decrypts to node 0, thread 0 and the
    connection's master id; and, for a server connection, by the accept
    hash, for a packet with a possibly client-generated CID that comes from
    the connection's peer and carries the CID the peer offered.  In both
    cases the transport must confirm the connection as the destination. *)
Theorem h2o_http3_setup_then_find (use_libuv : bool) (timeout now : Z)
    (control encoder decoder : retcode * retcode) (ctx ctx' : h2o_http3_ctx_t)
    (conn conn' : h2o_http3_conn_state_t) (quic : Z) (tr tr' : list pump_event)
    (ret : retcode) (sa : sockaddr_in_t) (packet : quicly_decoded_packet_t) :
  setup use_libuv timeout now control encoder decoder ctx conn quic tr
    = Returns (ret, ctx', conn', tr') ->
  quicly_is_destination quic sa packet = true ->
  (might_be_client_generated packet = false ->
   node_id (cid_dest_plaintext packet) = 0 ->
   thread_id (cid_dest_plaintext packet) = 0 ->
   master_id (cid_dest_plaintext packet) = quicly_get_master_id quic ->
   find ctx' sa packet = Returns (Some quic)) /\
  (might_be_client_generated packet = true ->
   quicly_is_client quic = false ->
   sa = quicly_get_peername quic ->
   cid_dest_encrypted packet = quicly_get_offered_cid quic ->
   find ctx' sa packet = Returns (Some quic)).
Proof.
  intros Hsetup Hdest.
  assert (Hmaps :
    kh_get (conns_by_id ctx') (quicly_get_master_id quic) = Some quic /\
    (quicly_is_client quic = false ->
     exists key, hashkey_of quic = Returns key /\
                 kh_get (conns_accepting ctx') key = Some quic)).
  { unfold h2o_http3_setup in Hsetup.
    destruct (quicly_is_client quic) eqn:Hcl; cbn [negb] in Hsetup.
    - assert (Hctx : conns_by_id ctx'
                     = kh_put (conns_by_id ctx) (quicly_get_master_id quic) quic).
      { repeat match type of Hsetup with
               | context [open_egress_unistream ?r ?a ?i ?b] =>
                   destruct (open_egress_unistream r a i b) as [? ?]
               | context [retcode_eqb ?a RET_OK] => destruct (retcode_eqb a RET_OK)
               | context [h2o_http3_schedule_timer ?a ?b ?c ?d ?e] =>
                   destruct (h2o_http3_schedule_timer a b c d e) as [? ?]
               end; cbn [negb] in Hsetup; injection Hsetup as _ <- _ _; reflexivity. }
      rewrite Hctx, kh_get_put, Z.eqb_refl. split; [reflexivity|discriminate].
    - destruct (hashkey_of quic) as [key| |]; try discriminate.
      assert (Hctx : conns_by_id ctx'
                     = kh_put (conns_by_id ctx) (quicly_get_master_id quic) quic /\
                     conns_accepting ctx' = kh_put (conns_accepting ctx) key quic).
      { repeat match type of Hsetup with
               | context [open_egress_unistream ?r ?a ?i ?b] =>
                   destruct (open_egress_unistream r a i b) as [? ?]
               | context [retcode_eqb ?a RET_OK] => destruct (retcode_eqb a RET_OK)
               | context [h2o_http3_schedule_timer ?a ?b ?c ?d ?e] =>
                   destruct (h2o_http3_schedule_timer a b c d e) as [? ?]
               end; cbn [negb] in Hsetup; injection Hsetup as _ <- _ _; split; reflexivity. }
      destruct Hctx as [-> ->]. rewrite !kh_get_put, Z.eqb_refl.
      split; [reflexivity|]. intros _. exists key. rewrite kh_get_put, Z.eqb_refl. auto. }
  destruct Hmaps as [Hid Hacc]. split.
  - intros Hm Hn Ht Hmid. unfold find_connection, find_connection_by_id.
    rewrite Hm, Hn, Ht, Hmid, Hid, Hdest. reflexivity.
  - intros Hm Hcl Hsa Hcid. destruct (Hacc Hcl) as (key & Hkey & Hget).
    unfold find_connection. rewrite Hm.
    unfold calc_accepting_hashkey_from_conn in Hkey. rewrite Hsa, Hcid, Hkey, Hget, Hcl.
    rewrite <- Hsa, Hdest. reflexivity.
Qed.

End SetupProperties.

(** * The further properties at concrete inputs *)

(** A stream that announces the unknown type 7f. *)
Lemma call_handle_input_stream_type_witness :
  call_handle_input example_handle_control_stream_frame
    example_qpack_decoder_handle_input example_qpack_encoder_handle_input
    1 (mk_frame 0 0 0 0) (fresh_world false 2) [x7f; x00] 0 2
  = Some (mk_handled RET_OK
            (mk_world fresh_conn
               (set_handle_input (fresh_stream false 2) HI_unknown_stream_type)
               [Call_quicly_request_stop 2]) 2) /\
  recvbuf (set_handle_input (fresh_stream false 2) HI_unknown_stream_type)
    = recvbuf (fresh_stream false 2).
Proof.
  split; [reflexivity|].
  pose proof (call_handle_input_stream_type example_handle_control_stream_frame
                example_qpack_decoder_handle_input example_qpack_encoder_handle_input
                1 (mk_frame 0 0 0 0) (fresh_world false 2) [x7f; x00] 0 2 _ eq_refl) as H.
  exact (proj1 (proj2 (proj2 H))).
Defined.

Lemma unknown_stream_type_is_discarded_witness :
  handle_input (w_stream (fresh_world false 2)) = HI_unknown_type /\
  0 <> 2 /\
  load [x7f; x00] 0 <> 67 /\ load [x7f; x00] 0 <> 72 /\ load [x7f; x00] 0 <> 104 /\
  call_handle_input example_handle_control_stream_frame
    example_qpack_decoder_handle_input example_qpack_encoder_handle_input
    1 (mk_frame 0 0 0 0) (fresh_world false 2) [x7f; x00] 0 2
  = Some (mk_handled RET_OK
            (mk_world fresh_conn
               (set_handle_input (fresh_stream false 2) HI_unknown_stream_type)
               [Call_quicly_request_stop 2]) 2).
Proof.
  assert (H0 : 0 <> 2) by discriminate.
  assert (H1 : load [x7f; x00] 0 <> 67) by (vm_compute; discriminate).
  assert (H2 : load [x7f; x00] 0 <> 72) by (vm_compute; discriminate).
  assert (H3 : load [x7f; x00] 0 <> 104) by (vm_compute; discriminate).
  repeat (split; [assumption || reflexivity|]).
  exact (proj1 (unknown_stream_type_is_discarded example_handle_control_stream_frame
                  example_qpack_decoder_handle_input example_qpack_encoder_handle_input
                  1 (mk_frame 0 0 0 0) (fresh_world false 2) [x7f; x00] 0 2
                  eq_refl H0 H1 H2 H3)).
Defined.

(** Two bytes for a decoder that takes one byte per call. *)
Lemma qpack_encoder_stream_handle_input_consumes_witness :
  (forall (dec : option h2o_qpack_decoder_t) (s : Z), 0 <= s < 2 ->
     let '(ret, _, s') := bytewise_qpack_decoder_handle_input dec [x00; x01] s 2 in
     ret = RET_OK -> s < s' <= 2) /\
  0 <= 2 /\ 2 - 0 < Z.of_nat 3 /\
  exists r,
    qpack_encoder_stream_handle_input bytewise_qpack_decoder_handle_input 3
      (fresh_world false 2) [x00; x01] 0 2 = Some r /\
    (h_ret r = RET_OK -> h_src r = 2).
Proof.
  assert (Hp : forall (dec : option h2o_qpack_decoder_t) (s : Z), 0 <= s < 2 ->
     let '(ret, _, s') := bytewise_qpack_decoder_handle_input dec [x00; x01] s 2 in
     ret = RET_OK -> s < s' <= 2).
  { intros dec s Hs. cbn. lia. }
  assert (H1 : 0 <= 2) by lia.
  assert (H2 : 2 - 0 < Z.of_nat 3) by (cbn; lia).
  split; [exact Hp|]. split; [exact H1|]. split; [exact H2|].
  destruct (qpack_encoder_stream_handle_input_consumes
              bytewise_qpack_decoder_handle_input 3 (fresh_world false 2) [x00; x01] 0 2
              Hp H1 H2) as (r & Hr & _ & _ & _ & Hsrc).
  exists r. split; assumption.
Defined.

(** An empty SETTINGS frame arrives on a control stream. *)
Lemma ingress_unistream_on_receive_control_accounting_witness :
  handle_input (w_stream control_world) = HI_control_stream /\
  transfer_complete (recvstate (w_stream control_world)) = false /\
  0 <= bytes_available (recvstate (w_stream control_world)) /\
  h2o_http3_update_recvbuf (h2o_buffer_reserve_model true)
    (recvbuf (w_stream control_world)) 0 [x00; x04] 2
    = (RET_OK, mk_buffer 2 2 [x00; x04]) /\
  exists ret w',
    ingress_unistream_on_receive example_handle_control_stream_frame
      example_qpack_decoder_handle_input example_qpack_encoder_handle_input
      (h2o_buffer_reserve_model true) 1 (mk_frame 0 0 0 0) control_world 0 [x00; x04] 2
    = Some (ret, w') /\
    0 <= bytes_available (recvstate (w_stream control_world))
         - bytes_available (recvstate (w_stream w'))
      <= bytes_available (recvstate (w_stream control_world)).
Proof.
  assert (H3 : 0 <= bytes_available (recvstate (w_stream control_world)))
    by (cbn; lia).
  repeat (split; [assumption || reflexivity|]).
  destruct (ingress_unistream_on_receive_control_accounting
              example_handle_control_stream_frame example_qpack_decoder_handle_input
              example_qpack_encoder_handle_input (h2o_buffer_reserve_model true)
              1 (mk_frame 0 0 0 0) control_world 0 [x00; x04] 2 (mk_buffer 2 2 [x00; x04])
              eq_refl eq_refl H3 eq_refl) as (ret & w' & Hr & Hc & _).
  exists ret, w'. split; assumption.
Defined.

(** The peer's first SETTINGS was empty; a second one follows. *)
Lemma settings_frame_accepted_once_witness :
  h2o_http3_handle_settings_frame fresh_conn [] [] 0 0
    = Returns (RET_OK, set_qpack_enc fresh_conn (Some (h2o_qpack_create_encoder 4096 100)),
               [Call_h2o_qpack_create_encoder 4096 100]) /\
  h2o_http3_read_frame (mk_frame 0 0 0 0) [x00; x04] 0 2 = (RET_OK, mk_frame 4 2 2 0, 2) /\
  frame_type (mk_frame 4 2 2 0) = H2O_HTTP3_FRAME_TYPE_SETTINGS /\
  control_stream_handle_input example_handle_control_stream_frame (mk_frame 0 0 0 0)
    (mk_world (set_qpack_enc fresh_conn (Some (h2o_qpack_create_encoder 4096 100)))
              (fresh_stream false 2) [])
    [x00; x04] 0 2
  = mk_handled (H2O_HTTP3_ERROR_MALFORMED_FRAME H2O_HTTP3_FRAME_TYPE_SETTINGS)
      (mk_world (set_qpack_enc fresh_conn (Some (h2o_qpack_create_encoder 4096 100)))
                (fresh_stream false 2) [])
      2.
Proof.
  repeat (split; [reflexivity|]).
  exact (settings_frame_accepted_once example_handle_control_stream_frame
           fresh_conn _ [] _ [] 0 0 (mk_frame 0 0 0 0) (mk_frame 4 2 2 0)
           (fresh_stream false 2) [] [x00; x04] 0 2 2 eq_refl eq_refl eq_refl).
Defined.

(** Three bytes queued, two asked for from offset 1. *)
Lemma egress_unistream_on_send_emit_wrote_all_witness :
  let stream := mk_egress (mk_buffer 3 3 [x43; x00; x04]) in
  0 <= 1 <= size (sendbuf stream) /\ size (sendbuf stream) < 2 ^ 64 /\ 0 <= 5 /\
  emit_len (egress_unistream_on_send_emit stream 1 (repeat x00 5) 5) = 2 /\
  emit_wrote_all (egress_unistream_on_send_emit stream 1 (repeat x00 5) 5) = 1.
Proof.
  cbv zeta.
  assert (H1 : 0 <= 1 <= size (sendbuf (mk_egress (mk_buffer 3 3 [x43; x00; x04]))))
    by (cbn; lia).
  assert (H2 : size (sendbuf (mk_egress (mk_buffer 3 3 [x43; x00; x04]))) < 2 ^ 64)
    by (cbn; lia).
  assert (H3 : 0 <= 5) by lia.
  split; [exact H1|]. split; [exact H2|]. split; [exact H3|].
  pose proof (egress_unistream_on_send_emit_wrote_all
                (mk_egress (mk_buffer 3 3 [x43; x00; x04])) 1 (repeat x00 5) 5 H1 H2 H3)
    as H.
  cbv zeta in H. destruct H as (Hlen & Hall & _).
  split; [exact Hlen|]. apply Hall. rewrite Hlen. reflexivity.
Defined.

Lemma egress_unistream_on_send_emit_from_start_witness :
  let stream := mk_egress (mk_buffer 3 3 [x43; x00; x04]) in
  0 <= 2 <= Z.of_nat (Datatypes.length [x00; x00]) /\
  0 <= size (sendbuf stream) <= Z.of_nat (Datatypes.length (bytes (sendbuf stream))) /\
  size (sendbuf stream) < 2 ^ 64 /\
  emit_dst (egress_unistream_on_send_emit stream 0 [x00; x00] 2)
  = slice (bytes (sendbuf stream)) 0
      (emit_len (egress_unistream_on_send_emit stream 0 [x00; x00] 2))
    ++ skipn (Z.to_nat (emit_len (egress_unistream_on_send_emit stream 0 [x00; x00] 2)))
             [x00; x00].
Proof.
  cbv zeta.
  assert (H1 : 0 <= 2 <= Z.of_nat (Datatypes.length [x00; x00])) by (cbn; lia).
  assert (H2 : 0 <= size (sendbuf (mk_egress (mk_buffer 3 3 [x43; x00; x04])))
               <= Z.of_nat (Datatypes.length
                              (bytes (sendbuf (mk_egress (mk_buffer 3 3 [x43; x00; x04]))))))
    by (cbn; lia).
  assert (H3 : size (sendbuf (mk_egress (mk_buffer 3 3 [x43; x00; x04]))) < 2 ^ 64)
    by (cbn; lia).
  split; [exact H1|]. split; [exact H2|]. split; [exact H3|].
  pose proof (egress_unistream_on_send_emit_from_start
                (mk_egress (mk_buffer 3 3 [x43; x00; x04])) [x00; x00] 2 H1 H2 H3) as H.
  cbv zeta in H. exact (proj2 (proj2 H)).
Defined.

(** Three bytes written twice at offset 2 of a buffer of eight. *)
Lemma h2o_http3_update_recvbuf_idempotent_witness :
  let buf := mk_buffer 8 1 (repeat x2e 8) in
  let once := h2o_http3_update_recvbuf (h2o_buffer_reserve_model true) buf 2
                [x61; x62; x63] 3 in
  fst once = RET_OK /\
  h2o_http3_update_recvbuf (h2o_buffer_reserve_model true) (snd once) 2 [x61; x62; x63] 3
  = (RET_OK, snd once).
Proof.
  cbv zeta. split; [reflexivity|].
  exact (h2o_http3_update_recvbuf_idempotent (h2o_buffer_reserve_model true)
           (mk_buffer 8 1 (repeat x2e 8)) 2 [x61; x62; x63] 3 eq_refl).
Defined.

Lemma h2o_http3_update_recvbuf_stores_witness :
  let buf := mk_buffer 8 1 (repeat x2e 8) in
  let reserve := h2o_buffer_reserve_model true in
  fst (h2o_http3_update_recvbuf reserve buf 2 [x61; x62; x63] 3) = RET_OK /\
  buffer_wf buf /\ buffer_wf (reserve buf (wrap64 (2 + 3))) /\
  0 <= 2 /\ Z.of_nat (Datatypes.length [x61; x62; x63]) = 3 /\ 2 + 3 < 2 ^ 64 /\
  exists base,
    (base = buf \/ base = reserve buf (wrap64 (2 + 3))) /\
    slice (bytes (snd (h2o_http3_update_recvbuf reserve buf 2 [x61; x62; x63] 3))) 2 3
    = [x61; x62; x63].
Proof.
  cbv zeta.
  assert (Hwf : buffer_wf (mk_buffer 8 1 (repeat x2e 8))) by (split; cbn; lia).
  assert (Hwfr : buffer_wf (h2o_buffer_reserve_model true (mk_buffer 8 1 (repeat x2e 8))
                              (wrap64 (2 + 3)))) by (split; cbn; lia).
  assert (H0 : 0 <= 2) by lia.
  assert (H1 : 2 + 3 < 2 ^ 64) by lia.
  split; [reflexivity|]. split; [exact Hwf|]. split; [exact Hwfr|].
  split; [exact H0|]. split; [reflexivity|]. split; [exact H1|].
  destruct (h2o_http3_update_recvbuf_stores (h2o_buffer_reserve_model true)
              (mk_buffer 8 1 (repeat x2e 8)) 2 [x61; x62; x63] 3
              eq_refl Hwf Hwfr H0 eq_refl H1) as (base & Hb & _ & _ & Hs & _).
  exists base. split; assumption.
Defined.

(** Three bytes appended to a buffer that holds one and must grow. *)
Lemma h2o_http3_update_recvbuf_in_order_witness :
  let buf := mk_buffer 2 1 [x43; x00] in
  let reserve := h2o_buffer_reserve_model true in
  fst (h2o_http3_update_recvbuf reserve buf (size buf) [x61; x62; x63] 3) = RET_OK /\
  buffer_wf buf /\ buffer_wf (reserve buf (wrap64 (size buf + 3))) /\
  contents (reserve buf (wrap64 (size buf + 3))) = contents buf /\
  size (reserve buf (wrap64 (size buf + 3))) = size buf /\
  Z.of_nat (Datatypes.length [x61; x62; x63]) = 3 /\ size buf + 3 < 2 ^ 64 /\
  contents (snd (h2o_http3_update_recvbuf reserve buf (size buf) [x61; x62; x63] 3))
  = contents buf ++ [x61; x62; x63].
Proof.
  cbv zeta.
  assert (Hwf : buffer_wf (mk_buffer 2 1 [x43; x00])) by (split; cbn; lia).
  assert (Hwfr : buffer_wf (h2o_buffer_reserve_model true (mk_buffer 2 1 [x43; x00])
                              (wrap64 (size (mk_buffer 2 1 [x43; x00]) + 3))))
    by (split; vm_compute; [reflexivity | split; discriminate]).
  assert (H1 : size (mk_buffer 2 1 [x43; x00]) + 3 < 2 ^ 64) by (cbn; lia).
  split; [reflexivity|]. split; [exact Hwf|]. split; [exact Hwfr|].
  split; [reflexivity|]. split; [reflexivity|]. split; [reflexivity|]. split; [exact H1|].
  exact (h2o_http3_update_recvbuf_in_order (h2o_buffer_reserve_model true)
           (mk_buffer 2 1 [x43; x00]) [x61; x62; x63] 3
           eq_refl Hwf Hwfr eq_refl eq_refl eq_refl H1).
Defined.

(** One round of two packets; the [sendmsg] of the first is interrupted once
    and the one of the second fails. *)
Lemma h2o_http3_send_rounds_witness :
  h2o_http3_send [(Quicly_send_ok, [[x01]; [x02]])] [(-1, true); (1, false); (-1, false)] []
  = Some (Send_returned, [], [],
          [Call_send_one [x01] 1; Call_free_packet [x01];
           Call_send_one [x02] (-1); Call_perror; Call_free_packet [x02];
           Call_h2o_http3_schedule_timer]) /\
  exists full last body closing,
    [(Quicly_send_ok, [[x01]; [x02]])] = full ++ [last] /\
    sent_packets body = flat_map snd full ++ snd last /\
    sent_then_freed (sent_packets body) body /\
    closing = Call_h2o_http3_schedule_timer.
Proof.
  split; [reflexivity|].
  destruct (h2o_http3_send_rounds [(Quicly_send_ok, [[x01]; [x02]])]
              [(-1, true); (1, false); (-1, false)] []
              Send_returned [] []
              [Call_send_one [x01] 1; Call_free_packet [x01];
               Call_send_one [x02] (-1); Call_perror; Call_free_packet [x02];
               Call_h2o_http3_schedule_timer]
              eq_refl)
    as (full & last & body & closing & Hs & _ & _ & _ & _ & Ho & _ & _ & Hsent & Hc).
  exists full, last, body, closing. repeat split; assumption.
Defined.

(** The same peer and connection id on both sides. *)
Lemma accepting_hashkey_input_injective_witness :
  example_AF_INET mod 256 <> example_AF_INET6 mod 256 /\
  sockaddr_wf example_AF_INET example_AF_INET6 example_peer /\
  accepting_hashkey_input example_AF_INET example_AF_INET6 example_peer example_cid
  = Some [x02; x0a; x00; x00; x01; x01; xbb; x04; x01; x02; x03; x04] /\
  (example_peer = example_peer /\ example_cid = example_cid).
Proof.
  assert (Hfam : example_AF_INET mod 256 <> example_AF_INET6 mod 256)
    by (vm_compute; discriminate).
  assert (Hwf : sockaddr_wf example_AF_INET example_AF_INET6 example_peer).
  { split; [left; split; reflexivity|]. cbn. lia. }
  split; [exact Hfam|]. split; [exact Hwf|]. split; [reflexivity|].
  exact (accepting_hashkey_input_injective example_AF_INET example_AF_INET6
           example_peer example_peer example_cid example_cid Hfam Hwf Hwf eq_refl).
Defined.

Lemma calc_accepting_hashkey_fits_witness :
  example_AF_INET <> example_AF_INET6 /\
  sockaddr_wf example_AF_INET example_AF_INET6 example_peer /\
  calc_accepting_hashkey example_AF_INET example_AF_INET6 example_hmac example_peer
    (repeat x00 33) = Aborts.
Proof.
  assert (Hfam : example_AF_INET <> example_AF_INET6) by discriminate.
  assert (Hwf : sockaddr_wf example_AF_INET example_AF_INET6 example_peer).
  { split; [left; split; reflexivity|]. cbn. lia. }
  split; [exact Hfam|]. split; [exact Hwf|].
  rewrite (calc_accepting_hashkey_fits example_AF_INET example_AF_INET6 example_hmac
             example_peer (repeat x00 33) Hfam Hwf).
  reflexivity.
Defined.

(** The connection of the example is found by the accept hash. *)
Lemma find_connection_sound_witness :
  example_find_connection example_ctx_after_setup example_peer (mk_packet example_cid [])
  = Returns (Some 1) /\
  example_quicly_is_destination 1 example_peer (mk_packet example_cid []) = true.
Proof.
  split; [reflexivity|].
  exact (proj1 (find_connection_sound example_AF_INET example_AF_INET6 example_hmac
                  example_might_be_client_generated example_cid_dest_plaintext
                  example_quicly_is_client example_quicly_is_destination
                  example_ctx_after_setup example_peer (mk_packet example_cid []) 1
                  eq_refl)).
Defined.


(** The setup of the example. *)
Lemma h2o_http3_setup_registers_witness :
  example_after_setup
  = Returns (RET_OK, example_ctx_after_setup, example_conn_after_setup,
             example_trace_after_setup) /\
  kh_get (conns_by_id example_ctx_after_setup) 7 = Some 1 /\
  cs_quic example_conn_after_setup = Some 1 /\
  qpack_dec (cs_conn example_conn_after_setup) = Some (h2o_qpack_create_decoder 4096 100).
Proof.
  split; [reflexivity|].
  pose proof (h2o_http3_setup_registers example_AF_INET example_AF_INET6 example_hmac
                example_quicly_is_client example_quicly_get_master_id
                example_quicly_get_peername example_quicly_get_offered_cid
                (h2o_buffer_reserve_model true) false 125 100
                (RET_OK, RET_OK) (RET_OK, RET_OK) (RET_OK, RET_OK)
                (h2o_http3_init_context None) example_ctx_after_setup
                h2o_http3_init_conn example_conn_after_setup 1 []
                example_trace_after_setup RET_OK eq_refl)
    as (Hid & _ & Hq & Hd & _).
  split; [exact (Hid 7)|]. split; [exact Hq|exact Hd].
Defined.

Lemma h2o_http3_setup_egress_bytes_witness :
  reserve_init_ok (h2o_buffer_reserve_model true) 3 /\
  reserve_init_ok (h2o_buffer_reserve_model true) 1 /\
  example_after_setup
  = Returns (RET_OK, example_ctx_after_setup, example_conn_after_setup,
             example_trace_after_setup) /\
  exists c e d,
    cs_egress_control example_conn_after_setup = Some c /\
    contents (sendbuf c) = [x43; x00; x04] /\
    cs_egress_qpack_encoder example_conn_after_setup = Some e /\
    contents (sendbuf e) = [x48] /\
    cs_egress_qpack_decoder example_conn_after_setup = Some d /\
    contents (sendbuf d) = [x68].
Proof.
  assert (H3 : reserve_init_ok (h2o_buffer_reserve_model true) 3).
  { split; [split; vm_compute; [reflexivity|split; discriminate]|].
    split; [reflexivity|vm_compute; discriminate]. }
  assert (H1 : reserve_init_ok (h2o_buffer_reserve_model true) 1).
  { split; [split; vm_compute; [reflexivity|split; discriminate]|].
    split; [reflexivity|vm_compute; discriminate]. }
  split; [exact H3|]. split; [exact H1|]. split; [reflexivity|].
  exact (proj2 (proj2 (proj2
           (h2o_http3_setup_egress_bytes example_AF_INET example_AF_INET6 example_hmac
              example_quicly_is_client example_quicly_get_master_id
              example_quicly_get_peername example_quicly_get_offered_cid
              (h2o_buffer_reserve_model true) false 125 100
              (RET_OK, RET_OK) (RET_OK, RET_OK) (RET_OK, RET_OK)
              (h2o_http3_init_context None) example_ctx_after_setup
              h2o_http3_init_conn example_conn_after_setup 1 []
              example_trace_after_setup H3 H1 eq_refl)))).
Defined.

Lemma h2o_http3_setup_dispose_witness :
  example_after_setup
  = Returns (RET_OK, example_ctx_after_setup, example_conn_after_setup,
             example_trace_after_setup) /\
  exists ctx'' timer tr'',
    example_dispose example_ctx_after_setup example_conn_after_setup
      example_trace_after_setup = Returns (ctx'', timer, tr'') /\
    kh_get (conns_by_id ctx'') 7 = None /\
    timer_linked timer = false /\
    tr'' = example_trace_after_setup
           ++ [Call_h2o_qpack_destroy_decoder; Call_quicly_free 1; Call_h2o_timer_unlink].
Proof.
  split; [reflexivity|].
  destruct (h2o_http3_setup_dispose example_AF_INET example_AF_INET6 example_hmac
              example_quicly_is_client example_quicly_get_master_id
              example_quicly_get_peername example_quicly_get_offered_cid
              (h2o_buffer_reserve_model true) false 125 100
              (RET_OK, RET_OK) (RET_OK, RET_OK) (RET_OK, RET_OK)
              (h2o_http3_init_context None) example_ctx_after_setup
              h2o_http3_init_conn example_conn_after_setup 1 []
              example_trace_after_setup RET_OK eq_refl)
    as (ctx'' & timer & tr'' & Hd & Hid & _ & Ht & Htr).
  exists ctx'', timer, tr''. split; [exact Hd|]. split; [exact (Hid 7)|].
  split; [exact Ht|exact Htr].
Defined.

Lemma h2o_http3_setup_then_find_witness :
  example_after_setup
  = Returns (RET_OK, example_ctx_after_setup, example_conn_after_setup,
             example_trace_after_setup) /\
  example_quicly_is_destination 1 example_peer (mk_packet example_cid []) = true /\
  example_find_connection example_ctx_after_setup example_peer (mk_packet example_cid [])
  = Returns (Some 1).
Proof.
  split; [reflexivity|]. split; [reflexivity|].
  exact (proj2 (h2o_http3_setup_then_find example_AF_INET example_AF_INET6 example_hmac
                  example_might_be_client_generated example_cid_dest_plaintext
                  example_quicly_is_client example_quicly_is_destination
                  example_quicly_get_master_id example_quicly_get_peername
                  example_quicly_get_offered_cid
                  (h2o_buffer_reserve_model true) false 125 100
                  (RET_OK, RET_OK) (RET_OK, RET_OK) (RET_OK, RET_OK)
                  (h2o_http3_init_context None) example_ctx_after_setup
                  h2o_http3_init_conn example_conn_after_setup 1 []
                  example_trace_after_setup RET_OK example_peer
                  (mk_packet example_cid []) eq_refl eq_refl)
               eq_refl eq_refl eq_refl eq_refl).
Defined.

(** ** Emitting and shifting *)

(** X26. What the transport takes from an egress stream and what is left add
    up: after [egress_unistream_on_send_emit] from offset 0 and
    [egress_unistream_on_send_shift] by the emitted length, the bytes emitted
    followed by the bytes still in the send buffer are the bytes that were in
    it, and if [wrote_all] was set the send buffer is empty. *)
Theorem egress_unistream_emit_then_shift (stream : st_h2o_http3_egress_unistream_t)
    (dst : memory) (len : Z) :
  0 <= len <= Z.of_nat (Datatypes.length dst) ->
  0 <= size (sendbuf stream) <= Z.of_nat (Datatypes.length (bytes (sendbuf stream))) ->
  size (sendbuf stream) < 2 ^ 64 ->
  let r := egress_unistream_on_send_emit stream 0 dst len in
  let rest := egress_unistream_on_send_shift stream (emit_len r) in
  contents (sendbuf stream)
    = firstn (Z.to_nat (emit_len r)) (emit_dst r) ++ contents (sendbuf rest) /\
  size (sendbuf rest) = size (sendbuf stream) - emit_len r /\
  (emit_wrote_all r = 1 -> size (sendbuf rest) = 0).
Proof.
  intros Hlen Hsz Hmax.
  assert (Hcut : forall n, 0 <= n <= size (sendbuf stream) ->
    contents (sendbuf stream)
    = firstn (Z.to_nat n)
        (firstn (Z.to_nat 0) dst ++ firstn (Z.to_nat n) (bytes (sendbuf stream))
           ++ skipn (Z.to_nat (0 + n)) dst)
      ++ contents (h2o_buffer_consume (sendbuf stream) n) /\
    size (h2o_buffer_consume (sendbuf stream) n) = size (sendbuf stream) - n).
  { intros n Hn. unfold h2o_buffer_consume, contents, slice, wrap64.
    cbn [bytes size Z.to_nat skipn firstn app].
    rewrite Z.mod_small by lia. split; [|reflexivity].
    rewrite firstn_app, firstn_firstn, Nat.min_id, length_firstn.
    replace (Z.to_nat n - Nat.min (Z.to_nat n) (Datatypes.length (bytes (sendbuf stream))))%nat
      with 0%nat by lia.
    cbn [firstn]. rewrite app_nil_r.
    rewrite <- (firstn_skipn (Z.to_nat n) (bytes (sendbuf stream))) at 1.
    rewrite firstn_app, length_firstn.
    rewrite firstn_firstn.
    replace (Nat.min (Z.to_nat (size (sendbuf stream))) (Z.to_nat n)) with (Z.to_nat n)
      by lia.
    f_equal. f_equal. lia. }
  unfold egress_unistream_on_send_emit, egress_unistream_on_send_shift, wrap64.
  rewrite Z.sub_0_r, Z.mod_small by lia.
  destruct (Z.leb_spec (size (sendbuf stream)) len) as [Hle|Hgt];
    cbn [emit_len emit_dst emit_wrote_all sendbuf];
    rewrite memcpy_splice by lia.
  - destruct (Hcut (size (sendbuf stream)) ltac:(lia)) as [Hc Hs].
    split; [exact Hc|]. split; [exact Hs|]. intros _. rewrite Hs. lia.
  - destruct (Hcut len ltac:(lia)) as [Hc Hs].
    split; [exact Hc|]. split; [exact Hs|]. intros H. discriminate.
Qed.

Lemma egress_unistream_emit_then_shift_witness :
  let stream := mk_egress (mk_buffer 3 3 [x43; x00; x04]) in
  let r := egress_unistream_on_send_emit stream 0 [x00; x00] 2 in
  0 <= 2 <= Z.of_nat (Datatypes.length [x00; x00]) /\
  0 <= size (sendbuf stream) <= Z.of_nat (Datatypes.length (bytes (sendbuf stream))) /\
  size (sendbuf stream) < 2 ^ 64 /\
  contents (sendbuf stream)
  = firstn (Z.to_nat (emit_len r)) (emit_dst r)
    ++ contents (sendbuf (egress_unistream_on_send_shift stream (emit_len r))).
Proof.
  cbv zeta.
  assert (H1 : 0 <= 2 <= Z.of_nat (Datatypes.length [x00; x00])) by (cbn; lia).
  assert (H2 : 0 <= size (sendbuf (mk_egress (mk_buffer 3 3 [x43; x00; x04])))
               <= Z.of_nat (Datatypes.length
                              (bytes (sendbuf (mk_egress (mk_buffer 3 3 [x43; x00; x04]))))))
    by (cbn; lia).
  assert (H3 : size (sendbuf (mk_egress (mk_buffer 3 3 [x43; x00; x04]))) < 2 ^ 64)
    by (cbn; lia).
  split; [exact H1|]. split; [exact H2|]. split; [exact H3|].
  pose proof (egress_unistream_emit_then_shift
                (mk_egress (mk_buffer 3 3 [x43; x00; x04])) [x00; x00] 2 H1 H2 H3) as H.
  cbv zeta in H. exact (proj1 H).
Defined.

(** ** Sending one packet *)

(** X27. [send_one] calls [sendmsg] again exactly while it fails with
    [EINTR]: it returns [ret] when, after some number of calls that returned
    -1 with [EINTR], a call returned [ret] and, if [ret] is -1, did so with
    another [errno]; a -1 that [send_one] returns is never an interrupted
    call. *)
Theorem send_one_retries_on_eintr (answers rest : list sendmsg_answer) (ret : Z) :
  send_one answers = Some (ret, rest) <->
  exists (n : nat) (eintr : bool),
    answers = repeat (-1, true) n ++ (ret, eintr) :: rest /\
    (ret = -1 -> eintr = false).
Proof.
  split.
  - induction answers as [|[r e] answers IH]; [discriminate|].
    cbn [send_one]. destruct (Z.eqb_spec r (-1)) as [Hr|Hr]; cbn [andb].
    + destruct e.
      * intros H. destruct (IH H) as (n & eintr & -> & He).
        exists (S n), eintr. subst r. split; [reflexivity|exact He].
      * intros H. injection H as <- <-. exists 0%nat, false. split; reflexivity.
    + intros H. injection H as <- <-. exists 0%nat, e. split; [reflexivity|].
      intros; contradiction.
  - intros (n & eintr & -> & He).
    induction n as [|n IH]; cbn [repeat app send_one].
    + destruct (Z.eqb_spec ret (-1)) as [Hr|Hr]; cbn [andb]; [|reflexivity].
      rewrite (He Hr). reflexivity.
    + cbn. exact IH.
Qed.

(** ** A new stream of an unknown type *)

Section NewIngressStream.

Variable handle_control_stream_frame :
  h2o_http3_conn_t -> Z -> memory -> Z -> Z -> retcode * h2o_http3_conn_t.
Variable h2o_qpack_decoder_handle_input :
  option h2o_qpack_decoder_t -> memory -> Z -> Z ->
  retcode * option h2o_qpack_decoder_t * Z.
Variable h2o_qpack_encoder_handle_input :
  option h2o_qpack_encoder_t -> memory -> Z -> Z ->
  retcode * option h2o_qpack_encoder_t * Z.
Variable h2o_buffer_reserve : h2o_buffer_t -> Z -> h2o_buffer_t.

(** X28. The first bytes of a stream that the peer opened, when the buffer
    took them and the first byte is none of 'C', 'H' and 'h': the receive
    callback returns 0, the transport is asked once to stop the sender, all
    available bytes are dropped from the receive buffer and reported as
    consumed, the stream discards its input from then on, and the connection
    is as it was. *)
Theorem new_ingress_unistream_unknown_type (fuel : nat) (frame : h2o_http3_read_frame_t)
    (conn : h2o_http3_conn_t) (tr : trace) (id : Z) (rs : quicly_recvstate_t)
    (s : st_h2o_http3_ingress_unistream_t) (input : list byte) (len : Z)
    (saved : h2o_buffer_t) :
  h2o_http3_on_create_unidirectional_stream false id rs = Ingress_unistream s ->
  transfer_complete rs = false ->
  bytes_available rs <> 0 ->
  h2o_http3_update_recvbuf h2o_buffer_reserve (recvbuf s) 0 input len = (RET_OK, saved) ->
  load (bytes saved) 0 <> 67 -> load (bytes saved) 0 <> 72 -> load (bytes saved) 0 <> 104 ->
  exists w',
    ingress_unistream_on_receive handle_control_stream_frame
      h2o_qpack_decoder_handle_input h2o_qpack_encoder_handle_input h2o_buffer_reserve
      fuel frame (mk_world conn s tr) 0 input len = Some (RET_OK, w') /\
    w_conn w' = conn /\
    w_trace w' = tr ++ [Call_quicly_request_stop id] /\
    handle_input (w_stream w') = HI_unknown_stream_type /\
    recvbuf (w_stream w') = h2o_buffer_consume saved (bytes_available rs) /\
    bytes_available (recvstate (w_stream w')) = 0.
Proof.
  intros Hnew Hfin Hav Hsave H67 H72 H104.
  unfold h2o_http3_on_create_unidirectional_stream in Hnew. injection Hnew as <-.
  unfold ingress_unistream_on_receive. cbn [w_stream recvbuf] in *. rewrite Hsave.
  unfold call_handle_input, unknown_type_handle_input, call_typed_handle_input,
    unknown_stream_type_handle_input, quicly_stream_sync_recvbuf, set_recvstate,
    set_recvbuf, set_handle_input.
  cbn [retcode_eqb negb w_stream recvstate w_conn w_trace stream_id handle_input recvbuf
       bytes h_src h_world h_ret Z.add].
  rewrite Hfin.
  destruct (Z.eqb_spec 0 (bytes_available rs)) as [Hz|_]; [congruence|].
  destruct (Z.eqb_spec (load (bytes saved) 0) 67); [contradiction|].
  destruct (Z.eqb_spec (load (bytes saved) 0) 72); [contradiction|].
  destruct (Z.eqb_spec (load (bytes saved) 0) 104); [contradiction|].
  cbn [retcode_eqb negb w_stream recvstate w_conn w_trace stream_id handle_input recvbuf
       bytes h_src h_world h_ret Z.add].
  rewrite Z.sub_0_r.
  destruct (Z.eqb_spec (bytes_available rs) 0) as [Hz|_]; [congruence|]. cbn [negb].
  eexists. split; [reflexivity|].
  cbn [w_stream recvstate w_conn w_trace handle_input recvbuf bytes_available].
  repeat split; try reflexivity. lia.
Qed.

End NewIngressStream.

(** Two bytes of a stream of type 7f. *)
Lemma new_ingress_unistream_unknown_type_witness :
  h2o_http3_on_create_unidirectional_stream false 2 (mk_recvstate false 2)
  = Ingress_unistream (fresh_stream false 2) /\
  transfer_complete (mk_recvstate false 2) = false /\
  bytes_available (mk_recvstate false 2) <> 0 /\
  h2o_http3_update_recvbuf (h2o_buffer_reserve_model true)
    (recvbuf (fresh_stream false 2)) 0 [x7f; x00] 2
  = (RET_OK, mk_buffer 2 2 [x7f; x00]) /\
  load [x7f; x00] 0 <> 67 /\ load [x7f; x00] 0 <> 72 /\ load [x7f; x00] 0 <> 104 /\
  exists w',
    ingress_unistream_on_receive example_handle_control_stream_frame
      example_qpack_decoder_handle_input example_qpack_encoder_handle_input
      (h2o_buffer_reserve_model true) 1 (mk_frame 0 0 0 0)
      (mk_world fresh_conn (fresh_stream false 2) []) 0 [x7f; x00] 2 = Some (RET_OK, w') /\
    w_trace w' = [] ++ [Call_quicly_request_stop 2] /\
    bytes_available (recvstate (w_stream w')) = 0.
Proof.
  assert (Hav : bytes_available (mk_recvstate false 2) <> 0) by (cbn; discriminate).
  assert (H1 : load [x7f; x00] 0 <> 67) by (vm_compute; discriminate).
  assert (H2 : load [x7f; x00] 0 <> 72) by (vm_compute; discriminate).
  assert (H3 : load [x7f; x00] 0 <> 104) by (vm_compute; discriminate).
  split; [reflexivity|]. split; [reflexivity|]. split; [exact Hav|].
  split; [reflexivity|]. split; [exact H1|]. split; [exact H2|]. split; [exact H3|].
  destruct (new_ingress_unistream_unknown_type example_handle_control_stream_frame
              example_qpack_decoder_handle_input example_qpack_encoder_handle_input
              (h2o_buffer_reserve_model true) 1 (mk_frame 0 0 0 0) fresh_conn [] 2
              (mk_recvstate false 2) (fresh_stream false 2) [x7f; x00] 2
              (mk_buffer 2 2 [x7f; x00]) eq_refl eq_refl Hav eq_refl H1 H2 H3)
    as (w' & Hr & _ & Ht & _ & _ & Hb).
  exists w'. repeat split; assumption.
Defined.
